(** * DiskBench shell extension: the Explorer command object

    A shallow embedding of the context-menu command of the DiskBench shell
    extension (ExplorerCommand.cpp, dllmain.cpp), of its logger (Logger.cpp)
    and of the older copy kept under DiskBench/DiskBench.ShellExtension.Cpp,
    followed by the properties of the command contract: selection validation,
    configuration lookup, visibility, invocation, icon and reference
    counting.

    Conventions of the embedding
    - a [wchar_t] is a 16-bit code unit held in [Z]; a wide string is the
      list of the code units before its terminating NUL;
    - [HRESULT] and [LONG] are signed 32-bit values held in [Z], [ULONG],
      [DWORD] and [UINT] unsigned ones; wrap-around is written out;
    - a nullable pointer is an [option]; a buffer handed to a callee is the
      string it holds, and the callee returns the string it holds afterwards;
    - what the operating system, the C runtime and the host answer is read
      from an environment record [Env]; calls that act on the outside world
      are recorded, in order, in a trace of [Event]s;
    - diagnostic output is kept apart: the OutputDebugString and LogMessage
      calls of the command and of the exports are not part of their traces,
      and the logger is embedded on its own in [Logger], with the file
      system calls it makes. *)

From Stdlib Require Import ZArith List String Ascii Bool Lia.
Import ListNotations.
Local Open Scope Z_scope.

(** ** Win32 types, constants and library routines *)
Module Win32.

Definition wchar_t := Z.
Abbreviation wstring := (list wchar_t) (only parsing).
Definition HRESULT := Z.
Definition LONG := Z.
Definition ULONG := Z.
Definition DWORD := Z.
Definition UINT := Z.
Definition BOOL := Z.
Definition HANDLE := Z.
Definition HKEY := Z.
Definition HINSTANCE := Z.

(** Reinterpretation of an integer as a 32-bit two's complement LONG and as a
    32-bit ULONG. *)
Definition to_LONG (z : Z) : LONG := (z + 2 ^ 31) mod 2 ^ 32 - 2 ^ 31.
Definition to_ULONG (z : Z) : ULONG := z mod 2 ^ 32.

Definition S_OK : HRESULT := 0.
Definition S_FALSE : HRESULT := 1.
Definition E_NOTIMPL : HRESULT := to_LONG 0x80004001.
Definition E_NOINTERFACE : HRESULT := to_LONG 0x80004002.
Definition E_POINTER : HRESULT := to_LONG 0x80004003.
Definition E_FAIL : HRESULT := to_LONG 0x80004005.
Definition E_OUTOFMEMORY : HRESULT := to_LONG 0x8007000E.
Definition E_INVALIDARG : HRESULT := to_LONG 0x80070057.
Definition CLASS_E_NOAGGREGATION : HRESULT := to_LONG 0x80040110.
Definition CLASS_E_CLASSNOTAVAILABLE : HRESULT := to_LONG 0x80040111.
Definition STRSAFE_E_INSUFFICIENT_BUFFER : HRESULT := to_LONG 0x8007007A.
Definition STRSAFE_E_INVALID_PARAMETER : HRESULT := to_LONG 0x80070057.

Definition SUCCEEDED (hr : HRESULT) : bool := 0 <=? hr.
Definition FAILED (hr : HRESULT) : bool := hr <? 0.

Definition ERROR_SUCCESS : LONG := 0.
Definition ERROR_FILE_NOT_FOUND : LONG := 2.

Definition MAX_PATH : Z := 260.
Definition STRSAFE_MAX_CCH : Z := 2147483647.

Definition HKEY_CURRENT_USER : HKEY := 0x80000001.
Definition HKEY_LOCAL_MACHINE : HKEY := 0x80000002.

(** EXPCMDSTATE and EXPCMDFLAGS values used by the command. *)
Definition EXPCMDSTATE := Z.
Definition ECS_ENABLED : EXPCMDSTATE := 0.
Definition ECS_DISABLED : EXPCMDSTATE := 1.
Definition ECS_HIDDEN : EXPCMDSTATE := 2.
Definition EXPCMDFLAGS := Z.
Definition ECF_DEFAULT : EXPCMDFLAGS := 0.

Inductive SIGDN := SIGDN_NORMALDISPLAY | SIGDN_FILESYSPATH.

(** Wide character and wide string literals. *)
Definition WCH (a : ascii) : wchar_t := Z.of_N (N_of_ascii a).
Definition L (s : string) : wstring := map WCH (list_ascii_of_string s).
Definition DQUOTE : wchar_t := 34.

(** [wcslen] and indexing; reading index [wcslen s] gives the terminator. *)
Definition wcslen (s : wstring) : Z := Z.of_nat (List.length s).
Definition wch_at (s : wstring) (i : nat) : wchar_t := nth i s 0.

(** GUIDs. *)
Record GUID := mkGUID {
  Data1 : Z; Data2 : Z; Data3 : Z; Data4 : list Z
}.

Definition GUID_eqb (a b : GUID) : bool :=
  (Data1 a =? Data1 b) && (Data2 a =? Data2 b) && (Data3 a =? Data3 b)
  && (if list_eq_dec Z.eq_dec (Data4 a) (Data4 b) then true else false).

Definition IID_IUnknown : GUID :=
  mkGUID 0x00000000 0x0000 0x0000 [0xC0; 0x00; 0x00; 0x00; 0x00; 0x00; 0x00; 0x46].
Definition IID_IClassFactory : GUID :=
  mkGUID 0x00000001 0x0000 0x0000 [0xC0; 0x00; 0x00; 0x00; 0x00; 0x00; 0x00; 0x46].
Definition IID_IExplorerCommand : GUID :=
  mkGUID 0xa08ce4d0 0xfa25 0x44ab [0xb5; 0x7c; 0xc7; 0xb1; 0xc3; 0x23; 0xe0; 0xb9].

(** strsafe.h: [StringCchCopy pszDest cchDest pszSrc].  The destination
    keeps [cchDest - 1] characters at most and is always terminated.  A
    destination size of zero is refused and nothing is stored; a size above
    STRSAFE_MAX_CCH is refused as well, and a terminator is stored at
    [pszDest[0]], which leaves the destination empty. *)
Definition StringCchCopy (pszDest : wstring) (cchDest : Z) (pszSrc : wstring)
  : HRESULT * wstring :=
  if cchDest =? 0
  then (STRSAFE_E_INVALID_PARAMETER, pszDest)
  else if STRSAFE_MAX_CCH <? cchDest
  then (STRSAFE_E_INVALID_PARAMETER, [])
  else if wcslen pszSrc <? cchDest
       then (S_OK, pszSrc)
       else (STRSAFE_E_INSUFFICIENT_BUFFER, firstn (Z.to_nat (cchDest - 1)) pszSrc).

(** The part of printf formatting the sources use: [%s] takes the next wide
    string argument, every other character is copied. *)
Fixpoint wformat (fmt : wstring) (args : list wstring) : wstring :=
  match fmt with
  | [] => []
  | c :: rest =>
      match rest with
      | d :: rest' =>
          if (c =? WCH "%") && (d =? WCH "s")
          then match args with
               | a :: args' => a ++ wformat rest' args'
               | [] => wformat rest' []
               end
          else c :: wformat rest args
      | [] => [c]
      end
  end.

(** strsafe.h: [StringCchPrintf pszDest cchDest pszFormat ...]. *)
Definition StringCchPrintf (pszDest : wstring) (cchDest : Z)
    (pszFormat : wstring) (args : list wstring) : HRESULT * wstring :=
  StringCchCopy pszDest cchDest (wformat pszFormat args).

End Win32.
Import Win32.

(** ** The host, the operating system and the trace of calls *)

(** IShellItem and IShellItemArray as the command sees them: the answers of
    the methods it calls.  [GetItemAt] is [None] when the call fails. *)
Record IShellItem := {
  GetDisplayName : SIGDN -> HRESULT * option wstring
}.

Record IShellItemArray := {
  GetCount : HRESULT * DWORD;
  GetItemAt : DWORD -> option IShellItem
}.

Record PROCESS_INFORMATION := {
  hProcess : HANDLE;
  hThread : HANDLE
}.

(** A pointer the code only compares with nullptr or hands on; 0 is nullptr. *)
Definition PVOID := Z.
Definition nullptr : PVOID := 0.

(** A nullable LPWSTR: the string it points to. *)
Abbreviation LPWSTR := (option wstring) (only parsing).

Definition buf_str (p : LPWSTR) : wstring :=
  match p with
  | Some s => s
  | None => []
  end.

(** Answers of the C runtime and of the operating system.
    - [towupper]: the C runtime's wide upper-casing (it depends on the locale);
    - [RegOpenKeyEx hKey subKey]: status and opened key;
    - [RegQueryValueEx hKey name cbData]: status and the string left in the
      caller's buffer of [cbData] bytes;
    - [GetModuleFileNameW hModule nSize]: returned length and the string left
      in the caller's buffer;
    - [CoTaskMemAlloc cb]: whether the allocation of [cb] bytes succeeds;
    - [CreateProcess app cmdLine]: BOOL result and process information;
    - [operator_new]: the address [new (std::nothrow)] returns, 0 on failure. *)
Record Env := {
  towupper : wchar_t -> wchar_t;
  RegOpenKeyEx : HKEY -> wstring -> LONG * HKEY;
  RegQueryValueEx : HKEY -> wstring -> DWORD -> LONG * wstring;
  GetModuleFileNameW : HINSTANCE -> DWORD -> DWORD * wstring;
  CoTaskMemAlloc : Z -> bool;
  CreateProcess : wstring -> wstring -> BOOL * PROCESS_INFORMATION;
  operator_new : PVOID
}.

Inductive Event :=
| EvRegOpenKeyEx (hKey : HKEY) (subKey : wstring)
| EvRegQueryValueEx (hKey : HKEY) (name : wstring)
| EvRegCloseKey (hKey : HKEY)
| EvCoTaskMemFree
| EvShellItemRelease
| EvCreateProcess (app cmdLine : wstring)
| EvCloseHandle (h : HANDLE)
| EvConstructed
| EvDestructed.

(** A call that appends to the trace. *)
Definition Call (A : Type) : Type := list Event -> A * list Event.

Definition ret {A} (a : A) : Call A := fun tr => (a, tr).

Definition bind {A B} (c : Call A) (k : A -> Call B) : Call B :=
  fun tr => let (a, tr') := c tr in k a tr'.

Definition emit (e : Event) : Call unit := fun tr => (tt, tr ++ [e]).

Definition run {A} (c : Call A) : A * list Event := c [].

Declare Scope call_scope.
Delimit Scope call_scope with call.
Notation "x <- c ;; k" := (bind c (fun x => k))
  (at level 61, c at next level, right associativity) : call_scope.
Notation "' pat <- c ;; k" := (bind c (fun x => match x with pat => k end))
  (at level 61, pat pattern, c at next level, right associativity) : call_scope.
Notation "c ;; k" := (bind c (fun _ => k))
  (at level 61, right associativity) : call_scope.
Local Open Scope call_scope.

Definition is_launch (e : Event) : bool :=
  match e with
  | EvCreateProcess _ _ => true
  | _ => false
  end.

Definition is_destruction (e : Event) : bool :=
  match e with
  | EvDestructed => true
  | _ => false
  end.

Definition is_open (e : Event) : bool :=
  match e with
  | EvRegOpenKeyEx _ _ => true
  | _ => false
  end.

(** The process launches, the destructor runs and the registry keys opened
    that a trace records. *)
Definition launches (tr : list Event) : list Event := filter is_launch tr.
Definition destructions (tr : list Event) : nat := List.length (filter is_destruction tr).
Definition opens (tr : list Event) : list Event := filter is_open tr.

Definition CONFIG_REG_PATH : wstring := L "SOFTWARE\DiskBench\ShellExtension".
Definition sizeof_wchar_t : Z := 2.

(** ** DiskBench.ShellExtension.Cpp: ExplorerCommand.cpp and dllmain.cpp *)
Module ShellExtension.

(** The only data member of the class. *)
Record ExplorerCommand := {
  m_refCount : LONG
}.

Definition InterlockedIncrement (v : LONG) : LONG := to_LONG (v + 1).
Definition InterlockedDecrement (v : LONG) : LONG := to_LONG (v - 1).

(** ExplorerCommand::ExplorerCommand and ExplorerCommand::~ExplorerCommand *)
Definition ExplorerCommand_ctor : Call ExplorerCommand :=
  emit EvConstructed ;;
  ret {| m_refCount := 1 |}.

Definition ExplorerCommand_dtor (this : ExplorerCommand) : Call unit :=
  emit EvDestructed.

(** ExplorerCommand::AddRef *)
Definition AddRef (this : ExplorerCommand) : ULONG * ExplorerCommand :=
  let v := InterlockedIncrement (m_refCount this) in
  (to_ULONG v, {| m_refCount := v |}).

(** ExplorerCommand::Release.  The second component is the instance after the
    call; it is [None] once [delete this] has run. *)
Definition Release (this : ExplorerCommand) : Call (ULONG * option ExplorerCommand) :=
  let refCount := InterlockedDecrement (m_refCount this) in
  if refCount =? 0
  then ExplorerCommand_dtor {| m_refCount := refCount |} ;;
       ret (to_ULONG refCount, None)
  else ret (to_ULONG refCount, Some {| m_refCount := refCount |}).

(** ExplorerCommand::QueryInterface.  [pThis] is the address of the instance,
    [ppv] the cell the caller passes ([None] for a null [ppv]); the result
    carries the cell afterwards and the instance afterwards. *)
Definition QueryInterface (pThis : PVOID) (this : ExplorerCommand)
    (riid : GUID) (ppv : option PVOID)
  : HRESULT * option PVOID * ExplorerCommand :=
  match ppv with
  | None => (E_POINTER, None, this)
  | Some _ =>
      if GUID_eqb riid IID_IUnknown || GUID_eqb riid IID_IExplorerCommand
      then let '(_, this') := AddRef this in
           (S_OK, Some pThis, this')
      else (E_NOINTERFACE, Some nullptr, this)
  end.

(** ExplorerCommand::GetSelectedDrivePath *)
Definition GetSelectedDrivePath (env : Env)
    (psiItemArray : option IShellItemArray) (pszPath : LPWSTR) (cchPath : UINT)
  : Call (HRESULT * LPWSTR) :=
  match psiItemArray, pszPath with
  | Some sia, Some buf =>
      if cchPath =? 0 then ret (E_INVALIDARG, pszPath) else
      let '(hrCount, count) := GetCount sia in
      if FAILED hrCount || (count =? 0) then ret (S_FALSE, pszPath) else
      match GetItemAt sia 0 with
      | None => ret (E_FAIL, pszPath)
      | Some psi =>
          let '(hr, pszName) := GetDisplayName psi SIGDN_FILESYSPATH in
          match (if SUCCEEDED hr then pszName else None) with
          | Some name =>
              let nameLen := wcslen name in
              if (2 <=? nameLen) && (wch_at name 1 =? WCH ":")
                 && ((nameLen =? 2)
                     || ((nameLen =? 3)
                         && ((wch_at name 2 =? WCH "\") || (wch_at name 2 =? WCH "/"))))
              then
                let drivePath := [towupper env (wch_at name 0); WCH ":"; WCH "\"] in
                let '(_, out) := StringCchCopy buf cchPath drivePath in
                emit EvCoTaskMemFree ;;
                emit EvShellItemRelease ;;
                ret (S_OK, Some out)
              else
                emit EvCoTaskMemFree ;;
                emit EvShellItemRelease ;;
                ret (S_FALSE, pszPath)
          | None =>
              emit EvShellItemRelease ;;
              ret (S_FALSE, pszPath)
          end
      end
  | _, _ => ret (E_INVALIDARG, pszPath)
  end.

(** ExplorerCommand::ReadExePathFromRegistry; the caller passes a buffer that
    is not null. *)
Definition ReadExePathFromRegistry (env : Env) (pszExePath : wstring) (cchExePath : UINT)
  : Call (HRESULT * wstring) :=
  let query (hKey : HKEY) : Call (HRESULT * wstring) :=
    emit (EvRegQueryValueEx hKey (L "ExePath")) ;;
    let '(result, buffer) :=
      RegQueryValueEx env hKey (L "ExePath") (MAX_PATH * sizeof_wchar_t) in
    emit (EvRegCloseKey hKey) ;;
    if negb (result =? ERROR_SUCCESS) then ret (E_FAIL, pszExePath) else
    let '(_, out) := StringCchCopy pszExePath cchExePath buffer in
    ret (S_OK, out) in
  emit (EvRegOpenKeyEx HKEY_LOCAL_MACHINE CONFIG_REG_PATH) ;;
  let '(result, hKey) := RegOpenKeyEx env HKEY_LOCAL_MACHINE CONFIG_REG_PATH in
  if negb (result =? ERROR_SUCCESS) then
    emit (EvRegOpenKeyEx HKEY_CURRENT_USER CONFIG_REG_PATH) ;;
    let '(result, hKey) := RegOpenKeyEx env HKEY_CURRENT_USER CONFIG_REG_PATH in
    if negb (result =? ERROR_SUCCESS) then ret (E_FAIL, pszExePath)
    else query hKey
  else query hKey.

(** ExplorerCommand::GetExePath *)
Definition GetExePath (env : Env) (pszExePath : LPWSTR) (cchExePath : UINT)
  : Call (HRESULT * LPWSTR) :=
  match pszExePath with
  | None => ret (E_INVALIDARG, None)
  | Some buf =>
      if cchExePath =? 0 then ret (E_INVALIDARG, pszExePath) else
      '(hr, out) <- ReadExePathFromRegistry env buf cchExePath ;;
      ret (hr, Some out)
  end.

(** ExplorerCommand::GetState.  [pCmdState] is the cell the host passes
    ([None] for a null pointer); the result carries the cell afterwards. *)
Definition GetState (env : Env) (psiItemArray : option IShellItemArray)
    (fOkToBeSlow : BOOL) (pCmdState : option EXPCMDSTATE)
  : Call (HRESULT * option EXPCMDSTATE) :=
  match pCmdState with
  | None => ret (E_POINTER, None)
  | Some _ =>
      match psiItemArray with
      | None => ret (S_OK, Some ECS_HIDDEN)
      | Some _ =>
          '(hr, drivePath) <- GetSelectedDrivePath env psiItemArray (Some []) MAX_PATH ;;
          if SUCCEEDED hr && (0 <? wcslen (buf_str drivePath))
          then ret (S_OK, Some ECS_ENABLED)
          else ret (S_OK, Some ECS_HIDDEN)
      end
  end.

(** The format of the command line: a quote, %s, a quote, " --quick ", a
    quote, %s, a quote. *)
Definition cmdLine_format : wstring :=
  [DQUOTE] ++ L "%s" ++ [DQUOTE] ++ L " --quick " ++ [DQUOTE] ++ L "%s" ++ [DQUOTE].

(** ExplorerCommand::Invoke *)
Definition Invoke (env : Env) (psiItemArray : option IShellItemArray) (pbc : PVOID)
  : Call HRESULT :=
  match psiItemArray with
  | None => ret E_POINTER
  | Some _ =>
      '(hrDrive, drivePath) <- GetSelectedDrivePath env psiItemArray (Some []) MAX_PATH ;;
      if FAILED hrDrive || (wcslen (buf_str drivePath) =? 0) then ret S_FALSE else
      '(hrExe, exePath) <- GetExePath env (Some []) MAX_PATH ;;
      if FAILED hrExe then ret E_FAIL else
      let '(_, cmdLine) :=
        StringCchPrintf [] (MAX_PATH * 2) cmdLine_format
                        [buf_str exePath; buf_str drivePath] in
      emit (EvCreateProcess (buf_str exePath) cmdLine) ;;
      let '(ok, pi) := CreateProcess env (buf_str exePath) cmdLine in
      if negb (ok =? 0) then
        emit (EvCloseHandle (hProcess pi)) ;;
        emit (EvCloseHandle (hThread pi)) ;;
        ret S_OK
      else ret E_FAIL
  end.

(** ExplorerCommand::GetIcon.  [g_hInstance] is the global DllMain sets;
    [ppszIcon] is the cell the host passes ([None] for a null pointer).  The
    block CoTaskMemAlloc returns is taken to hold the empty string until
    StringCchPrintf writes it. *)
Definition GetIcon (env : Env) (g_hInstance : HINSTANCE)
    (psiItemArray : option IShellItemArray) (ppszIcon : option LPWSTR)
  : Call (HRESULT * option LPWSTR) :=
  match ppszIcon with
  | None => ret (E_POINTER, None)
  | Some _ =>
      '(hrExe, exePath) <- GetExePath env (Some []) MAX_PATH ;;
      let hasExePath := SUCCEEDED hrExe in
      let '(hasDllPath, dllPath) :=
        if negb (g_hInstance =? 0) then
          let '(len, path) := GetModuleFileNameW env g_hInstance MAX_PATH in
          ((0 <? len) && (len <? MAX_PATH), path)
        else (false, []) in
      let iconPath : LPWSTR :=
        if hasExePath then Some (buf_str exePath)
        else if hasDllPath then Some dllPath else None in
      match iconPath with
      | Some iconPath =>
          let len := wcslen iconPath + 10 in
          if CoTaskMemAlloc env (len * sizeof_wchar_t) then
            let '(_, icon) := StringCchPrintf [] len (L "%s,0") [iconPath] in
            ret (S_OK, Some (Some icon))
          else ret (E_OUTOFMEMORY, Some None)
      | None => ret (S_FALSE, Some None)
      end
  end.

(** The constants of ExplorerCommand.cpp. *)
Definition CLSID_DiskBenchExplorerCommand : GUID :=
  mkGUID 0x33560014 0xf9aa 0x43e9 [0x83; 0xe3; 0x3f; 0x58; 0xb9; 0xf0; 0x38; 0x10].
Definition COMMAND_TITLE : list wchar_t := L "Benchmark Drive Performance".
Definition COMMAND_TOOLTIP : list wchar_t := L "Run DiskBench on this drive".

(** ExplorerCommand::GetTitle.  [ppszName] is the cell the host passes
    ([None] for a null pointer); the block CoTaskMemAlloc returns is taken
    to hold the empty string until StringCchCopy writes it. *)
Definition GetTitle (env : Env) (psiItemArray : option IShellItemArray)
    (ppszName : option LPWSTR) : Call (HRESULT * option LPWSTR) :=
  match ppszName with
  | None => ret (E_POINTER, None)
  | Some _ =>
      let len := wcslen COMMAND_TITLE + 1 in
      if CoTaskMemAlloc env (len * sizeof_wchar_t) then
        let '(_, name) := StringCchCopy [] len COMMAND_TITLE in
        ret (S_OK, Some (Some name))
      else ret (E_OUTOFMEMORY, Some None)
  end.

(** ExplorerCommand::GetToolTip *)
Definition GetToolTip (env : Env) (psiItemArray : option IShellItemArray)
    (ppszInfotip : option LPWSTR) : Call (HRESULT * option LPWSTR) :=
  match ppszInfotip with
  | None => ret (E_POINTER, None)
  | Some _ =>
      let len := wcslen COMMAND_TOOLTIP + 1 in
      if CoTaskMemAlloc env (len * sizeof_wchar_t) then
        let '(_, tip) := StringCchCopy [] len COMMAND_TOOLTIP in
        ret (S_OK, Some (Some tip))
      else ret (E_OUTOFMEMORY, Some None)
  end.

(** ExplorerCommand::GetCanonicalName *)
Definition GetCanonicalName (pguidCommandName : option GUID)
  : Call (HRESULT * option GUID) :=
  match pguidCommandName with
  | None => ret (E_POINTER, None)
  | Some _ => ret (S_OK, Some CLSID_DiskBenchExplorerCommand)
  end.

(** ExplorerCommand::GetFlags *)
Definition GetFlags (pFlags : option EXPCMDFLAGS) : Call (HRESULT * option EXPCMDFLAGS) :=
  match pFlags with
  | None => ret (E_POINTER, None)
  | Some _ => ret (S_OK, Some ECF_DEFAULT)
  end.

(** ExplorerCommand::EnumSubCommands *)
Definition EnumSubCommands (ppEnum : option PVOID) : Call (HRESULT * option PVOID) :=
  match ppEnum with
  | None => ret (E_POINTER, None)
  | Some _ => ret (E_NOTIMPL, Some nullptr)
  end.

(** DllMain: what it does to [g_hInstance]. *)
Definition DLL_PROCESS_ATTACH : DWORD := 1.

Definition DllMain (hModule : HINSTANCE) (ul_reason_for_call : DWORD)
    (g_hInstance : HINSTANCE) : BOOL * HINSTANCE :=
  if ul_reason_for_call =? DLL_PROCESS_ATTACH then (1, hModule) else (1, g_hInstance).

(** ClassFactory::CreateInstance.  The result carries the cell behind [ppv]
    afterwards and the instance that is left alive, if any. *)
Definition CreateInstance (env : Env) (pUnkOuter : PVOID) (riid : GUID)
    (ppv : option PVOID)
  : Call (HRESULT * option PVOID * option ExplorerCommand) :=
  match ppv with
  | None => ret (E_POINTER, None, None)
  | Some _ =>
      if negb (pUnkOuter =? nullptr) then ret (CLASS_E_NOAGGREGATION, Some nullptr, None) else
      let pCommand := operator_new env in
      if pCommand =? nullptr then ret (E_OUTOFMEMORY, Some nullptr, None) else
      this <- ExplorerCommand_ctor ;;
      let '(hr, ppv', this') := QueryInterface pCommand this riid (Some nullptr) in
      '(_, alive) <- Release this' ;;
      ret (hr, ppv', alive)
  end.

(** A client's calls through one pointer to an instance.  The instance is
    gone once deleted; a call through the dangling pointer has no defined
    behaviour, which [None] stands for. *)
Inductive IUnknownCall := Call_AddRef | Call_Release.

Definition call (c : IUnknownCall) (p : option ExplorerCommand)
  : Call (option (ULONG * option ExplorerCommand)) :=
  match p with
  | None => ret None
  | Some this =>
      match c with
      | Call_AddRef => let '(r, this') := AddRef this in ret (Some (r, Some this'))
      | Call_Release => x <- Release this ;; ret (Some x)
      end
  end.

Fixpoint calls (cs : list IUnknownCall) (p : option ExplorerCommand)
  : Call (option (list ULONG * option ExplorerCommand)) :=
  match cs with
  | [] => ret (Some ([], p))
  | c :: cs' =>
      r <- call c p ;;
      match r with
      | None => ret None
      | Some (u, p') =>
          rs <- calls cs' p' ;;
          match rs with
          | None => ret None
          | Some (us, p'') => ret (Some (u :: us, p''))
          end
      end
  end.

End ShellExtension.

(** ** dllmain.cpp: the class factory and the exports.  Both copies of the
    file agree on what is embedded here. *)
Module ClassFactory.

Record ClassFactory := {
  m_refCount : LONG
}.

(** ClassFactory::ClassFactory *)
Definition ctor : ClassFactory := {| m_refCount := 1 |}.

(** ClassFactory::AddRef *)
Definition AddRef (this : ClassFactory) : ULONG * ClassFactory :=
  let v := ShellExtension.InterlockedIncrement (m_refCount this) in
  (to_ULONG v, {| m_refCount := v |}).

(** ClassFactory::Release; [None] once [delete this] has run. *)
Definition Release (this : ClassFactory) : ULONG * option ClassFactory :=
  let refCount := ShellExtension.InterlockedDecrement (m_refCount this) in
  if refCount =? 0
  then (to_ULONG refCount, None)
  else (to_ULONG refCount, Some {| m_refCount := refCount |}).

(** ClassFactory::QueryInterface *)
Definition QueryInterface (pThis : PVOID) (this : ClassFactory)
    (riid : GUID) (ppv : option PVOID)
  : HRESULT * option PVOID * ClassFactory :=
  match ppv with
  | None => (E_POINTER, None, this)
  | Some _ =>
      if GUID_eqb riid IID_IUnknown || GUID_eqb riid IID_IClassFactory
      then let '(_, this') := AddRef this in
           (S_OK, Some pThis, this')
      else (E_NOINTERFACE, Some nullptr, this)
  end.

(** ClassFactory::LockServer *)
Definition LockServer (this : ClassFactory) (fLock : BOOL) : HRESULT * ClassFactory :=
  (S_OK, this).

End ClassFactory.

(** DllGetClassObject.  [pFactory] is the address [new (std::nothrow)
    ClassFactory()] returns when it is reached, 0 on failure.  The result
    carries the cell behind [ppv] afterwards and the factory that is left
    alive, if any. *)
Definition DllGetClassObject (pFactory : PVOID) (rclsid riid : GUID)
    (ppv : option PVOID)
  : HRESULT * option PVOID * option ClassFactory.ClassFactory :=
  match ppv with
  | None => (E_POINTER, None, None)
  | Some _ =>
      if negb (GUID_eqb rclsid ShellExtension.CLSID_DiskBenchExplorerCommand)
      then (CLASS_E_CLASSNOTAVAILABLE, Some nullptr, None) else
      if pFactory =? nullptr then (E_OUTOFMEMORY, Some nullptr, None) else
      let '(hr, ppv', this') :=
        ClassFactory.QueryInterface pFactory ClassFactory.ctor riid (Some nullptr) in
      let '(_, alive) := ClassFactory.Release this' in
      (hr, ppv', alive)
  end.

(** DllCanUnloadNow *)
Definition DllCanUnloadNow : HRESULT := S_OK.

(** ** DiskBench/DiskBench.ShellExtension.Cpp: the older copy of
    ExplorerCommand.cpp.  Only the functions that differ from the copy above
    are embedded. *)
Module LegacyShellExtension.

(** ExplorerCommand::GetSelectedDrivePath *)
Definition GetSelectedDrivePath (env : Env)
    (psiItemArray : option IShellItemArray) (pszPath : LPWSTR) (cchPath : UINT)
  : Call (HRESULT * LPWSTR) :=
  match psiItemArray, pszPath with
  | Some sia, Some buf =>
      if cchPath =? 0 then ret (E_INVALIDARG, pszPath) else
      let '(hrCount, count) := GetCount sia in
      if FAILED hrCount || (count =? 0) then ret (S_FALSE, pszPath) else
      match GetItemAt sia 0 with
      | None => ret (E_FAIL, pszPath)
      | Some psi =>
          let '(hr, pszName) := GetDisplayName psi SIGDN_FILESYSPATH in
          match (if SUCCEEDED hr then pszName else None) with
          | Some name =>
              if (wcslen name =? 2) && (wch_at name 1 =? WCH ":")
              then
                let '(_, out) := StringCchCopy buf cchPath name in
                emit EvCoTaskMemFree ;;
                emit EvShellItemRelease ;;
                ret (S_OK, Some out)
              else
                emit EvCoTaskMemFree ;;
                emit EvShellItemRelease ;;
                ret (S_FALSE, pszPath)
          | None =>
              emit EvShellItemRelease ;;
              ret (S_FALSE, pszPath)
          end
      end
  | _, _ => ret (E_INVALIDARG, pszPath)
  end.

(** ExplorerCommand::ReadExePathFromRegistry *)
Definition ReadExePathFromRegistry (env : Env) (pszExePath : wstring) (cchExePath : UINT)
  : Call (HRESULT * wstring) :=
  emit (EvRegOpenKeyEx HKEY_LOCAL_MACHINE CONFIG_REG_PATH) ;;
  let '(result, hKey) := RegOpenKeyEx env HKEY_LOCAL_MACHINE CONFIG_REG_PATH in
  if negb (result =? ERROR_SUCCESS) then ret (E_FAIL, pszExePath) else
  emit (EvRegQueryValueEx hKey (L "ExePath")) ;;
  let '(result, buffer) :=
    RegQueryValueEx env hKey (L "ExePath") (MAX_PATH * sizeof_wchar_t) in
  emit (EvRegCloseKey hKey) ;;
  if negb (result =? ERROR_SUCCESS) then ret (E_FAIL, pszExePath) else
  let '(_, out) := StringCchCopy pszExePath cchExePath buffer in
  ret (S_OK, out).

(** ExplorerCommand::GetExePath *)
Definition GetExePath (env : Env) (pszExePath : LPWSTR) (cchExePath : UINT)
  : Call (HRESULT * LPWSTR) :=
  match pszExePath with
  | None => ret (E_INVALIDARG, None)
  | Some buf =>
      if cchExePath =? 0 then ret (E_INVALIDARG, pszExePath) else
      '(hr, out) <- ReadExePathFromRegistry env buf cchExePath ;;
      ret (hr, Some out)
  end.

(** ExplorerCommand::GetIcon *)
Definition GetIcon (env : Env)
    (psiItemArray : option IShellItemArray) (ppszIcon : option LPWSTR)
  : Call (HRESULT * option LPWSTR) :=
  match ppszIcon with
  | None => ret (E_POINTER, None)
  | Some _ =>
      '(hrExe, exePath) <- GetExePath env (Some []) MAX_PATH ;;
      if SUCCEEDED hrExe then
        let len := wcslen (buf_str exePath) + 10 in
        if CoTaskMemAlloc env (len * sizeof_wchar_t) then
          let '(_, icon) := StringCchPrintf [] len (L "%s,0") [buf_str exePath] in
          ret (S_OK, Some (Some icon))
        else ret (E_OUTOFMEMORY, Some None)
      else ret (S_FALSE, Some None)
  end.

(** ExplorerCommand::GetState *)
Definition GetState (env : Env) (psiItemArray : option IShellItemArray)
    (fOkToBeSlow : BOOL) (pCmdState : option EXPCMDSTATE)
  : Call (HRESULT * option EXPCMDSTATE) :=
  match pCmdState with
  | None => ret (E_POINTER, None)
  | Some _ =>
      match psiItemArray with
      | None => ret (S_OK, Some ECS_HIDDEN)
      | Some _ =>
          '(hr, drivePath) <- GetSelectedDrivePath env psiItemArray (Some []) MAX_PATH ;;
          if SUCCEEDED hr && (0 <? wcslen (buf_str drivePath))
          then ret (S_OK, Some ECS_ENABLED)
          else ret (S_OK, Some ECS_HIDDEN)
      end
  end.

(** ExplorerCommand::Invoke *)
Definition Invoke (env : Env) (psiItemArray : option IShellItemArray) (pbc : PVOID)
  : Call HRESULT :=
  match psiItemArray with
  | None => ret E_POINTER
  | Some _ =>
      '(hrDrive, drivePath) <- GetSelectedDrivePath env psiItemArray (Some []) MAX_PATH ;;
      if FAILED hrDrive || (wcslen (buf_str drivePath) =? 0) then ret S_FALSE else
      '(hrExe, exePath) <- GetExePath env (Some []) MAX_PATH ;;
      if FAILED hrExe then ret E_FAIL else
      let '(_, cmdLine) :=
        StringCchPrintf [] (MAX_PATH * 2) ShellExtension.cmdLine_format
                        [buf_str exePath; buf_str drivePath] in
      emit (EvCreateProcess (buf_str exePath) cmdLine) ;;
      let '(ok, pi) := CreateProcess env (buf_str exePath) cmdLine in
      if negb (ok =? 0) then
        emit (EvCloseHandle (hProcess pi)) ;;
        emit (EvCloseHandle (hThread pi)) ;;
        ret S_OK
      else ret E_FAIL
  end.

End LegacyShellExtension.

(** ** Logger.cpp *)
Module Logger.

Record SYSTEMTIME := {
  wYear : Z; wMonth : Z; wDayOfWeek : Z; wDay : Z;
  wHour : Z; wMinute : Z; wSecond : Z; wMilliseconds : Z
}.

Definition INVALID_HANDLE_VALUE : HANDLE := -1.

(** Answers of the operating system to the logger.
    - [GetEnvironmentVariableW name nSize] and [GetTempPathW nSize]: returned
      length and the string left in the caller's buffer;
    - [CreateFileW path]: the handle, INVALID_HANDLE_VALUE on failure;
    - [WideCharToMultiByte line cbMultiByte]: returned count and the bytes
      stored in the caller's buffer (code page UTF-8, the terminator of
      [line] included);
    - [GetLocalTime]: the time stored. *)
Record LogEnv := {
  GetEnvironmentVariableW : list wchar_t -> DWORD -> DWORD * list wchar_t;
  GetTempPathW : DWORD -> DWORD * list wchar_t;
  CreateFileW : list wchar_t -> HANDLE;
  WideCharToMultiByte : list wchar_t -> Z -> Z * list Z;
  GetLocalTime : SYSTEMTIME
}.

(** What the logger does to the file system, in order. *)
Inductive FileEvent :=
| LogCreateDirectory (path : list wchar_t)
| LogCreateFile (path : list wchar_t)
| LogWriteFile (hFile : HANDLE) (bytes : list Z)
| LogCloseHandle (hFile : HANDLE).

(** Arguments of a formatted print. *)
Inductive Arg :=
| ArgStr (s : list wchar_t)
| ArgUInt (n : Z).

(** Decimal digits of an unsigned value, most significant first. *)
Fixpoint udigits (fuel : nat) (n : Z) : list wchar_t :=
  match fuel with
  | O => []
  | S fuel' =>
      if n <? 10 then [WCH "0" + n]
      else udigits fuel' (n / 10) ++ [WCH "0" + n mod 10]
  end.

(** Ten digits hold every 32-bit unsigned value. *)
Definition utoa (n : Z) : list wchar_t := udigits 10 n.

Definition pad0 (width : nat) (s : list wchar_t) : list wchar_t :=
  repeat (WCH "0") (width - List.length s) ++ s.

(** The part of printf formatting Logger.cpp uses: [%s] takes a wide string,
    [%0Nu] (N one digit) an unsigned value printed in decimal and
    zero-padded to N characters; every other character is copied. *)
Fixpoint wprintf (fmt : list wchar_t) (args : list Arg) : list wchar_t :=
  match fmt with
  | [] => []
  | c :: rest =>
      if negb (c =? WCH "%") then c :: wprintf rest args else
      match rest with
      | d :: rest1 =>
          if d =? WCH "s" then
            match args with
            | ArgStr a :: args' => a ++ wprintf rest1 args'
            | _ => wprintf rest1 (tl args)
            end
          else if d =? WCH "0" then
            match rest1 with
            | w :: u :: rest3 =>
                if (u =? WCH "u") && (WCH "0" <=? w) && (w <=? WCH "9") then
                  match args with
                  | ArgUInt n :: args' =>
                      pad0 (Z.to_nat (w - WCH "0")) (utoa n) ++ wprintf rest3 args'
                  | _ => wprintf rest3 (tl args)
                  end
                else c :: wprintf rest args
            | _ => c :: wprintf rest args
            end
          else c :: wprintf rest args
      | [] => [c]
      end
  end.

(** strsafe.h: [StringCchPrintfW] over the formats of Logger.cpp. *)
Definition StringCchPrintfW (pszDest : list wchar_t) (cchDest : Z)
    (pszFormat : list wchar_t) (args : list Arg) : HRESULT * list wchar_t :=
  StringCchCopy pszDest cchDest (wprintf pszFormat args).

(** A store into a char array; [None] outside its bounds. *)
Definition array_store (a : list Z) (i : Z) (v : Z) : option (list Z) :=
  if (0 <=? i) && (i <? Z.of_nat (List.length a))
  then Some (firstn (Z.to_nat i) a ++ v :: skipn (S (Z.to_nat i)) a)
  else None.

(** [char utf8[2048] = {}] after WideCharToMultiByte stored [bytes] in it. *)
Definition utf8_array (bytes : list Z) : list Z :=
  bytes ++ repeat 0 (2048 - List.length bytes).

(** AppendLineUtf8.  The result is the list of file system calls made;
    [None] stands for a store outside [utf8]. *)
Definition AppendLineUtf8 (os : LogEnv) (line : LPWSTR) : option (list FileEvent) :=
  match line with
  | None => Some []
  | Some line =>
      let '(len, envPath) := GetEnvironmentVariableW os (L "LOCALAPPDATA") MAX_PATH in
      let path : LPWSTR :=
        if (len =? 0) || (MAX_PATH <=? len) then
          let '(tmpLen, tmpPath) := GetTempPathW os MAX_PATH in
          if (tmpLen =? 0) || (MAX_PATH <=? tmpLen) then None else Some tmpPath
        else Some envPath in
      match path with
      | None => Some []
      | Some path =>
          let '(hr, filePath) :=
            StringCchPrintfW [] MAX_PATH (L "%s\DiskBench\ShellExtension.log")
                             [ArgStr path] in
          if FAILED hr then Some [] else
          let '(hr, dirPath) :=
            StringCchPrintfW [] MAX_PATH (L "%s\DiskBench") [ArgStr path] in
          if FAILED hr then Some [] else
          let hFile := CreateFileW os filePath in
          if hFile =? INVALID_HANDLE_VALUE
          then Some [LogCreateDirectory dirPath; LogCreateFile filePath] else
          let '(utf8Len, bytes) := WideCharToMultiByte os line (2048 - 3) in
          if utf8Len <=? 0
          then Some [LogCreateDirectory dirPath; LogCreateFile filePath;
                     LogCloseHandle hFile] else
          match array_store (utf8_array bytes) (utf8Len - 1) 13 with
          | None => None
          | Some a1 =>
              match array_store a1 utf8Len 10 with
              | None => None
              | Some a2 =>
                  match array_store a2 (utf8Len + 1) 0 with
                  | None => None
                  | Some a3 =>
                      Some [LogCreateDirectory dirPath; LogCreateFile filePath;
                            LogWriteFile hFile (firstn (Z.to_nat (utf8Len + 1)) a3);
                            LogCloseHandle hFile]
                  end
              end
          end
      end
  end.

(** The format of a log line. *)
Definition line_format : list wchar_t :=
  L "%04u-%02u-%02u %02u:%02u:%02u.%03u [DiskBench.ShellExtension.Cpp] %s".

(** LogMessage.  [expansion] is what [format] and its arguments expand to;
    _vsnwprintf_s with _TRUNCATE keeps what fits the 1024-character buffer. *)
Definition LogMessage (os : LogEnv) (format : LPWSTR) (expansion : list wchar_t)
  : option (list FileEvent) :=
  match format with
  | None => Some []
  | Some _ =>
      let buffer := firstn 1023 expansion in
      let st := GetLocalTime os in
      let '(hr, line) :=
        StringCchPrintfW [] 1200 line_format
          [ArgUInt (wYear st); ArgUInt (wMonth st); ArgUInt (wDay st);
           ArgUInt (wHour st); ArgUInt (wMinute st); ArgUInt (wSecond st);
           ArgUInt (wMilliseconds st); ArgStr buffer] in
      if FAILED hr then Some [] else AppendLineUtf8 os (Some line)
  end.

End Logger.

(** ** Vocabulary of the statements *)

(** The first item of the selection [sia] has the filesystem path [path]:
    the count is obtained and is not zero, the first item is obtained, and
    its filesystem display name is obtained and is [path]. *)
Definition first_item_path (sia : IShellItemArray) (path : wstring) : Prop :=
  exists hrCount count psi hr,
    GetCount sia = (hrCount, count) /\ SUCCEEDED hrCount = true /\ count <> 0 /\
    GetItemAt sia 0 = Some psi /\
    GetDisplayName psi SIGDN_FILESYSPATH = (hr, Some path) /\ SUCCEEDED hr = true.

(** The shape of a drive root: a colon second, and either two characters or
    three with a separator last. *)
Definition drive_root_shape (path : wstring) : Prop :=
  wch_at path 1 = WCH ":" /\
  (wcslen path = 2 \/
   (wcslen path = 3 /\ (wch_at path 2 = WCH "\" \/ wch_at path 2 = WCH "/"))).

(** The normalized token for a path: upper-cased first character, colon,
    backslash. *)
Definition drive_token (env : Env) (path : wstring) : wstring :=
  [towupper env (wch_at path 0); WCH ":"; WCH "\"].

(** The tool path is configured in neither scope: both opens fail. *)
Definition both_scopes_absent (env : Env) : Prop :=
  fst (RegOpenKeyEx env HKEY_LOCAL_MACHINE CONFIG_REG_PATH) <> ERROR_SUCCESS /\
  fst (RegOpenKeyEx env HKEY_CURRENT_USER CONFIG_REG_PATH) <> ERROR_SUCCESS.

(** ** Sample hosts and environments, used to run the model *)

(** [towupper] in the C locale on the ASCII range. *)
Definition towupper_ascii (c : wchar_t) : wchar_t :=
  if (WCH "a" <=? c) && (c <=? WCH "z") then c - 32 else c.

(** A selection of the given filesystem paths. *)
Definition selection_of (paths : list wstring) : IShellItemArray :=
  {| GetCount := (S_OK, Z.of_nat (List.length paths));
     GetItemAt := fun i =>
       match nth_error paths (Z.to_nat i) with
       | Some p => Some {| GetDisplayName := fun _ => (S_OK, Some p) |}
       | None => None
       end |}.

(** A registry that holds [ExePath] under the key of the given scopes, or
    not at all ([None]); the handle of an opened key is its root's. *)
Definition sample_env (hklm hkcu : option wstring) (alloc_ok : bool)
    (launch_ok : bool) : Env :=
  {| towupper := towupper_ascii;
     RegOpenKeyEx := fun root _ =>
       if root =? HKEY_LOCAL_MACHINE
       then match hklm with Some _ => (ERROR_SUCCESS, 101) | None => (ERROR_FILE_NOT_FOUND, 0) end
       else match hkcu with Some _ => (ERROR_SUCCESS, 102) | None => (ERROR_FILE_NOT_FOUND, 0) end;
     RegQueryValueEx := fun hKey _ _ =>
       match (if hKey =? 101 then hklm else hkcu) with
       | Some v => (ERROR_SUCCESS, v)
       | None => (ERROR_FILE_NOT_FOUND, [])
       end;
     GetModuleFileNameW := fun _ _ => (25, L "C:\Ext\DiskBenchShell.dll");
     CoTaskMemAlloc := fun _ => alloc_ok;
     CreateProcess := fun _ _ =>
       if launch_ok then (1, {| hProcess := 7; hThread := 8 |})
       else (0, {| hProcess := 0; hThread := 0 |});
     operator_new := 4096 |}.

(** The same with an empty registry and no memory left: every allocation
    fails. *)
Definition exhausted_env : Env :=
  let base := sample_env None None false false in
  {| towupper := towupper base;
     RegOpenKeyEx := RegOpenKeyEx base;
     RegQueryValueEx := RegQueryValueEx base;
     GetModuleFileNameW := GetModuleFileNameW base;
     CoTaskMemAlloc := CoTaskMemAlloc base;
     CreateProcess := CreateProcess base;
     operator_new := nullptr |}.

(** The test [GetSelectedDrivePath] of DiskBench.ShellExtension.Cpp applies to
    the display name, and the one of the older copy. *)
Definition drive_root_shapeb (path : wstring) : bool :=
  (2 <=? wcslen path) && (wch_at path 1 =? WCH ":")
  && ((wcslen path =? 2)
      || ((wcslen path =? 3)
          && ((wch_at path 2 =? WCH "\") || (wch_at path 2 =? WCH "/")))).

Definition legacy_shapeb (path : wstring) : bool :=
  (wcslen path =? 2) && (wch_at path 1 =? WCH ":").

(** A call only appends to the trace, and its result does not depend on the
    trace it starts from. *)
Definition appends {A} (c : Call A) : Prop :=
  forall tr, c tr = (fst (c []), tr ++ snd (c [])).

(** What reading [ExePath] from an opened key gives a caller whose buffer
    holds [buf] and has room for [cch] characters. *)
Definition read_value (env : Env) (hKey : HKEY) (buf : wstring) (cch : UINT)
  : HRESULT * wstring :=
  let q := RegQueryValueEx env hKey (L "ExePath") (MAX_PATH * sizeof_wchar_t) in
  if fst q =? ERROR_SUCCESS
  then (S_OK, snd (StringCchCopy buf cch (snd q)))
  else (E_FAIL, buf).

(** The command line for a tool path and a drive token. *)
Definition command_line (tool token : wstring) : wstring :=
  [DQUOTE] ++ tool ++ [DQUOTE] ++ L " --quick " ++ [DQUOTE] ++ token ++ [DQUOTE].

(** What a trace records of the instance's lifetime, of the handles and
    registry keys it closes, of the keys it reads and of the releases of the
    shell item and of its display name. *)
Definition constructions (tr : list Event) : nat :=
  List.length (filter (fun e => match e with EvConstructed => true | _ => false end) tr).

Definition closed_handles (tr : list Event) : list HANDLE :=
  flat_map (fun e => match e with EvCloseHandle h => [h] | _ => [] end) tr.

Definition closed_keys (tr : list Event) : list HKEY :=
  flat_map (fun e => match e with EvRegCloseKey k => [k] | _ => [] end) tr.

Definition queried_keys (tr : list Event) : list HKEY :=
  flat_map (fun e => match e with EvRegQueryValueEx k _ => [k] | _ => [] end) tr.

Definition item_releases (tr : list Event) : nat :=
  List.length (filter (fun e => match e with EvShellItemRelease => true | _ => false end) tr).

Definition name_frees (tr : list Event) : nat :=
  List.length (filter (fun e => match e with EvCoTaskMemFree => true | _ => false end) tr).

(** What a run of the logger records: the files it creates, the handles it
    closes and the records it writes. *)
Definition log_files (tr : list Logger.FileEvent) : list (list wchar_t) :=
  flat_map (fun e => match e with Logger.LogCreateFile p => [p] | _ => [] end) tr.

Definition log_directories (tr : list Logger.FileEvent) : list (list wchar_t) :=
  flat_map (fun e => match e with Logger.LogCreateDirectory p => [p] | _ => [] end) tr.

Definition log_closed (tr : list Logger.FileEvent) : list HANDLE :=
  flat_map (fun e => match e with Logger.LogCloseHandle h => [h] | _ => [] end) tr.

Definition log_written (tr : list Logger.FileEvent) : list (HANDLE * list Z) :=
  flat_map (fun e => match e with Logger.LogWriteFile h b => [(h, b)] | _ => [] end) tr.

(** The directory the logger writes under: the value of LOCALAPPDATA when
    the length returned for it is neither 0 nor MAX_PATH or more, else the
    temporary path under the same condition, else none. *)
Definition log_base (os : Logger.LogEnv) : LPWSTR :=
  let e := Logger.GetEnvironmentVariableW os (L "LOCALAPPDATA") MAX_PATH in
  let t := Logger.GetTempPathW os MAX_PATH in
  if negb ((fst e =? 0) || (MAX_PATH <=? fst e)) then Some (snd e)
  else if negb ((fst t =? 0) || (MAX_PATH <=? fst t)) then Some (snd t)
  else None.

(** The time stamp and the tag that start a log line. *)
Definition log_stamp (st : Logger.SYSTEMTIME) : list wchar_t :=
  Logger.pad0 4 (Logger.utoa (Logger.wYear st)) ++ L "-"
  ++ Logger.pad0 2 (Logger.utoa (Logger.wMonth st)) ++ L "-"
  ++ Logger.pad0 2 (Logger.utoa (Logger.wDay st)) ++ L " "
  ++ Logger.pad0 2 (Logger.utoa (Logger.wHour st)) ++ L ":"
  ++ Logger.pad0 2 (Logger.utoa (Logger.wMinute st)) ++ L ":"
  ++ Logger.pad0 2 (Logger.utoa (Logger.wSecond st)) ++ L "."
  ++ Logger.pad0 3 (Logger.utoa (Logger.wMilliseconds st)).

Definition log_tag : list wchar_t := L " [DiskBench.ShellExtension.Cpp] ".

(** The contract of WideCharToMultiByte the logger relies on: the count
    returned is at most the size passed, and is the number of bytes stored. *)
Definition conversion_contract (os : Logger.LogEnv) : Prop :=
  forall line cb,
    0 <= cb ->
    fst (Logger.WideCharToMultiByte os line cb) <= cb /\
    (0 < fst (Logger.WideCharToMultiByte os line cb) ->
     Z.of_nat (List.length (snd (Logger.WideCharToMultiByte os line cb)))
     = fst (Logger.WideCharToMultiByte os line cb)).

(** The fields of a SYSTEMTIME are WORDs. *)
Definition is_WORD (n : Z) : Prop := 0 <= n < 65536.

Definition SYSTEMTIME_wf (st : Logger.SYSTEMTIME) : Prop :=
  is_WORD (Logger.wYear st) /\ is_WORD (Logger.wMonth st) /\
  is_WORD (Logger.wDay st) /\ is_WORD (Logger.wHour st) /\
  is_WORD (Logger.wMinute st) /\ is_WORD (Logger.wSecond st) /\
  is_WORD (Logger.wMilliseconds st).

(** A sample system for the logger: LOCALAPPDATA as given (or unset), a
    temporary path, a file that opens as handle 9 (or does not), and a
    conversion that copies ASCII text with its terminator when it fits. *)
Definition sample_log_env (localappdata : LPWSTR) (file_ok : bool) : Logger.LogEnv :=
  {| Logger.GetEnvironmentVariableW := fun _ _ =>
       match localappdata with
       | Some p => (wcslen p, p)
       | None => (0, [])
       end;
     Logger.GetTempPathW := fun _ => (8, L "C:\Temp\");
     Logger.CreateFileW := fun _ =>
       if file_ok then 9 else Logger.INVALID_HANDLE_VALUE;
     Logger.WideCharToMultiByte := fun line cb =>
       if wcslen line + 1 <=? cb then (wcslen line + 1, line ++ [0]) else (0, []);
     Logger.GetLocalTime :=
       {| Logger.wYear := 2025; Logger.wMonth := 3; Logger.wDayOfWeek := 2;
          Logger.wDay := 4; Logger.wHour := 9; Logger.wMinute := 5;
          Logger.wSecond := 7; Logger.wMilliseconds := 42 |} |}.

(** * Properties *)

(** ** Strings *)

Lemma StringCchCopy_fits (dst src : wstring) (cch : Z) :
  wcslen src < cch <= STRSAFE_MAX_CCH ->
  StringCchCopy dst cch src = (S_OK, src).
Proof.
  intros [Hlen Hmax]. unfold StringCchCopy.
  assert (0 <= wcslen src) by (unfold wcslen; lia).
  replace (cch =? 0) with false by (symmetry; apply Z.eqb_neq; lia).
  replace (STRSAFE_MAX_CCH <? cch) with false by (symmetry; apply Z.ltb_ge; lia).
  replace (wcslen src <? cch) with true by (symmetry; apply Z.ltb_lt; lia).
  reflexivity.
Qed.

(** Whatever the source, a destination of [cch] characters that started
    within its bounds stays within them. *)
Lemma StringCchCopy_bound (dst src : wstring) (cch : Z) :
  wcslen dst < cch ->
  wcslen (snd (StringCchCopy dst cch src)) < cch.
Proof.
  intros Hdst. unfold StringCchCopy.
  destruct (cch =? 0) eqn:Hzero; [exact Hdst|].
  destruct (STRSAFE_MAX_CCH <? cch) eqn:Hbad; cbn [snd].
  { apply Z.ltb_lt in Hbad. unfold wcslen. cbn [List.length].
    assert (0 < STRSAFE_MAX_CCH) by reflexivity. lia. }
  destruct (wcslen src <? cch) eqn:Hfit; simpl.
  - apply Z.ltb_lt in Hfit. exact Hfit.
  - apply Z.ltb_ge in Hfit. unfold wcslen in *.
    rewrite length_firstn. lia.
Qed.

Lemma wcslen_app (a b : wstring) : wcslen (a ++ b) = wcslen a + wcslen b.
Proof. unfold wcslen. rewrite length_app. lia. Qed.

Lemma drive_root_shapeb_spec (path : wstring) :
  drive_root_shapeb path = true <-> drive_root_shape path.
Proof.
  unfold drive_root_shapeb, drive_root_shape.
  rewrite !andb_true_iff, !orb_true_iff, !andb_true_iff, !orb_true_iff,
          !Z.eqb_eq, Z.leb_le.
  split.
  - intros [[_ Hc] Hs]. split; [exact Hc | exact Hs].
  - intros [Hc Hs]. split; [split; [|exact Hc] | exact Hs].
    destruct Hs as [H2 | [H3 _]]; lia.
Qed.

Lemma legacy_shapeb_spec (path : wstring) :
  legacy_shapeb path = true <-> wcslen path = 2 /\ wch_at path 1 = WCH ":".
Proof.
  unfold legacy_shapeb. rewrite andb_true_iff, !Z.eqb_eq. tauto.
Qed.

(** ** The selection validator *)

(** When the first item has a filesystem path, the validator's answer is
    decided by the shape test alone. *)
Lemma GetSelectedDrivePath_first_item env sia path buf cch tr :
  first_item_path sia path -> cch <> 0 ->
  ShellExtension.GetSelectedDrivePath env (Some sia) (Some buf) cch tr =
  if drive_root_shapeb path
  then ((S_OK, Some (snd (StringCchCopy buf cch (drive_token env path)))),
        (tr ++ [EvCoTaskMemFree]) ++ [EvShellItemRelease])
  else ((S_FALSE, Some buf), (tr ++ [EvCoTaskMemFree]) ++ [EvShellItemRelease]).
Proof.
  intros (hrc & count & psi & hr & Hcount & Hsc & Hnz & Hitem & Hname & Hs) Hcch.
  unfold ShellExtension.GetSelectedDrivePath.
  apply Z.eqb_neq in Hcch. rewrite Hcch, Hcount.
  assert (Hf : FAILED hrc = false).
  { unfold SUCCEEDED in Hsc. unfold FAILED. apply Z.leb_le in Hsc. apply Z.ltb_ge. lia. }
  apply Z.eqb_neq in Hnz. rewrite Hf, Hnz. simpl orb. cbv iota.
  rewrite Hitem, Hname, Hs.
  fold (drive_root_shapeb path). fold (drive_token env path).
  destruct (drive_root_shapeb path).
  - destruct (StringCchCopy buf cch (drive_token env path)) as [h out].
    reflexivity.
  - reflexivity.
Qed.

Lemma Legacy_GetSelectedDrivePath_first_item env sia path buf cch tr :
  first_item_path sia path -> cch <> 0 ->
  LegacyShellExtension.GetSelectedDrivePath env (Some sia) (Some buf) cch tr =
  if legacy_shapeb path
  then ((S_OK, Some (snd (StringCchCopy buf cch path))),
        (tr ++ [EvCoTaskMemFree]) ++ [EvShellItemRelease])
  else ((S_FALSE, Some buf), (tr ++ [EvCoTaskMemFree]) ++ [EvShellItemRelease]).
Proof.
  intros (hrc & count & psi & hr & Hcount & Hsc & Hnz & Hitem & Hname & Hs) Hcch.
  unfold LegacyShellExtension.GetSelectedDrivePath.
  apply Z.eqb_neq in Hcch. rewrite Hcch, Hcount.
  assert (Hf : FAILED hrc = false).
  { unfold SUCCEEDED in Hsc. unfold FAILED. apply Z.leb_le in Hsc. apply Z.ltb_ge. lia. }
  apply Z.eqb_neq in Hnz. rewrite Hf, Hnz. simpl orb. cbv iota.
  rewrite Hitem, Hname, Hs.
  fold (legacy_shapeb path).
  destruct (legacy_shapeb path).
  - destruct (StringCchCopy buf cch path) as [h out]. reflexivity.
  - reflexivity.
Qed.

Lemma first_item_path_selection_of (p : wstring) (rest : list wstring) :
  first_item_path (selection_of (p :: rest)) p.
Proof.
  exists S_OK, (Z.of_nat (List.length (p :: rest))),
         {| GetDisplayName := fun _ => (S_OK, Some p) |}, S_OK.
  repeat split; simpl; lia.
Qed.

(** C1.  When the first item of the selection has a filesystem path whose
    second character is a colon and which is either two characters long or
    three characters long with a backslash or a slash last, the validator of
    DiskBench.ShellExtension.Cpp returns S_OK and leaves in the caller's
    buffer the three-character token: the first character upper-cased by
    [towupper], a colon, a backslash.  The buffer has room for the token
    (the command passes MAX_PATH characters). *)
Theorem C1_validator_accepts_and_normalizes env sia path buf cchPath tr :
  first_item_path sia path ->
  drive_root_shape path ->
  3 < cchPath <= STRSAFE_MAX_CCH ->
  fst (ShellExtension.GetSelectedDrivePath env (Some sia) (Some buf) cchPath tr)
  = (S_OK, Some [towupper env (wch_at path 0); WCH ":"; WCH "\"]).
Proof.
  intros Hitem Hshape Hcch.
  rewrite (GetSelectedDrivePath_first_item env sia path buf cchPath tr Hitem)
    by lia.
  apply drive_root_shapeb_spec in Hshape. rewrite Hshape.
  rewrite StringCchCopy_fits by (unfold drive_token, wcslen; simpl List.length; lia).
  reflexivity.
Qed.

Lemma C1_witness_lowercase_slash :
  first_item_path (selection_of [L "c:/"]) (L "c:/") /\
  drive_root_shape (L "c:/") /\
  3 < MAX_PATH <= STRSAFE_MAX_CCH /\
  fst (ShellExtension.GetSelectedDrivePath (sample_env None None true true)
         (Some (selection_of [L "c:/"])) (Some []) MAX_PATH [])
  = (S_OK, Some (L "C:\")).
Proof.
  assert (Hitem : first_item_path (selection_of [L "c:/"]) (L "c:/"))
    by apply first_item_path_selection_of.
  assert (Hshape : drive_root_shape (L "c:/")).
  { split; [reflexivity | right; split; [reflexivity | right; reflexivity]]. }
  assert (Hcch : 3 < MAX_PATH <= STRSAFE_MAX_CCH) by (unfold MAX_PATH, STRSAFE_MAX_CCH; lia).
  split; [exact Hitem | split; [exact Hshape | split; [exact Hcch |]]].
  exact (C1_validator_accepts_and_normalizes (sample_env None None true true)
           (selection_of [L "c:/"]) (L "c:/") [] MAX_PATH [] Hitem Hshape Hcch).
Defined.

(** C7.  When the first item's filesystem path is longer than three
    characters, or its second character is not a colon, the validator
    returns S_FALSE and leaves the caller's buffer as it was: no token. *)
Theorem C7_validator_rejects_other_shapes env sia path buf cchPath tr :
  first_item_path sia path ->
  3 < wcslen path \/ wch_at path 1 <> WCH ":" ->
  cchPath <> 0 ->
  fst (ShellExtension.GetSelectedDrivePath env (Some sia) (Some buf) cchPath tr)
  = (S_FALSE, Some buf).
Proof.
  intros Hitem Hbad Hcch.
  rewrite (GetSelectedDrivePath_first_item env sia path buf cchPath tr Hitem Hcch).
  destruct (drive_root_shapeb path) eqn:Hshape; [|reflexivity].
  apply drive_root_shapeb_spec in Hshape.
  destruct Hshape as [Hc Hs]. exfalso.
  destruct Hbad as [Hlong | Hnc]; [|exact (Hnc Hc)].
  destruct Hs as [H2 | [H3 _]]; lia.
Qed.

Lemma C7_witness_folder_in_drive :
  first_item_path (selection_of [L "D:\Projects"]) (L "D:\Projects") /\
  (3 < wcslen (L "D:\Projects") \/ wch_at (L "D:\Projects") 1 <> WCH ":") /\
  MAX_PATH <> 0 /\
  fst (ShellExtension.GetSelectedDrivePath (sample_env None None true true)
         (Some (selection_of [L "D:\Projects"])) (Some []) MAX_PATH [])
  = (S_FALSE, Some []).
Proof.
  assert (Hitem : first_item_path (selection_of [L "D:\Projects"]) (L "D:\Projects"))
    by apply first_item_path_selection_of.
  assert (Hbad : 3 < wcslen (L "D:\Projects") \/ wch_at (L "D:\Projects") 1 <> WCH ":")
    by (left; reflexivity).
  assert (Hcch : MAX_PATH <> 0) by discriminate.
  split; [exact Hitem | split; [exact Hbad | split; [exact Hcch |]]].
  exact (C7_validator_rejects_other_shapes (sample_env None None true true)
           (selection_of [L "D:\Projects"]) (L "D:\Projects") [] MAX_PATH []
           Hitem Hbad Hcch).
Defined.

(** C9.  The two copies of the validator are not equivalent.  On a first
    item with a filesystem path, the copy in DiskBench.ShellExtension.Cpp
    accepts exactly the drive-root shapes (two characters with a colon
    second, or three with a colon second and a backslash or slash last) and
    answers with the normalized token; the copy in
    DiskBench/DiskBench.ShellExtension.Cpp accepts exactly the two-character
    shape and answers with the path as it is.  Every three-character path
    made of a character, a colon and a backslash is accepted by the former
    and rejected by the latter. *)
Theorem C9_validator_copies_diverge :
  (forall env sia path buf cchPath tr,
      first_item_path sia path ->
      3 < cchPath <= STRSAFE_MAX_CCH ->
      let new := fst (ShellExtension.GetSelectedDrivePath
                        env (Some sia) (Some buf) cchPath tr) in
      let old := fst (LegacyShellExtension.GetSelectedDrivePath
                        env (Some sia) (Some buf) cchPath tr) in
      (fst new = S_OK <-> drive_root_shape path) /\
      (fst new = S_OK -> snd new = Some (drive_token env path)) /\
      (fst old = S_OK <-> wcslen path = 2 /\ wch_at path 1 = WCH ":") /\
      (fst old = S_OK -> snd old = Some path)) /\
  (forall env letter buf tr,
      let sia := selection_of [[letter; WCH ":"; WCH "\"]] in
      fst (ShellExtension.GetSelectedDrivePath env (Some sia) (Some buf) MAX_PATH tr)
      = (S_OK, Some [towupper env letter; WCH ":"; WCH "\"]) /\
      fst (LegacyShellExtension.GetSelectedDrivePath env (Some sia) (Some buf) MAX_PATH tr)
      = (S_FALSE, Some buf)).
Proof.
  split.
  - intros env sia path buf cch tr Hitem Hcch new old. subst new old.
    rewrite (GetSelectedDrivePath_first_item env sia path buf cch tr Hitem) by lia.
    rewrite (Legacy_GetSelectedDrivePath_first_item env sia path buf cch tr Hitem) by lia.
    rewrite <- drive_root_shapeb_spec, <- legacy_shapeb_spec.
    repeat split.
    + destruct (drive_root_shapeb path); simpl; [reflexivity | discriminate].
    + destruct (drive_root_shapeb path); simpl; [reflexivity | discriminate].
    + destruct (drive_root_shapeb path); simpl; [|discriminate].
      intros _. rewrite StringCchCopy_fits
        by (unfold drive_token, wcslen; simpl List.length; lia).
      reflexivity.
    + destruct (legacy_shapeb path); simpl; [reflexivity | discriminate].
    + destruct (legacy_shapeb path); simpl; [reflexivity | discriminate].
    + destruct (legacy_shapeb path) eqn:Hl; simpl; [|discriminate].
      intros _. apply legacy_shapeb_spec in Hl. destruct Hl as [Hl _].
      rewrite StringCchCopy_fits by lia. reflexivity.
  - intros env letter buf tr sia.
    assert (Hitem : first_item_path sia [letter; WCH ":"; WCH "\"])
      by apply first_item_path_selection_of.
    rewrite (GetSelectedDrivePath_first_item env sia _ buf MAX_PATH tr Hitem)
      by discriminate.
    rewrite (Legacy_GetSelectedDrivePath_first_item env sia _ buf MAX_PATH tr Hitem)
      by discriminate.
    split; reflexivity.
Qed.

Lemma C9_witness_bare_and_rooted :
  let env := sample_env None None true true in
  fst (ShellExtension.GetSelectedDrivePath env (Some (selection_of [L "c:"]))
         (Some []) MAX_PATH []) = (S_OK, Some (L "C:\")) /\
  fst (LegacyShellExtension.GetSelectedDrivePath env (Some (selection_of [L "c:"]))
         (Some []) MAX_PATH []) = (S_OK, Some (L "c:")) /\
  fst (ShellExtension.GetSelectedDrivePath env (Some (selection_of [L "C:\"]))
         (Some []) MAX_PATH []) = (S_OK, Some (L "C:\")) /\
  fst (LegacyShellExtension.GetSelectedDrivePath env (Some (selection_of [L "C:\"]))
         (Some []) MAX_PATH []) = (S_FALSE, Some []).
Proof.
  intros env.
  assert (Hcch : 3 < MAX_PATH <= STRSAFE_MAX_CCH) by (unfold MAX_PATH, STRSAFE_MAX_CCH; lia).
  pose proof (proj1 C9_validator_copies_diverge env (selection_of [L "c:"]) (L "c:")
                [] MAX_PATH [] (first_item_path_selection_of (L "c:") []) Hcch) as Hbare.
  pose proof (proj2 C9_validator_copies_diverge env (WCH "C") [] []) as Hrooted.
  cbv zeta in Hbare, Hrooted.
  destruct Hbare as (_ & Hnorm & _ & Hcopy).
  destruct Hrooted as (Hnew & Hold).
  split; [|split; [|split; [exact Hnew | exact Hold]]].
  - apply injective_projections; [reflexivity | exact (Hnorm eq_refl)].
  - apply injective_projections; [reflexivity | exact (Hcopy eq_refl)].
Defined.

(** ** Calls and their traces *)

Lemma appends_ret {A} (a : A) : appends (ret a).
Proof. intros tr. unfold ret. simpl. rewrite app_nil_r. reflexivity. Qed.

Lemma appends_emit (e : Event) : appends (emit e).
Proof. intros tr. reflexivity. Qed.

Lemma appends_bind {A B} (c : Call A) (k : A -> Call B) :
  appends c -> (forall a, appends (k a)) -> appends (bind c k).
Proof.
  intros Hc Hk tr. unfold bind.
  rewrite (Hc tr). rewrite (Hk (fst (c [])) (tr ++ snd (c []))).
  destruct (c []) as [a t] eqn:Ec. simpl.
  rewrite (Hk a t). simpl. rewrite app_assoc. reflexivity.
Qed.

Ltac appends_step :=
  first
    [ apply appends_ret
    | apply appends_emit
    | apply appends_bind; [| intros ? ]
    | match goal with
      | |- appends (match ?x with _ => _ end) => destruct x
      end ].

Ltac appends_auto := repeat appends_step.

Lemma appends_GetSelectedDrivePath env psiItemArray pszPath cchPath :
  appends (ShellExtension.GetSelectedDrivePath env psiItemArray pszPath cchPath).
Proof. unfold ShellExtension.GetSelectedDrivePath. appends_auto. Qed.

Lemma appends_ReadExePathFromRegistry env buf cch :
  appends (ShellExtension.ReadExePathFromRegistry env buf cch).
Proof. unfold ShellExtension.ReadExePathFromRegistry. appends_auto. Qed.

Lemma appends_GetExePath env pszExePath cch :
  appends (ShellExtension.GetExePath env pszExePath cch).
Proof.
  unfold ShellExtension.GetExePath.
  destruct pszExePath; [|apply appends_ret].
  destruct (cch =? 0); [apply appends_ret|].
  apply appends_bind; [apply appends_ReadExePathFromRegistry|].
  intros [hr out]. apply appends_ret.
Qed.

(** The validator and the resolver start no process. *)
Lemma launches_app (a b : list Event) : launches (a ++ b) = launches a ++ launches b.
Proof. unfold launches. apply filter_app. Qed.

Lemma GetSelectedDrivePath_no_launch env psiItemArray pszPath cchPath :
  launches (snd (run (ShellExtension.GetSelectedDrivePath env psiItemArray pszPath cchPath))) = [].
Proof.
  unfold run, ShellExtension.GetSelectedDrivePath.
  repeat match goal with
         | |- context [match ?x with _ => _ end] => destruct x
         end; reflexivity.
Qed.

(** ** The configuration resolver *)

(** The resolver, case by case on what the two opens answer. *)
Lemma ReadExePathFromRegistry_cases env buf cch tr :
  let m := RegOpenKeyEx env HKEY_LOCAL_MACHINE CONFIG_REG_PATH in
  let u := RegOpenKeyEx env HKEY_CURRENT_USER CONFIG_REG_PATH in
  ShellExtension.ReadExePathFromRegistry env buf cch tr =
  if fst m =? ERROR_SUCCESS then
    (read_value env (snd m) buf cch,
     tr ++ [EvRegOpenKeyEx HKEY_LOCAL_MACHINE CONFIG_REG_PATH;
            EvRegQueryValueEx (snd m) (L "ExePath"); EvRegCloseKey (snd m)])
  else if fst u =? ERROR_SUCCESS then
    (read_value env (snd u) buf cch,
     tr ++ [EvRegOpenKeyEx HKEY_LOCAL_MACHINE CONFIG_REG_PATH;
            EvRegOpenKeyEx HKEY_CURRENT_USER CONFIG_REG_PATH;
            EvRegQueryValueEx (snd u) (L "ExePath"); EvRegCloseKey (snd u)])
  else
    ((E_FAIL, buf),
     tr ++ [EvRegOpenKeyEx HKEY_LOCAL_MACHINE CONFIG_REG_PATH;
            EvRegOpenKeyEx HKEY_CURRENT_USER CONFIG_REG_PATH]).
Proof.
  intros m u. subst m u.
  unfold ShellExtension.ReadExePathFromRegistry, read_value, bind, emit, ret.
  destruct (RegOpenKeyEx env HKEY_LOCAL_MACHINE CONFIG_REG_PATH) as [rm km].
  destruct (RegOpenKeyEx env HKEY_CURRENT_USER CONFIG_REG_PATH) as [ru ku].
  cbn [fst snd].
  destruct (rm =? ERROR_SUCCESS); cbn [negb].
  - destruct (RegQueryValueEx env km (L "ExePath") (MAX_PATH * sizeof_wchar_t)) as [rq v].
    cbn [fst snd].
    destruct (rq =? ERROR_SUCCESS); cbn [negb].
    + destruct (StringCchCopy buf cch v) as [h out]. cbn [fst snd].
      rewrite <- !app_assoc. reflexivity.
    + rewrite <- !app_assoc. reflexivity.
  - destruct (ru =? ERROR_SUCCESS); cbn [negb].
    + destruct (RegQueryValueEx env ku (L "ExePath") (MAX_PATH * sizeof_wchar_t)) as [rq v].
      cbn [fst snd].
      destruct (rq =? ERROR_SUCCESS); cbn [negb].
      * destruct (StringCchCopy buf cch v) as [h out]. cbn [fst snd].
        rewrite <- !app_assoc. reflexivity.
      * rewrite <- !app_assoc. reflexivity.
    + rewrite <- !app_assoc. reflexivity.
Qed.

Lemma read_value_status env hKey buf cch :
  fst (read_value env hKey buf cch) = S_OK \/
  fst (read_value env hKey buf cch) = E_FAIL.
Proof.
  unfold read_value.
  destruct (fst (RegQueryValueEx env hKey (L "ExePath") (MAX_PATH * sizeof_wchar_t))
            =? ERROR_SUCCESS); [left | right]; reflexivity.
Qed.


Lemma read_value_bound env hKey buf cch :
  wcslen buf < cch -> wcslen (snd (read_value env hKey buf cch)) < cch.
Proof.
  intros Hb. unfold read_value.
  destruct (fst (RegQueryValueEx env hKey (L "ExePath") (MAX_PATH * sizeof_wchar_t))
            =? ERROR_SUCCESS); simpl; [apply StringCchCopy_bound|]; exact Hb.
Qed.

Lemma GetExePath_run env buf cch :
  cch <> 0 ->
  run (ShellExtension.GetExePath env (Some buf) cch) =
  let r := run (ShellExtension.ReadExePathFromRegistry env buf cch) in
  ((fst (fst r), Some (snd (fst r))), snd r).
Proof.
  intros Hcch. unfold run, ShellExtension.GetExePath.
  apply Z.eqb_neq in Hcch. rewrite Hcch. unfold bind.
  destruct (ShellExtension.ReadExePathFromRegistry env buf cch []) as [[hr out] t].
  reflexivity.
Qed.

(** The resolver answers S_OK or E_FAIL, never starts a process, and keeps
    the string within the caller's buffer. *)
Lemma ReadExePathFromRegistry_status env buf cch :
  let r := run (ShellExtension.ReadExePathFromRegistry env buf cch) in
  fst (fst r) = S_OK \/ fst (fst r) = E_FAIL.
Proof.
  intros r. subst r. unfold run. rewrite ReadExePathFromRegistry_cases.
  cbv zeta.
  destruct (fst (RegOpenKeyEx env HKEY_LOCAL_MACHINE CONFIG_REG_PATH) =? ERROR_SUCCESS);
    [apply read_value_status|].
  destruct (fst (RegOpenKeyEx env HKEY_CURRENT_USER CONFIG_REG_PATH) =? ERROR_SUCCESS);
    [apply read_value_status|].
  right. reflexivity.
Qed.

Lemma ReadExePathFromRegistry_bound env buf cch :
  wcslen buf < cch ->
  wcslen (snd (fst (run (ShellExtension.ReadExePathFromRegistry env buf cch)))) < cch.
Proof.
  intros Hb. unfold run. rewrite ReadExePathFromRegistry_cases. cbv zeta.
  destruct (fst (RegOpenKeyEx env HKEY_LOCAL_MACHINE CONFIG_REG_PATH) =? ERROR_SUCCESS);
    [apply read_value_bound; exact Hb|].
  destruct (fst (RegOpenKeyEx env HKEY_CURRENT_USER CONFIG_REG_PATH) =? ERROR_SUCCESS);
    [apply read_value_bound; exact Hb|].
  exact Hb.
Qed.

Lemma ReadExePathFromRegistry_no_launch env buf cch :
  launches (snd (run (ShellExtension.ReadExePathFromRegistry env buf cch))) = [].
Proof.
  unfold run. rewrite ReadExePathFromRegistry_cases. cbv zeta.
  destruct (fst (RegOpenKeyEx env HKEY_LOCAL_MACHINE CONFIG_REG_PATH) =? ERROR_SUCCESS);
    [reflexivity|].
  destruct (fst (RegOpenKeyEx env HKEY_CURRENT_USER CONFIG_REG_PATH) =? ERROR_SUCCESS);
    reflexivity.
Qed.

Lemma opens_app (a b : list Event) : opens (a ++ b) = opens a ++ opens b.
Proof. unfold opens. apply filter_app. Qed.




(** ** Invocation *)

Lemma GetExePath_status env :
  let x := run (ShellExtension.GetExePath env (Some []) MAX_PATH) in
  fst (fst x) = S_OK \/ fst (fst x) = E_FAIL.
Proof.
  cbv zeta. rewrite GetExePath_run by discriminate. cbv zeta. cbn [fst snd].
  apply ReadExePathFromRegistry_status.
Qed.

Lemma GetExePath_bound env :
  wcslen (buf_str (snd (fst (run (ShellExtension.GetExePath env (Some []) MAX_PATH)))))
  < MAX_PATH.
Proof.
  rewrite GetExePath_run by discriminate. cbv zeta. cbn [fst snd buf_str].
  apply ReadExePathFromRegistry_bound. reflexivity.
Qed.

Lemma GetExePath_no_launch env :
  launches (snd (run (ShellExtension.GetExePath env (Some []) MAX_PATH))) = [].
Proof.
  rewrite GetExePath_run by discriminate. cbv zeta. cbn [fst snd].
  apply ReadExePathFromRegistry_no_launch.
Qed.

(** With both scopes absent the resolver fails. *)
Lemma GetExePath_both_scopes_absent env :
  both_scopes_absent env ->
  fst (fst (run (ShellExtension.GetExePath env (Some []) MAX_PATH))) = E_FAIL.
Proof.
  intros [Hm Hu]. rewrite GetExePath_run by discriminate. cbv zeta. cbn [fst snd].
  unfold run. rewrite ReadExePathFromRegistry_cases. cbv zeta.
  apply Z.eqb_neq in Hm, Hu. rewrite Hm, Hu. reflexivity.
Qed.

(** The token the validator leaves in an empty buffer has three characters
    at most, and is empty unless the validator answered S_OK. *)
Lemma GetSelectedDrivePath_token env psiItemArray cch :
  let v := fst (run (ShellExtension.GetSelectedDrivePath env psiItemArray (Some []) cch)) in
  wcslen (buf_str (snd v)) <= 3 /\ (buf_str (snd v) <> [] -> fst v = S_OK).
Proof.
  cbv zeta. unfold run, ShellExtension.GetSelectedDrivePath.
  repeat match goal with
         | |- context [match ?x with _ => _ end] => destruct x eqn:?
         end;
    cbn [fst snd buf_str bind ret emit];
    try (split; [unfold wcslen; simpl; lia | intros H; congruence]).
  all: split; [|reflexivity].
  all: match goal with
       | H : StringCchCopy _ _ _ = (_, ?w) |- _ =>
           unfold StringCchCopy in H;
           repeat match type of H with
                  | context [if ?b then _ else _] => destruct b
                  end;
           inversion H; subst; unfold wcslen; try rewrite length_firstn;
           simpl List.length; lia
       end.
Qed.

Lemma wformat_cmdLine (tool token : wstring) :
  wformat ShellExtension.cmdLine_format [tool; token] = command_line tool token.
Proof. reflexivity. Qed.

Lemma wcslen_command_line (tool token : wstring) :
  wcslen (command_line tool token) = wcslen tool + wcslen token + 13.
Proof.
  unfold command_line. rewrite !wcslen_app. unfold wcslen. simpl List.length. lia.
Qed.

(** Invoke, case by case on what the validator, the resolver and
    CreateProcess answer. *)
Lemma Invoke_run env sia pbc :
  let v := run (ShellExtension.GetSelectedDrivePath env (Some sia) (Some []) MAX_PATH) in
  let x := run (ShellExtension.GetExePath env (Some []) MAX_PATH) in
  let T := buf_str (snd (fst v)) in
  let P := buf_str (snd (fst x)) in
  let cmd := command_line P T in
  run (ShellExtension.Invoke env (Some sia) pbc) =
  if FAILED (fst (fst v)) || (wcslen T =? 0) then (S_FALSE, snd v)
  else if FAILED (fst (fst x)) then (E_FAIL, snd v ++ snd x)
  else if negb (fst (CreateProcess env P cmd) =? 0)
       then (S_OK, ((((snd v ++ snd x) ++ [EvCreateProcess P cmd])
                    ++ [EvCloseHandle (hProcess (snd (CreateProcess env P cmd)))])
                    ++ [EvCloseHandle (hThread (snd (CreateProcess env P cmd)))]))
       else (E_FAIL, (snd v ++ snd x) ++ [EvCreateProcess P cmd]).
Proof.
  intros v x T P cmd.
  pose proof (GetSelectedDrivePath_token env (Some sia) MAX_PATH) as [HT _].
  pose proof (GetExePath_bound env) as HP.
  cbv zeta in HT. fold v in HT. fold T in HT. fold x in HP. fold P in HP.
  unfold run, ShellExtension.Invoke.
  unfold bind at 1.
  change (ShellExtension.GetSelectedDrivePath env (Some sia) (Some []) MAX_PATH [])
    with v.
  destruct v as [[hrDrive drivePath] t1] eqn:Ev. cbn [fst snd] in *.
  fold T.
  destruct (FAILED hrDrive || (wcslen T =? 0)); [reflexivity|].
  unfold bind at 1.
  rewrite (appends_GetExePath env (Some []) MAX_PATH t1).
  change (ShellExtension.GetExePath env (Some []) MAX_PATH []) with x.
  destruct x as [[hrExe exePath] t2] eqn:Ex. cbn [fst snd] in *.
  fold P.
  destruct (FAILED hrExe); [reflexivity|].
  unfold StringCchPrintf. rewrite wformat_cmdLine. fold cmd.
  rewrite StringCchCopy_fits.
  2:{ unfold cmd. rewrite wcslen_command_line.
      unfold MAX_PATH, STRSAFE_MAX_CCH in *. lia. }
  unfold bind, emit, ret.
  destruct (CreateProcess env P cmd) as [ok pi]. cbn [fst snd].
  destruct (negb (ok =? 0)); reflexivity.
Qed.

Lemma FAILED_SUCCEEDED (hr : HRESULT) : FAILED hr = negb (SUCCEEDED hr).
Proof.
  unfold FAILED, SUCCEEDED.
  destruct (Z.ltb_spec hr 0), (Z.leb_spec 0 hr); simpl; try reflexivity; lia.
Qed.

(** C2.  For a selection whose first item is a drive root: when the resolver
    fails, and so in particular when the key is absent from both scopes,
    Invoke returns E_FAIL, which is a failure and is not the S_FALSE it
    returns for a selection that does not apply, and the trace holds no
    process launch.  For any selection, a trace of Invoke that holds a
    process launch comes from a run in which the validator succeeded with a
    token that is not empty and the resolver succeeded, and the launch comes
    after their calls. *)
Theorem C2_invoke_without_configuration env sia path pbc :
  first_item_path sia path ->
  drive_root_shape path ->
  let x := run (ShellExtension.GetExePath env (Some []) MAX_PATH) in
  let i := run (ShellExtension.Invoke env (Some sia) pbc) in
  (both_scopes_absent env -> FAILED (fst (fst x)) = true) /\
  (FAILED (fst (fst x)) = true -> fst i = E_FAIL /\ launches (snd i) = []) /\
  (FAILED E_FAIL = true /\ SUCCEEDED S_FALSE = true /\ E_FAIL <> S_FALSE) /\
  (forall sia' pbc',
      let v' := run (ShellExtension.GetSelectedDrivePath env (Some sia') (Some []) MAX_PATH) in
      let i' := run (ShellExtension.Invoke env (Some sia') pbc') in
      launches (snd i') <> [] ->
      SUCCEEDED (fst (fst v')) = true /\ buf_str (snd (fst v')) <> [] /\
      SUCCEEDED (fst (fst x)) = true /\
      exists rest, snd i' = (snd v' ++ snd x) ++ rest) /\
  launches (snd (run (ShellExtension.Invoke env None pbc))) = [].
Proof.
  intros Hitem Hshape x i.
  split; [|split; [|split; [|split]]].
  - intros Habs. subst x. rewrite GetExePath_both_scopes_absent by exact Habs.
    reflexivity.
  - intros Hfail. subst i. rewrite Invoke_run. cbv zeta. fold x.
    pose proof (GetSelectedDrivePath_first_item env sia path [] MAX_PATH []
                  Hitem ltac:(discriminate)) as Hv.
    apply drive_root_shapeb_spec in Hshape. rewrite Hshape in Hv.
    rewrite StringCchCopy_fits in Hv by (split; [reflexivity | discriminate]).
    unfold run. rewrite Hv. cbn [fst snd buf_str].
    replace (FAILED S_OK || (wcslen (drive_token env path) =? 0)) with false
      by reflexivity.
    rewrite Hfail. cbn [fst snd]. split; [reflexivity|].
    rewrite launches_app. fold (run (ShellExtension.GetExePath env (Some []) MAX_PATH)).
    fold x. unfold x. rewrite GetExePath_no_launch. reflexivity.
  - repeat split; discriminate.
  - intros sia' pbc' v' i' Hlaunch. subst i'.
    rewrite Invoke_run in Hlaunch |- *. cbv zeta in Hlaunch |- *.
    fold v' in Hlaunch |- *. fold x in Hlaunch |- *.
    assert (Hv0 : launches (snd v') = [])
      by apply GetSelectedDrivePath_no_launch.
    assert (Hx0 : launches (snd x) = []) by apply GetExePath_no_launch.
    destruct (FAILED (fst (fst v'))) eqn:Hfv; cbn [orb] in Hlaunch |- *.
    { cbn [snd] in Hlaunch. contradiction. }
    destruct (wcslen (buf_str (snd (fst v'))) =? 0) eqn:Hlen.
    { cbn [snd] in Hlaunch. contradiction. }
    destruct (FAILED (fst (fst x))) eqn:Hfx.
    { cbn [snd] in Hlaunch. rewrite launches_app, Hv0, Hx0 in Hlaunch.
      contradiction. }
    rewrite FAILED_SUCCEEDED in Hfv, Hfx.
    apply negb_false_iff in Hfv, Hfx.
    split; [exact Hfv|]. split.
    { intros Hempty. rewrite Hempty in Hlen. discriminate. }
    split; [exact Hfx|].
    destruct (negb (fst (CreateProcess env _ _) =? 0)); cbn [snd].
    + rewrite <- !app_assoc. rewrite !app_assoc. rewrite <- (app_assoc _ [_] [_]).
      rewrite <- (app_assoc _ [_] ([_] ++ [_])). eexists. reflexivity.
    + eexists. reflexivity.
  - reflexivity.
Qed.

Lemma C2_witness_drive_without_registry :
  let env := sample_env None None true true in
  let sia := selection_of [L "D:\"] in
  first_item_path sia (L "D:\") /\ drive_root_shape (L "D:\") /\
  both_scopes_absent env /\
  run (ShellExtension.Invoke env (Some sia) nullptr)
  = (E_FAIL, [EvCoTaskMemFree; EvShellItemRelease;
              EvRegOpenKeyEx HKEY_LOCAL_MACHINE CONFIG_REG_PATH;
              EvRegOpenKeyEx HKEY_CURRENT_USER CONFIG_REG_PATH]) /\
  fst (run (ShellExtension.Invoke env (Some sia) nullptr)) = E_FAIL /\
  launches (snd (run (ShellExtension.Invoke env (Some sia) nullptr))) = [].
Proof.
  intros env sia.
  assert (Hitem : first_item_path sia (L "D:\")) by apply first_item_path_selection_of.
  assert (Hshape : drive_root_shape (L "D:\")).
  { split; [reflexivity | right; split; [reflexivity | left; reflexivity]]. }
  assert (Habs : both_scopes_absent env) by (split; discriminate).
  destruct (C2_invoke_without_configuration env sia (L "D:\") nullptr Hitem Hshape)
    as (Hfail & Hinvoke & _).
  split; [exact Hitem | split; [exact Hshape | split; [exact Habs | split]]].
  - reflexivity.
  - exact (Hinvoke (Hfail Habs)).
Defined.

(** C6.  When the validator leaves the token [T] for the selection and the
    resolver leaves the tool path [P], Invoke calls CreateProcess once, for
    the application [P], with the command line made of [P] between double
    quotes, a space, --quick, a space, and [T] between double quotes, and
    nothing else. *)
Theorem C6_invoke_command_line env sia pbc hrDrive T hrExe P :
  fst (run (ShellExtension.GetSelectedDrivePath env (Some sia) (Some []) MAX_PATH))
  = (hrDrive, Some T) ->
  SUCCEEDED hrDrive = true ->
  T <> [] ->
  fst (run (ShellExtension.GetExePath env (Some []) MAX_PATH)) = (hrExe, Some P) ->
  SUCCEEDED hrExe = true ->
  launches (snd (run (ShellExtension.Invoke env (Some sia) pbc)))
  = [EvCreateProcess P
       ([DQUOTE] ++ P ++ [DQUOTE] ++ L " --quick " ++ [DQUOTE] ++ T ++ [DQUOTE])].
Proof.
  intros Hv Hsv HT Hx Hsx.
  rewrite Invoke_run. cbv zeta.
  pose proof (GetSelectedDrivePath_no_launch env (Some sia) (Some []) MAX_PATH) as Hv0.
  pose proof (GetExePath_no_launch env) as Hx0.
  rewrite Hv, Hx. cbn [fst snd buf_str].
  rewrite !FAILED_SUCCEEDED, Hsv, Hsx. cbn [negb orb].
  replace (wcslen T =? 0) with false.
  2:{ symmetry. apply Z.eqb_neq. destruct T; [congruence | unfold wcslen; simpl; lia]. }
  fold (command_line P T).
  destruct (negb (fst (CreateProcess env P (command_line P T)) =? 0)); cbn [snd];
    rewrite !launches_app, Hv0, Hx0; reflexivity.
Qed.

Lemma C6_witness_tool_and_drive :
  let env := sample_env (Some (L "C:\Tools\DiskBench.exe")) None true true in
  let sia := selection_of [L "c:"] in
  fst (run (ShellExtension.GetSelectedDrivePath env (Some sia) (Some []) MAX_PATH))
  = (S_OK, Some (L "C:\")) /\
  fst (run (ShellExtension.GetExePath env (Some []) MAX_PATH))
  = (S_OK, Some (L "C:\Tools\DiskBench.exe")) /\
  launches (snd (run (ShellExtension.Invoke env (Some sia) nullptr)))
  = [EvCreateProcess (L "C:\Tools\DiskBench.exe")
       ([DQUOTE] ++ L "C:\Tools\DiskBench.exe" ++ [DQUOTE] ++ L " --quick "
        ++ [DQUOTE] ++ L "C:\" ++ [DQUOTE])].
Proof.
  intros env sia.
  split; [reflexivity | split; [reflexivity |]].
  apply (C6_invoke_command_line env sia nullptr S_OK (L "C:\") S_OK
           (L "C:\Tools\DiskBench.exe")).
  - reflexivity.
  - reflexivity.
  - discriminate.
  - reflexivity.
  - reflexivity.
Defined.

(** ** Visibility *)

Lemma GetState_run env sia fOkToBeSlow st :
  let v := run (ShellExtension.GetSelectedDrivePath env (Some sia) (Some []) MAX_PATH) in
  run (ShellExtension.GetState env (Some sia) fOkToBeSlow (Some st)) =
  ((S_OK, Some (if SUCCEEDED (fst (fst v)) && (0 <? wcslen (buf_str (snd (fst v))))
                then ECS_ENABLED else ECS_HIDDEN)), snd v).
Proof.
  intros v. unfold run, ShellExtension.GetState, bind.
  change (ShellExtension.GetSelectedDrivePath env (Some sia) (Some []) MAX_PATH [])
    with v.
  destruct v as [[hr drivePath] t]. cbn [fst snd].
  destruct (SUCCEEDED hr && (0 <? wcslen (buf_str drivePath))); reflexivity.
Qed.

Lemma GetSelectedDrivePath_no_items env sia buf cch tr :
  snd (GetCount sia) = 0 -> cch <> 0 ->
  ShellExtension.GetSelectedDrivePath env (Some sia) (Some buf) cch tr
  = ((S_FALSE, Some buf), tr).
Proof.
  intros Hzero Hcch. unfold ShellExtension.GetSelectedDrivePath.
  apply Z.eqb_neq in Hcch. rewrite Hcch.
  destruct (GetCount sia) as [hr count]. cbn [snd] in Hzero. subst count.
  rewrite Z.eqb_refl, orb_true_r. reflexivity.
Qed.

Lemma wcslen_pos_iff (s : list wchar_t) : (0 <? wcslen s) = true <-> s <> [].
Proof.
  unfold wcslen. destruct s; simpl; split; intros H; try congruence.
  - discriminate.
  - reflexivity.
Qed.

(** C5.  With a state cell that is not null, GetState returns S_OK in every
    case and writes ECS_ENABLED or ECS_HIDDEN: ECS_HIDDEN for a null
    selection and for a selection of zero items, ECS_ENABLED when the
    validator leaves a token that is not empty, ECS_HIDDEN when it leaves
    none, which includes every failure of the validator. *)
Theorem C5_GetState_hidden_or_enabled env psiItemArray fOkToBeSlow st :
  let g := fst (run (ShellExtension.GetState env psiItemArray fOkToBeSlow (Some st))) in
  let v := fst (run (ShellExtension.GetSelectedDrivePath
                       env psiItemArray (Some []) MAX_PATH)) in
  fst g = S_OK /\
  (psiItemArray = None -> snd g = Some ECS_HIDDEN) /\
  (forall sia, psiItemArray = Some sia -> snd (GetCount sia) = 0 ->
               snd g = Some ECS_HIDDEN) /\
  (buf_str (snd v) <> [] -> snd g = Some ECS_ENABLED) /\
  (buf_str (snd v) = [] -> snd g = Some ECS_HIDDEN) /\
  (FAILED (fst v) = true -> snd g = Some ECS_HIDDEN) /\
  (snd g = Some ECS_ENABLED \/ snd g = Some ECS_HIDDEN).
Proof.
  intros g v.
  destruct psiItemArray as [sia|].
  - pose proof (GetSelectedDrivePath_token env (Some sia) MAX_PATH) as [_ Hok].
    cbv zeta in Hok. fold v in Hok.
    assert (Hg : g = (S_OK, Some (if SUCCEEDED (fst v) && (0 <? wcslen (buf_str (snd v)))
                                  then ECS_ENABLED else ECS_HIDDEN))).
    { subst g v. rewrite GetState_run. reflexivity. }
    clearbody g. subst g. cbn [fst snd].
    split; [reflexivity|]. split; [discriminate|]. split.
    { intros sia' Heq Hzero. injection Heq as <-.
      assert (Hv : v = (S_FALSE, Some [])).
      { subst v. unfold run. rewrite GetSelectedDrivePath_no_items;
          [reflexivity | exact Hzero | discriminate]. }
      rewrite Hv. reflexivity. }
    split.
    { intros Hne. rewrite (Hok Hne).
      replace (0 <? wcslen (buf_str (snd v))) with true
        by (symmetry; apply wcslen_pos_iff; exact Hne).
      reflexivity. }
    split.
    { intros He. rewrite He. rewrite andb_false_r. reflexivity. }
    split.
    { intros Hf. rewrite FAILED_SUCCEEDED in Hf. apply negb_true_iff in Hf.
      rewrite Hf. reflexivity. }
    destruct (SUCCEEDED (fst v) && (0 <? wcslen (buf_str (snd v))));
      [left | right]; reflexivity.
  - subst g v. cbn.
    split; [reflexivity|]. split; [reflexivity|]. split; [discriminate|].
    split; [intros H; exfalso; apply H; reflexivity|].
    split; [reflexivity|]. split; [reflexivity|]. right. reflexivity.
Qed.

Lemma C5_witness_states :
  let env := sample_env None None true true in
  fst (run (ShellExtension.GetState env None 0 (Some ECS_ENABLED)))
  = (S_OK, Some ECS_HIDDEN) /\
  fst (run (ShellExtension.GetState env (Some (selection_of [])) 0 (Some ECS_ENABLED)))
  = (S_OK, Some ECS_HIDDEN) /\
  fst (run (ShellExtension.GetState env (Some (selection_of [L "D:\"])) 0
              (Some ECS_HIDDEN)))
  = (S_OK, Some ECS_ENABLED) /\
  fst (run (ShellExtension.GetState env (Some (selection_of [L "D:\Projects"])) 0
              (Some ECS_ENABLED)))
  = (S_OK, Some ECS_HIDDEN).
Proof.
  intros env.
  split; [|split; [|split]]; apply injective_projections.
  - exact (proj1 (C5_GetState_hidden_or_enabled env None 0 ECS_ENABLED)).
  - exact (proj1 (proj2 (C5_GetState_hidden_or_enabled env None 0 ECS_ENABLED)) eq_refl).
  - exact (proj1 (C5_GetState_hidden_or_enabled env (Some (selection_of [])) 0 ECS_ENABLED)).
  - exact (proj1 (proj2 (proj2
             (C5_GetState_hidden_or_enabled env (Some (selection_of [])) 0 ECS_ENABLED)))
             (selection_of []) eq_refl eq_refl).
  - exact (proj1 (C5_GetState_hidden_or_enabled env
                    (Some (selection_of [L "D:\"])) 0 ECS_HIDDEN)).
  - refine (proj1 (proj2 (proj2 (proj2
             (C5_GetState_hidden_or_enabled env
                (Some (selection_of [L "D:\"])) 0 ECS_HIDDEN)))) _).
    discriminate.
  - exact (proj1 (C5_GetState_hidden_or_enabled env
                    (Some (selection_of [L "D:\Projects"])) 0 ECS_ENABLED)).
  - exact (proj1 (proj2 (proj2 (proj2 (proj2
             (C5_GetState_hidden_or_enabled env
                (Some (selection_of [L "D:\Projects"])) 0 ECS_ENABLED))))) eq_refl).
Defined.

(** ** Icon *)

Lemma wformat_icon (path : list wchar_t) : wformat (L "%s,0") [path] = path ++ L ",0".
Proof. reflexivity. Qed.

Lemma StringCchPrintf_icon (path : list wchar_t) :
  wcslen path < MAX_PATH ->
  StringCchPrintf [] (wcslen path + 10) (L "%s,0") [path] = (S_OK, path ++ L ",0").
Proof.
  intros Hlen. unfold StringCchPrintf. rewrite wformat_icon.
  apply StringCchCopy_fits. rewrite wcslen_app.
  unfold MAX_PATH, STRSAFE_MAX_CCH in *.
  replace (wcslen (L ",0")) with 2 by reflexivity. lia.
Qed.

(** GetIcon, case by case on the path it picks and on the allocation. *)
Lemma GetIcon_run env g_hInstance psiItemArray cell :
  let x := run (ShellExtension.GetExePath env (Some []) MAX_PATH) in
  let dll := GetModuleFileNameW env g_hInstance MAX_PATH in
  let hasDllPath :=
    negb (g_hInstance =? 0) && ((0 <? fst dll) && (fst dll <? MAX_PATH)) in
  let iconPath :=
    if SUCCEEDED (fst (fst x)) then Some (buf_str (snd (fst x)))
    else if hasDllPath then Some (snd dll) else None in
  run (ShellExtension.GetIcon env g_hInstance psiItemArray (Some cell)) =
  (match iconPath with
   | Some path =>
       if CoTaskMemAlloc env ((wcslen path + 10) * sizeof_wchar_t)
       then (S_OK, Some (Some (snd (StringCchPrintf [] (wcslen path + 10)
                                      (L "%s,0") [path]))))
       else (E_OUTOFMEMORY, Some None)
   | None => (S_FALSE, Some None)
   end, snd x).
Proof.
  intros x dll hasDllPath iconPath.
  unfold run, ShellExtension.GetIcon, bind.
  change (ShellExtension.GetExePath env (Some []) MAX_PATH []) with x.
  subst iconPath hasDllPath dll.
  destruct x as [[hrExe exePath] t]. cbn [fst snd].
  destruct (g_hInstance =? 0); cbn [negb andb].
  - destruct (SUCCEEDED hrExe); [|reflexivity].
    destruct (CoTaskMemAlloc env _); [|reflexivity].
    destruct (StringCchPrintf _ _ _ _). reflexivity.
  - destruct (GetModuleFileNameW env g_hInstance MAX_PATH) as [len path].
    cbn [fst snd].
    destruct (SUCCEEDED hrExe).
    + destruct (CoTaskMemAlloc env _); [|reflexivity].
      destruct (StringCchPrintf _ _ _ _). reflexivity.
    + destruct ((0 <? len) && (len <? MAX_PATH)); [|reflexivity].
      destruct (CoTaskMemAlloc env _); [|reflexivity].
      destruct (StringCchPrintf _ _ _ _). reflexivity.
Qed.

(** C8, as amended.  With an output cell that is not null: when the resolver
    succeeds with the path [P], GetIcon writes [P] followed by ",0" and
    returns S_OK; when it fails and the module path is obtainable
    ([g_hInstance] is set and GetModuleFileNameW returns a length above 0
    and below MAX_PATH, that of the string it leaves), GetIcon writes the
    module path followed by ",0" and returns S_OK; both provided
    CoTaskMemAlloc gives the memory for the string, and otherwise GetIcon
    returns E_OUTOFMEMORY and writes a null pointer.  When neither path is
    available it returns S_FALSE, which is not a failure, and writes a null
    pointer. *)
Theorem C8_GetIcon_paths env g_hInstance psiItemArray cell :
  let x := fst (run (ShellExtension.GetExePath env (Some []) MAX_PATH)) in
  let P := buf_str (snd x) in
  let dll := GetModuleFileNameW env g_hInstance MAX_PATH in
  let obtainable :=
    g_hInstance <> 0 /\ 0 < fst dll < MAX_PATH /\ wcslen (snd dll) = fst dll in
  let alloc := fun path => CoTaskMemAlloc env ((wcslen path + 10) * sizeof_wchar_t) in
  let r := fst (run (ShellExtension.GetIcon env g_hInstance psiItemArray (Some cell))) in
  (SUCCEEDED (fst x) = true -> alloc P = true ->
   r = (S_OK, Some (Some (P ++ L ",0")))) /\
  (SUCCEEDED (fst x) = true -> alloc P = false ->
   r = (E_OUTOFMEMORY, Some None)) /\
  (SUCCEEDED (fst x) = false -> obtainable -> alloc (snd dll) = true ->
   r = (S_OK, Some (Some (snd dll ++ L ",0")))) /\
  (SUCCEEDED (fst x) = false -> obtainable -> alloc (snd dll) = false ->
   r = (E_OUTOFMEMORY, Some None)) /\
  (SUCCEEDED (fst x) = false -> (g_hInstance = 0 \/ ~ 0 < fst dll < MAX_PATH) ->
   r = (S_FALSE, Some None)) /\
  (SUCCEEDED S_FALSE = true /\ FAILED E_OUTOFMEMORY = true).
Proof.
  intros x P dll obtainable alloc r.
  assert (Hr : r = fst (run (ShellExtension.GetIcon env g_hInstance psiItemArray (Some cell))))
    by reflexivity.
  rewrite GetIcon_run in Hr. cbv zeta in Hr. cbn [fst] in Hr.
  fold x in Hr. fold P in Hr. fold dll in Hr.
  clearbody r. subst r.
  assert (HP : wcslen P < MAX_PATH) by apply GetExePath_bound.
  assert (Hyes : obtainable ->
            negb (g_hInstance =? 0) && ((0 <? fst dll) && (fst dll <? MAX_PATH)) = true).
  { intros (Hg & [Hlo Hhi] & _).
    apply Z.eqb_neq in Hg. apply Z.ltb_lt in Hlo, Hhi. rewrite Hg, Hlo, Hhi. reflexivity. }
  assert (Hno : g_hInstance = 0 \/ ~ 0 < fst dll < MAX_PATH ->
            negb (g_hInstance =? 0) && ((0 <? fst dll) && (fst dll <? MAX_PATH)) = false).
  { intros [Hg | Hlen].
    - subst g_hInstance. reflexivity.
    - destruct (Z.ltb_spec 0 (fst dll)), (Z.ltb_spec (fst dll) MAX_PATH);
        cbn [andb]; try (rewrite ?andb_false_r; reflexivity).
      exfalso. apply Hlen. split; assumption. }
  split; [|split; [|split; [|split; [|split]]]].
  - intros Hs Ha. rewrite Hs. fold (alloc P). rewrite Ha.
    rewrite StringCchPrintf_icon by exact HP. reflexivity.
  - intros Hs Ha. rewrite Hs. fold (alloc P). rewrite Ha. reflexivity.
  - intros Hs Hob Ha. rewrite Hs, (Hyes Hob). fold (alloc (snd dll)). rewrite Ha.
    destruct Hob as (_ & [_ Hhi] & Hlen).
    rewrite StringCchPrintf_icon by (rewrite Hlen; exact Hhi). reflexivity.
  - intros Hs Hob Ha. rewrite Hs, (Hyes Hob). fold (alloc (snd dll)). rewrite Ha.
    reflexivity.
  - intros Hs Hn. rewrite Hs, (Hno Hn). reflexivity.
  - split; reflexivity.
Qed.

Lemma C8_witness_icon_sources :
  let tool := L "C:\Tools\DiskBench.exe" in
  fst (run (ShellExtension.GetIcon (sample_env (Some tool) None true true) 5 None
              (Some None)))
  = (S_OK, Some (Some (L "C:\Tools\DiskBench.exe,0"))) /\
  fst (run (ShellExtension.GetIcon (sample_env None None true true) 5 None (Some None)))
  = (S_OK, Some (Some (L "C:\Ext\DiskBenchShell.dll,0"))) /\
  fst (run (ShellExtension.GetIcon (sample_env None None true true) 0 None (Some None)))
  = (S_FALSE, Some None).
Proof.
  intros tool.
  split; [|split].
  - exact (proj1 (C8_GetIcon_paths (sample_env (Some tool) None true true) 5 None None)
             eq_refl eq_refl).
  - refine (proj1 (proj2 (proj2
             (C8_GetIcon_paths (sample_env None None true true) 5 None None)))
             eq_refl _ eq_refl).
    split; [discriminate | split; [split; reflexivity | reflexivity]].
  - refine (proj1 (proj2 (proj2 (proj2 (proj2
             (C8_GetIcon_paths (sample_env None None true true) 0 None None)))))
             eq_refl _).
    left. reflexivity.
Defined.

(** C8 as first stated fails when the allocation fails: the tool path
    resolves, yet GetIcon returns E_OUTOFMEMORY and writes a null pointer
    instead of the path followed by ",0". *)
Lemma C8_counterexample_allocation_failure :
  let tool := L "C:\Tools\DiskBench.exe" in
  let env := sample_env (Some tool) None false true in
  fst (run (ShellExtension.GetExePath env (Some []) MAX_PATH)) = (S_OK, Some tool) /\
  fst (run (ShellExtension.GetIcon env 5 None (Some None))) = (E_OUTOFMEMORY, Some None) /\
  fst (run (ShellExtension.GetIcon env 5 None (Some None)))
  <> (S_OK, Some (Some (tool ++ L ",0"))).
Proof.
  intros tool env. split; [reflexivity | split; [reflexivity | discriminate]].
Qed.

(** ** Reference counting *)

Lemma to_LONG_range (z : Z) : - 2 ^ 31 <= to_LONG z < 2 ^ 31.
Proof.
  unfold to_LONG.
  pose proof (Z.mod_pos_bound (z + 2 ^ 31) (2 ^ 32) ltac:(lia)). lia.
Qed.

Lemma to_LONG_add_l (a b : Z) : to_LONG (to_LONG a + b) = to_LONG (a + b).
Proof.
  unfold to_LONG. f_equal.
  replace ((a + 2 ^ 31) mod 2 ^ 32 - 2 ^ 31 + b + 2 ^ 31)
    with ((a + 2 ^ 31) mod 2 ^ 32 + b) by lia.
  rewrite Zplus_mod_idemp_l. f_equal. lia.
Qed.

Lemma to_ULONG_to_LONG (a : Z) : to_ULONG (to_LONG a) = to_ULONG a.
Proof.
  unfold to_ULONG, to_LONG.
  rewrite Zminus_mod_idemp_l. f_equal. lia.
Qed.

Lemma to_LONG_zero_iff (a : Z) : to_LONG a = 0 <-> a mod 2 ^ 32 = 0.
Proof.
  split; intros H.
  - rewrite <- (to_ULONG_to_LONG a) at 1. fold (to_ULONG a) in *.
    rewrite H. reflexivity.
  - pose proof (to_LONG_range a) as Hr.
    pose proof (to_ULONG_to_LONG a) as Hu. unfold to_ULONG in Hu. rewrite H in Hu.
    apply Z.mod_divide in Hu; [|lia]. destruct Hu as [k Hk]. lia.
Qed.

Lemma to_LONG_small (a : Z) : - 2 ^ 31 <= a < 2 ^ 31 -> to_LONG a = a.
Proof. intros H. unfold to_LONG. rewrite Z.mod_small by lia. lia. Qed.

Lemma map_seq_shift {A} (f : nat -> A) (s n : nat) :
  map f (seq (S s) n) = map (fun i => f (S i)) (seq s n).
Proof. rewrite <- seq_shift, map_map. reflexivity. Qed.

Lemma calls_app cs1 cs2 : forall p tr,
  ShellExtension.calls (cs1 ++ cs2) p tr =
  match ShellExtension.calls cs1 p tr with
  | (Some (us, p'), tr') =>
      match ShellExtension.calls cs2 p' tr' with
      | (Some (vs, p''), tr'') => (Some (us ++ vs, p''), tr'')
      | (None, tr'') => (None, tr'')
      end
  | (None, tr') => (None, tr')
  end.
Proof.
  induction cs1 as [|c cs1 IH]; intros p tr.
  - cbn [app ShellExtension.calls ret].
    destruct (ShellExtension.calls cs2 p tr) as [[[vs p'']|] tr'']; reflexivity.
  - cbn [app ShellExtension.calls]. unfold bind at 1 3.
    destruct (ShellExtension.call c p tr) as [[[u p']|] tr1]; [|reflexivity].
    unfold bind, ret. rewrite IH.
    destruct (ShellExtension.calls cs1 p' tr1) as [[[us q]|] tr2]; [|reflexivity].
    destruct (ShellExtension.calls cs2 q tr2) as [[[vs q']|] tr3]; reflexivity.
Qed.

(** [n] AddRef calls: no destruction, and the count has grown by [n]. *)
Lemma calls_AddRef (n : nat) : forall c tr,
  ShellExtension.calls (repeat ShellExtension.Call_AddRef n)
    (Some {| ShellExtension.m_refCount := to_LONG c |}) tr =
  (Some (map (fun i => to_ULONG (c + Z.of_nat i)) (seq 1 n),
         Some {| ShellExtension.m_refCount := to_LONG (c + Z.of_nat n) |}), tr).
Proof.
  induction n as [|n IH]; intros c tr.
  - cbn [repeat ShellExtension.calls ret seq map]. rewrite Z.add_0_r. reflexivity.
  - cbn [repeat ShellExtension.calls]. unfold bind at 1.
    cbn [ShellExtension.call ShellExtension.AddRef ShellExtension.m_refCount ret].
    unfold ShellExtension.InterlockedIncrement. rewrite to_LONG_add_l.
    unfold bind. rewrite IH. unfold ret.
    rewrite to_ULONG_to_LONG. cbn [seq map].
    rewrite (map_seq_shift (fun i => to_ULONG (c + Z.of_nat i)) 1 n).
    assert (Hm : map (fun i => to_ULONG (c + 1 + Z.of_nat i)) (seq 1 n)
                 = map (fun i => to_ULONG (c + Z.of_nat (S i))) (seq 1 n))
      by (apply map_ext; intros i; f_equal; lia).
    rewrite Hm.
    replace (c + 1 + Z.of_nat n) with (c + Z.of_nat (S n)) by lia.
    replace (c + 1) with (c + Z.of_nat 1) by lia.
    reflexivity.
Qed.

(** [n] Release calls none of which brings the count to zero. *)
Lemma calls_Release_alive (n : nat) : forall c tr,
  (forall j, (1 <= j <= n)%nat -> (c - Z.of_nat j) mod 2 ^ 32 <> 0) ->
  ShellExtension.calls (repeat ShellExtension.Call_Release n)
    (Some {| ShellExtension.m_refCount := to_LONG c |}) tr =
  (Some (map (fun j => to_ULONG (c - Z.of_nat j)) (seq 1 n),
         Some {| ShellExtension.m_refCount := to_LONG (c - Z.of_nat n) |}), tr).
Proof.
  induction n as [|n IH]; intros c tr Halive.
  - cbn [repeat ShellExtension.calls ret seq map]. rewrite Z.sub_0_r. reflexivity.
  - cbn [repeat ShellExtension.calls]. unfold bind at 1.
    cbn [ShellExtension.call]. unfold bind at 1.
    unfold ShellExtension.Release, ShellExtension.InterlockedDecrement.
    cbn [ShellExtension.m_refCount].
    replace (to_LONG c - 1) with (to_LONG c + (-1)) by lia.
    rewrite to_LONG_add_l.
    assert (Hnz : to_LONG (c + -1) <> 0).
    { rewrite to_LONG_zero_iff. specialize (Halive 1%nat ltac:(lia)).
      replace (c + -1) with (c - Z.of_nat 1) by lia. exact Halive. }
    apply Z.eqb_neq in Hnz. rewrite Hnz. cbn [ret].
    unfold bind. rewrite IH.
    + unfold ret. rewrite to_ULONG_to_LONG. cbn [seq map].
      rewrite (map_seq_shift (fun j => to_ULONG (c - Z.of_nat j)) 1 n).
      assert (Hm : map (fun j => to_ULONG (c + -1 - Z.of_nat j)) (seq 1 n)
                   = map (fun j => to_ULONG (c - Z.of_nat (S j))) (seq 1 n))
        by (apply map_ext; intros j; f_equal; lia).
      rewrite Hm.
      replace (c + -1 - Z.of_nat n) with (c - Z.of_nat (S n)) by lia.
      replace (c + -1) with (c - Z.of_nat 1) by lia.
      reflexivity.
    + intros j Hj. specialize (Halive (S j) ltac:(lia)).
      replace (c + -1 - Z.of_nat j) with (c - Z.of_nat (S j)) by lia. exact Halive.
Qed.

(** The Release that brings the count to zero. *)
Lemma Release_last c tr :
  c mod 2 ^ 32 = 1 ->
  ShellExtension.Release {| ShellExtension.m_refCount := to_LONG c |} tr =
  ((0, None), tr ++ [EvDestructed]).
Proof.
  intros Hc. unfold ShellExtension.Release, ShellExtension.InterlockedDecrement.
  cbn [ShellExtension.m_refCount].
  replace (to_LONG c - 1) with (to_LONG c + (-1)) by lia.
  rewrite to_LONG_add_l.
  assert (Hz : to_LONG (c + -1) = 0).
  { apply to_LONG_zero_iff. rewrite <- Zplus_mod_idemp_l, Hc. reflexivity. }
  rewrite Hz. reflexivity.
Qed.

Lemma repeat_snoc {A} (a : A) (n : nat) : repeat a (S n) = repeat a n ++ [a].
Proof. rewrite <- repeat_cons. reflexivity. Qed.

Lemma calls_Release_last c tr :
  c mod 2 ^ 32 = 1 ->
  ShellExtension.calls [ShellExtension.Call_Release]
    (Some {| ShellExtension.m_refCount := to_LONG c |}) tr =
  (Some ([0], None), tr ++ [EvDestructed]).
Proof.
  intros Hc. cbn [ShellExtension.calls ShellExtension.call]. unfold bind.
  rewrite Release_last by exact Hc. reflexivity.
Qed.

(** After the instance is gone every further call is undefined. *)
Lemma calls_dangling c cs tr :
  ShellExtension.calls (c :: cs) None tr = (None, tr).
Proof. reflexivity. Qed.

(** C3, as amended.  The count is 1 after construction.  AddRef returns the
    count plus one (as a ULONG) and stores it.  Release stores the count
    minus one; exactly when that is zero it runs the destructor, the
    instance is gone and Release returns zero; otherwise the instance stays
    and Release returns the new count, which is not zero.  For every [N]
    below 2^32, [N] AddRef calls followed by [N] Release calls leave the
    instance alive with count 1, and the next Release returns zero and
    destroys it: the destructor has run once, at the last call. *)
Theorem C3_reference_count_lifecycle :
  fst (run ShellExtension.ExplorerCommand_ctor) = {| ShellExtension.m_refCount := 1 |} /\
  (forall this,
      ShellExtension.AddRef this =
      (to_ULONG (ShellExtension.m_refCount this + 1),
       {| ShellExtension.m_refCount := to_LONG (ShellExtension.m_refCount this + 1) |})) /\
  (forall this tr,
      let count := to_LONG (ShellExtension.m_refCount this - 1) in
      let r := ShellExtension.Release this tr in
      (count = 0 -> r = ((0, None), tr ++ [EvDestructed])) /\
      (count <> 0 ->
       r = ((to_ULONG count, Some {| ShellExtension.m_refCount := count |}), tr) /\
       to_ULONG count <> 0)) /\
  (forall N : nat,
      Z.of_nat N < 2 ^ 32 ->
      let addrefs := map (fun i => to_ULONG (1 + Z.of_nat i)) (seq 1 N) in
      let releases :=
        map (fun j => to_ULONG (1 + Z.of_nat N - Z.of_nat j)) (seq 1 N) in
      run (ShellExtension.calls
             (repeat ShellExtension.Call_AddRef N ++ repeat ShellExtension.Call_Release N)
             (Some {| ShellExtension.m_refCount := 1 |}))
      = (Some (addrefs ++ releases, Some {| ShellExtension.m_refCount := 1 |}), []) /\
      let all :=
        run (ShellExtension.calls
               (repeat ShellExtension.Call_AddRef N
                ++ repeat ShellExtension.Call_Release (S N))
               (Some {| ShellExtension.m_refCount := 1 |})) in
      fst all = Some (addrefs ++ releases ++ [0], None) /\
      snd all = [EvDestructed] /\
      destructions (snd all) = 1%nat).
Proof.
  split; [reflexivity|]. split.
  { intros this. unfold ShellExtension.AddRef, ShellExtension.InterlockedIncrement.
    rewrite to_ULONG_to_LONG. reflexivity. }
  split.
  { intros this tr count r. subst r.
    unfold ShellExtension.Release, ShellExtension.InterlockedDecrement.
    fold count. split.
    - intros Hz. rewrite Hz. reflexivity.
    - intros Hnz. pose proof Hnz as Hb. apply Z.eqb_neq in Hb. rewrite Hb.
      split; [reflexivity|].
      unfold to_ULONG. intros Hmod.
      pose proof (to_LONG_range (ShellExtension.m_refCount this - 1)) as Hr.
      fold count in Hr. apply Z.mod_divide in Hmod; [|lia].
      destruct Hmod as [k Hk]. lia. }
  intros N HN addrefs releases.
  assert (Halive : forall j, (1 <= j <= N)%nat ->
                     (1 + Z.of_nat N - Z.of_nat j) mod 2 ^ 32 <> 0).
  { intros j Hj. rewrite Z.mod_small by lia. lia. }
  assert (Hone : {| ShellExtension.m_refCount := 1 |}
                 = {| ShellExtension.m_refCount := to_LONG 1 |}) by reflexivity.
  assert (Hback : to_LONG (1 + Z.of_nat N - Z.of_nat N) = 1).
  { replace (1 + Z.of_nat N - Z.of_nat N) with 1 by lia. reflexivity. }
  split.
  - unfold run. rewrite Hone at 1. rewrite calls_app, calls_AddRef.
    rewrite calls_Release_alive by exact Halive.
    rewrite Hback. reflexivity.
  - intros all.
    assert (Hall : all = (Some (addrefs ++ releases ++ [0], None), [EvDestructed])).
    { subst all. unfold run. rewrite Hone.
      rewrite repeat_snoc, calls_app, calls_AddRef, calls_app.
      rewrite calls_Release_alive by exact Halive.
      rewrite calls_Release_last
        by (replace (1 + Z.of_nat N - Z.of_nat N) with 1 by lia; reflexivity).
      reflexivity. }
    rewrite Hall. repeat split.
Qed.

Lemma C3_witness_two_references :
  Z.of_nat 2 < 2 ^ 32 /\
  run (ShellExtension.calls
         [ShellExtension.Call_AddRef; ShellExtension.Call_AddRef;
          ShellExtension.Call_Release; ShellExtension.Call_Release;
          ShellExtension.Call_Release]
         (Some {| ShellExtension.m_refCount := 1 |}))
  = (Some ([2; 3; 2; 1; 0], None), [EvDestructed]).
Proof.
  assert (H : Z.of_nat 2 < 2 ^ 32) by reflexivity.
  split; [exact H|].
  destruct (proj2 (proj2 (proj2 (proj2 C3_reference_count_lifecycle)) 2%nat H))
    as (Hret & Htrace & _).
  apply injective_projections; [exact Hret | exact Htrace].
Defined.

(** C3 as first stated fails once the 32-bit count wraps: 2^32 AddRef calls
    bring the count back to 1, the first Release after them destroys the
    instance, and the Release calls that remain of the 2^32 + 1 go through a
    dangling pointer. *)
Lemma C3_counterexample_count_wraps :
  let N := Z.to_nat (2 ^ 32) in
  (exists returned,
      run (ShellExtension.calls
             (repeat ShellExtension.Call_AddRef N ++ [ShellExtension.Call_Release])
             (Some {| ShellExtension.m_refCount := 1 |}))
      = (Some (returned ++ [0], None), [EvDestructed])) /\
  fst (run (ShellExtension.calls
              (repeat ShellExtension.Call_AddRef N
               ++ repeat ShellExtension.Call_Release (S N))
              (Some {| ShellExtension.m_refCount := 1 |})))
  = None.
Proof.
  intros N.
  assert (HN : Z.of_nat N = 2 ^ 32) by (unfold N; apply Z2Nat.id; lia).
  clearbody N.
  assert (Hone : {| ShellExtension.m_refCount := 1 |}
                 = {| ShellExtension.m_refCount := to_LONG 1 |}) by reflexivity.
  assert (Hwrap : (1 + Z.of_nat N) mod 2 ^ 32 = 1) by (rewrite HN; reflexivity).
  unfold run. rewrite Hone. split.
  - eexists. rewrite calls_app, calls_AddRef.
    rewrite calls_Release_last by exact Hwrap. reflexivity.
  - destruct N as [|N']; [discriminate HN|].
    change (repeat ShellExtension.Call_Release (S (S N')))
      with ([ShellExtension.Call_Release]
            ++ ShellExtension.Call_Release :: repeat ShellExtension.Call_Release N').
    rewrite calls_app, calls_AddRef, calls_app.
    rewrite calls_Release_last by exact Hwrap.
    rewrite calls_dangling. reflexivity.
Qed.

(** ** The class factory *)

Lemma GUID_eqb_eq (a b : GUID) : GUID_eqb a b = true -> a = b.
Proof.
  destruct a as [a1 a2 a3 a4], b as [b1 b2 b3 b4]. unfold GUID_eqb.
  cbn [Data1 Data2 Data3 Data4].
  rewrite !andb_true_iff, !Z.eqb_eq.
  intros [[[H1 H2] H3] H4].
  destruct (list_eq_dec Z.eq_dec a4 b4) as [He | Hne]; [|discriminate].
  subst. reflexivity.
Qed.

Lemma GUID_eqb_neq (a b : GUID) : a <> b -> GUID_eqb a b = false.
Proof.
  intros Hne. destruct (GUID_eqb a b) eqn:E; [|reflexivity].
  exfalso. apply Hne. apply GUID_eqb_eq. exact E.
Qed.

(** C10, as amended.  For a call with a [ppv] that is not null, a null outer
    pointer and an interface id that is neither IID_IUnknown nor
    IID_IExplorerCommand, when the allocation of the instance succeeds:
    QueryInterface answers E_NOINTERFACE and leaves the count at 1, the
    factory's Release returns 0, and CreateInstance returns E_NOINTERFACE
    with a null pointer behind [ppv], no instance left alive, one
    construction and one destruction.  With a null [ppv] CreateInstance
    returns E_POINTER, and when the allocation fails E_OUTOFMEMORY; in both
    cases no instance is constructed. *)
Theorem C10_CreateInstance_unsupported_interface env riid tr :
  riid <> IID_IUnknown ->
  riid <> IID_IExplorerCommand ->
  (forall cell,
      operator_new env <> nullptr ->
      ShellExtension.QueryInterface (operator_new env)
        {| ShellExtension.m_refCount := 1 |} riid (Some nullptr)
      = (E_NOINTERFACE, Some nullptr, {| ShellExtension.m_refCount := 1 |}) /\
      fst (run (ShellExtension.Release {| ShellExtension.m_refCount := 1 |}))
      = (0, None) /\
      ShellExtension.CreateInstance env nullptr riid (Some cell) tr
      = ((E_NOINTERFACE, Some nullptr, None),
         (tr ++ [EvConstructed]) ++ [EvDestructed]) /\
      destructions
        (snd (run (ShellExtension.CreateInstance env nullptr riid (Some cell))))
      = 1%nat) /\
  ShellExtension.CreateInstance env nullptr riid None tr
  = ((E_POINTER, None, None), tr) /\
  (forall cell,
      operator_new env = nullptr ->
      ShellExtension.CreateInstance env nullptr riid (Some cell) tr
      = ((E_OUTOFMEMORY, Some nullptr, None), tr)).
Proof.
  intros Hunk Hcmd.
  apply GUID_eqb_neq in Hunk, Hcmd.
  assert (Hqi : forall p,
            ShellExtension.QueryInterface p {| ShellExtension.m_refCount := 1 |}
              riid (Some nullptr)
            = (E_NOINTERFACE, Some nullptr, {| ShellExtension.m_refCount := 1 |})).
  { intros p. unfold ShellExtension.QueryInterface. rewrite Hunk, Hcmd. reflexivity. }
  assert (Hci : forall cell t,
            operator_new env <> nullptr ->
            ShellExtension.CreateInstance env nullptr riid (Some cell) t
            = ((E_NOINTERFACE, Some nullptr, None),
               (t ++ [EvConstructed]) ++ [EvDestructed])).
  { intros cell t Hnew. unfold ShellExtension.CreateInstance.
    apply Z.eqb_neq in Hnew. rewrite Hnew.
    change (nullptr =? nullptr) with true.
    cbv beta iota zeta delta [bind emit ret ShellExtension.ExplorerCommand_ctor negb].
    rewrite Hqi. reflexivity. }
  split; [|split].
  - intros cell Hnew. split; [apply Hqi|]. split; [reflexivity|].
    split; [apply Hci; exact Hnew|].
    unfold run. rewrite Hci by exact Hnew. reflexivity.
  - reflexivity.
  - intros cell Hnull. unfold ShellExtension.CreateInstance.
    rewrite Hnull. reflexivity.
Qed.

Lemma C10_witness_class_factory_interface :
  IID_IClassFactory <> IID_IUnknown /\
  IID_IClassFactory <> IID_IExplorerCommand /\
  operator_new (sample_env None None true true) <> nullptr /\
  run (ShellExtension.CreateInstance (sample_env None None true true) nullptr
         IID_IClassFactory (Some 12345))
  = ((E_NOINTERFACE, Some nullptr, None), [EvConstructed; EvDestructed]).
Proof.
  assert (H1 : IID_IClassFactory <> IID_IUnknown) by discriminate.
  assert (H2 : IID_IClassFactory <> IID_IExplorerCommand) by discriminate.
  assert (H3 : operator_new (sample_env None None true true) <> nullptr) by discriminate.
  split; [exact H1 | split; [exact H2 | split; [exact H3 |]]].
  exact (proj1 (proj2 (proj2 (proj1
           (C10_CreateInstance_unsupported_interface
              (sample_env None None true true) IID_IClassFactory [] H1 H2)
           12345 H3)))).
Defined.

(** C10 as first stated fails for a null [ppv], and when the instance cannot
    be allocated: the outer pointer is null and the interface id is neither
    of the two, yet CreateInstance returns E_POINTER, respectively
    E_OUTOFMEMORY, not E_NOINTERFACE, and constructs nothing. *)
Lemma C10_counterexample_null_ppv :
  let r := run (ShellExtension.CreateInstance (sample_env None None true true)
                  nullptr IID_IClassFactory None) in
  let r' := run (ShellExtension.CreateInstance exhausted_env
                   nullptr IID_IClassFactory (Some 12345)) in
  IID_IClassFactory <> IID_IUnknown /\
  IID_IClassFactory <> IID_IExplorerCommand /\
  (r = ((E_POINTER, None, None), []) /\
   fst (fst (fst r)) <> E_NOINTERFACE /\
   destructions (snd r) = 0%nat) /\
  (r' = ((E_OUTOFMEMORY, Some nullptr, None), []) /\
   fst (fst (fst r')) <> E_NOINTERFACE /\
   destructions (snd r') = 0%nat).
Proof.
  intros r r'.
  split; [discriminate | split; [discriminate | split]].
  - split; [reflexivity | split; [discriminate | reflexivity]].
  - split; [reflexivity | split; [discriminate | reflexivity]].
Qed.

(** ** The older copy: where it differs beyond the validator *)

(** The older resolver reads the machine-wide scope only: when that open
    fails it answers E_FAIL without opening the per-user scope, whatever the
    per-user scope holds. *)
Lemma Legacy_ReadExePathFromRegistry_machine_only env buf cch :
  fst (RegOpenKeyEx env HKEY_LOCAL_MACHINE CONFIG_REG_PATH) <> ERROR_SUCCESS ->
  run (LegacyShellExtension.ReadExePathFromRegistry env buf cch)
  = ((E_FAIL, buf), [EvRegOpenKeyEx HKEY_LOCAL_MACHINE CONFIG_REG_PATH]).
Proof.
  intros Hm. unfold run, LegacyShellExtension.ReadExePathFromRegistry, bind, emit.
  destruct (RegOpenKeyEx env HKEY_LOCAL_MACHINE CONFIG_REG_PATH) as [rm km].
  cbn [fst] in Hm. apply Z.eqb_neq in Hm. rewrite Hm. reflexivity.
Qed.

(** The older GetIcon has no module-path fallback: when the machine-wide
    open fails it returns S_FALSE and a null pointer. *)
Lemma Legacy_GetIcon_no_fallback env psiItemArray cell :
  fst (RegOpenKeyEx env HKEY_LOCAL_MACHINE CONFIG_REG_PATH) <> ERROR_SUCCESS ->
  fst (run (LegacyShellExtension.GetIcon env psiItemArray (Some cell)))
  = (S_FALSE, Some None).
Proof.
  intros Hm.
  pose proof (Legacy_ReadExePathFromRegistry_machine_only env [] MAX_PATH Hm) as Hr.
  unfold run in *. unfold LegacyShellExtension.GetIcon, LegacyShellExtension.GetExePath.
  change (MAX_PATH =? 0) with false. cbv iota.
  unfold bind at 1. unfold bind at 1. rewrite Hr. reflexivity.
Qed.

Example Legacy_resolver_ignores_user_scope :
  let env := sample_env None (Some (L "C:\Tools\DiskBench.exe")) true true in
  fst (run (ShellExtension.ReadExePathFromRegistry env [] MAX_PATH))
  = (S_OK, L "C:\Tools\DiskBench.exe") /\
  fst (run (LegacyShellExtension.ReadExePathFromRegistry env [] MAX_PATH))
  = (E_FAIL, []).
Proof. split; reflexivity. Qed.

(** * Further properties of the code *)

(** ** Interface ids and references *)

Lemma GUID_eqb_refl (a : GUID) : GUID_eqb a a = true.
Proof.
  unfold GUID_eqb. rewrite !Z.eqb_refl.
  destruct (list_eq_dec Z.eq_dec (Data4 a) (Data4 a)) as [_ | Hne];
    [reflexivity | exfalso; apply Hne; reflexivity].
Qed.

Lemma GUID_eqb_iff (a b : GUID) : GUID_eqb a b = true <-> a = b.
Proof.
  split; [apply GUID_eqb_eq | intros ->; apply GUID_eqb_refl].
Qed.

Lemma to_LONG_sub_l (a b : Z) : to_LONG (to_LONG a - b) = to_LONG (a - b).
Proof.
  replace (to_LONG a - b) with (to_LONG a + (- b)) by lia.
  rewrite to_LONG_add_l. reflexivity.
Qed.

(** X1.  QueryInterface of the command hands out the instance exactly for
    IID_IUnknown and IID_IExplorerCommand, and counts the reference it hands
    out: on an instance whose count is a LONG other than zero, giving that
    reference back with one Release returns the former count, leaves the
    instance as it was and destroys nothing.  For any other interface id the
    answer is E_NOINTERFACE with a null pointer and the instance is
    untouched. *)
Theorem X1_QueryInterface_reference_roundtrip pThis this riid cell tr :
  - 2 ^ 31 <= ShellExtension.m_refCount this < 2 ^ 31 ->
  ShellExtension.m_refCount this <> 0 ->
  let q := ShellExtension.QueryInterface pThis this riid (Some cell) in
  (riid = IID_IUnknown \/ riid = IID_IExplorerCommand ->
   fst (fst q) = S_OK /\ snd (fst q) = Some pThis /\
   ShellExtension.m_refCount (snd q) = to_LONG (ShellExtension.m_refCount this + 1) /\
   ShellExtension.Release (snd q) tr
   = ((to_ULONG (ShellExtension.m_refCount this), Some this), tr)) /\
  (riid <> IID_IUnknown -> riid <> IID_IExplorerCommand ->
   q = (E_NOINTERFACE, Some nullptr, this)).
Proof.
  intros Hrange Hnz q. subst q. destruct this as [c].
  cbn [ShellExtension.m_refCount] in *.
  unfold ShellExtension.QueryInterface. split.
  - intros Hsupported.
    assert (Hb : GUID_eqb riid IID_IUnknown || GUID_eqb riid IID_IExplorerCommand = true).
    { apply orb_true_iff. destruct Hsupported as [-> | ->];
        [left | right]; apply GUID_eqb_refl. }
    rewrite Hb. cbn [ShellExtension.AddRef ShellExtension.m_refCount fst snd].
    unfold ShellExtension.InterlockedIncrement.
    repeat split.
    unfold ShellExtension.Release, ShellExtension.InterlockedDecrement.
    cbn [ShellExtension.m_refCount].
    rewrite to_LONG_sub_l. replace (c + 1 - 1) with c by lia.
    rewrite (to_LONG_small c Hrange).
    apply Z.eqb_neq in Hnz. rewrite Hnz. reflexivity.
  - intros Hu Hc. rewrite (GUID_eqb_neq _ _ Hu), (GUID_eqb_neq _ _ Hc). reflexivity.
Qed.

Lemma X1_witness_largest_count :
  - 2 ^ 31 <= 2147483647 < 2 ^ 31 /\ 2147483647 <> 0 /\
  ShellExtension.QueryInterface 4096 {| ShellExtension.m_refCount := 2147483647 |}
    IID_IExplorerCommand (Some nullptr)
  = (S_OK, Some 4096, {| ShellExtension.m_refCount := -2147483648 |}) /\
  ShellExtension.Release {| ShellExtension.m_refCount := -2147483648 |} []
  = ((2147483647, Some {| ShellExtension.m_refCount := 2147483647 |}), []).
Proof.
  assert (Hrange : - 2 ^ 31 <= 2147483647 < 2 ^ 31) by (split; [discriminate | reflexivity]).
  assert (Hnz : 2147483647 <> 0) by discriminate.
  split; [exact Hrange | split; [exact Hnz | split; [reflexivity|]]].
  exact (proj2 (proj2 (proj2 (proj1
           (X1_QueryInterface_reference_roundtrip 4096
              {| ShellExtension.m_refCount := 2147483647 |} IID_IExplorerCommand
              nullptr [] Hrange Hnz) (or_intror eq_refl))))).
Defined.

(** ** The class factory and the exports *)

(** X2.  CreateInstance returns S_OK exactly when [ppv] is not null, the
    outer pointer is null, the allocation succeeds and the interface id is
    IID_IUnknown or IID_IExplorerCommand.  Then the cell behind [ppv] holds
    the address of the new instance, the instance is alive with a count of
    exactly 1 (the caller's reference), it has been constructed once and not
    destroyed, and the caller's single Release destroys it.  In every other
    case no instance is left alive, the cell never holds the address of an
    instance, and every instance constructed has been destroyed. *)
Theorem X2_CreateInstance_leaves_one_reference_or_nothing env pUnkOuter riid ppv :
  let r := run (ShellExtension.CreateInstance env pUnkOuter riid ppv) in
  let hr := fst (fst (fst r)) in
  let ppv' := snd (fst (fst r)) in
  let alive := snd (fst r) in
  (hr = S_OK <->
   ppv <> None /\ pUnkOuter = nullptr /\ operator_new env <> nullptr /\
   (riid = IID_IUnknown \/ riid = IID_IExplorerCommand)) /\
  (hr = S_OK ->
   ppv' = Some (operator_new env) /\
   alive = Some {| ShellExtension.m_refCount := 1 |} /\
   snd r = [EvConstructed] /\
   run (ShellExtension.Release {| ShellExtension.m_refCount := 1 |})
   = ((0, None), [EvDestructed])) /\
  (hr <> S_OK ->
   alive = None /\ (ppv' = None \/ ppv' = Some nullptr) /\
   constructions (snd r) = destructions (snd r)).
Proof.
  intros r hr ppv' alive. subst hr ppv' alive r.
  unfold run, ShellExtension.CreateInstance.
  destruct ppv as [cell|].
  2:{ cbn. split; [|split].
      - split; [discriminate | intros [H _]; contradiction].
      - discriminate.
      - intros _. split; [reflexivity | split; [left|]; reflexivity]. }
  destruct (Z.eqb_spec pUnkOuter nullptr) as [Houter | Houter]; cbn [negb].
  2:{ cbn. split; [|split].
      - split; [discriminate | intros (_ & H & _); contradiction].
      - discriminate.
      - intros _. split; [reflexivity | split; [right|]; reflexivity]. }
  destruct (Z.eqb_spec (operator_new env) nullptr) as [Hnew | Hnew].
  { cbn. split; [|split].
    - split; [discriminate | intros (_ & _ & H & _); contradiction].
    - discriminate.
    - intros _. split; [reflexivity | split; [right|]; reflexivity]. }
  cbv beta iota zeta delta [bind emit ret ShellExtension.ExplorerCommand_ctor].
  unfold ShellExtension.QueryInterface.
  destruct (GUID_eqb riid IID_IUnknown) eqn:Eu.
  - apply GUID_eqb_eq in Eu. subst riid. cbn.
    split; [|split].
    + split; [intros _ | reflexivity].
      split; [discriminate | split; [exact Houter | split; [exact Hnew | left; reflexivity]]].
    + intros _. repeat split.
    + intros H. exfalso. apply H. reflexivity.
  - destruct (GUID_eqb riid IID_IExplorerCommand) eqn:Ec.
    + apply GUID_eqb_eq in Ec. subst riid. cbn.
      split; [|split].
      * split; [intros _ | reflexivity].
        split; [discriminate | split; [exact Houter | split; [exact Hnew | right; reflexivity]]].
      * intros _. repeat split.
      * intros H. exfalso. apply H. reflexivity.
    + cbn. split; [|split].
      * split; [discriminate|]. intros (_ & _ & _ & [H | H]); subst riid.
        -- rewrite GUID_eqb_refl in Eu. discriminate.
        -- rewrite GUID_eqb_refl in Ec. discriminate.
      * discriminate.
      * intros _. split; [reflexivity | split; [right|]; reflexivity].
Qed.

Lemma X2_witness_created_and_released :
  let env := sample_env None None true true in
  run (ShellExtension.CreateInstance env nullptr IID_IExplorerCommand (Some 12345))
  = ((S_OK, Some 4096, Some {| ShellExtension.m_refCount := 1 |}), [EvConstructed]) /\
  run (ShellExtension.Release {| ShellExtension.m_refCount := 1 |})
  = ((0, None), [EvDestructed]).
Proof.
  intros env.
  destruct (X2_CreateInstance_leaves_one_reference_or_nothing
              env nullptr IID_IExplorerCommand (Some 12345)) as (_ & Hok & _).
  destruct (Hok eq_refl) as (Hppv & Halive & Htrace & Hrelease).
  split; [|exact Hrelease].
  apply injective_projections; [|exact Htrace].
  apply injective_projections; [|exact Halive].
  apply injective_projections; [reflexivity | exact Hppv].
Defined.

(** X3.  DllGetClassObject returns S_OK exactly when [ppv] is not null, the
    class id is CLSID_DiskBenchExplorerCommand, the factory is allocated and
    the interface id is IID_IUnknown or IID_IClassFactory.  Then the cell
    behind [ppv] holds the factory's address and the factory is alive with a
    count of exactly 1, so that the caller's single Release deletes it.  In
    every other case no factory is left alive and the cell never holds the
    address of one; in particular the command's own interface
    IID_IExplorerCommand cannot be obtained from DllGetClassObject. *)
Theorem X3_DllGetClassObject_leaves_one_reference_or_nothing pFactory rclsid riid ppv :
  let r := DllGetClassObject pFactory rclsid riid ppv in
  let hr := fst (fst r) in
  let ppv' := snd (fst r) in
  let alive := snd r in
  (hr = S_OK <->
   ppv <> None /\ rclsid = ShellExtension.CLSID_DiskBenchExplorerCommand /\
   pFactory <> nullptr /\ (riid = IID_IUnknown \/ riid = IID_IClassFactory)) /\
  (hr = S_OK ->
   ppv' = Some pFactory /\
   alive = Some {| ClassFactory.m_refCount := 1 |} /\
   ClassFactory.Release {| ClassFactory.m_refCount := 1 |} = (0, None)) /\
  (hr <> S_OK -> alive = None /\ (ppv' = None \/ ppv' = Some nullptr)) /\
  (riid = IID_IExplorerCommand -> hr <> S_OK).
Proof.
  intros r hr ppv' alive. subst hr ppv' alive r.
  assert (Hcmd : riid = IID_IExplorerCommand ->
                 GUID_eqb riid IID_IUnknown || GUID_eqb riid IID_IClassFactory = false)
    by (intros ->; reflexivity).
  unfold DllGetClassObject.
  destruct ppv as [cell|].
  2:{ cbn. split; [|split; [|split]].
      - split; [discriminate | intros [H _]; contradiction].
      - discriminate.
      - intros _. split; [reflexivity | left; reflexivity].
      - discriminate. }
  destruct (GUID_eqb rclsid ShellExtension.CLSID_DiskBenchExplorerCommand) eqn:Eclsid;
    cbn [negb].
  2:{ cbn. split; [|split; [|split]].
      - split; [discriminate|]. intros (_ & H & _). subst rclsid.
        rewrite GUID_eqb_refl in Eclsid. discriminate.
      - discriminate.
      - intros _. split; [reflexivity | right; reflexivity].
      - discriminate. }
  apply GUID_eqb_eq in Eclsid.
  destruct (Z.eqb_spec pFactory nullptr) as [Hnew | Hnew].
  { cbn. split; [|split; [|split]].
    - split; [discriminate | intros (_ & _ & H & _); contradiction].
    - discriminate.
    - intros _. split; [reflexivity | right; reflexivity].
    - discriminate. }
  unfold ClassFactory.QueryInterface.
  destruct (GUID_eqb riid IID_IUnknown || GUID_eqb riid IID_IClassFactory) eqn:Eriid.
  - cbn. split; [|split; [|split]].
    + split; [intros _ | reflexivity].
      split; [discriminate | split; [exact Eclsid | split; [exact Hnew|]]].
      apply orb_true_iff in Eriid.
      destruct Eriid as [E | E]; apply GUID_eqb_eq in E; [left | right]; exact E.
    + intros _. repeat split.
    + intros H. exfalso. apply H. reflexivity.
    + intros Hr. discriminate (Hcmd Hr).
  - cbn. split; [|split; [|split]].
    + split; [discriminate|]. intros (_ & _ & _ & [H | H]); subst riid;
        rewrite GUID_eqb_refl in Eriid; cbn in Eriid; discriminate.
    + discriminate.
    + intros _. split; [reflexivity | right; reflexivity].
    + discriminate.
Qed.

Lemma X3_witness_factory_obtained :
  DllGetClassObject 8192 ShellExtension.CLSID_DiskBenchExplorerCommand
    IID_IClassFactory (Some 12345)
  = (S_OK, Some 8192, Some {| ClassFactory.m_refCount := 1 |}) /\
  fst (fst (DllGetClassObject 8192 ShellExtension.CLSID_DiskBenchExplorerCommand
              IID_IExplorerCommand (Some 12345))) <> S_OK.
Proof.
  destruct (X3_DllGetClassObject_leaves_one_reference_or_nothing 8192
              ShellExtension.CLSID_DiskBenchExplorerCommand IID_IClassFactory
              (Some 12345)) as (_ & Hok & _).
  destruct (Hok eq_refl) as (Hppv & Halive & _).
  split.
  - apply injective_projections; [|exact Halive].
    apply injective_projections; [reflexivity | exact Hppv].
  - exact (proj2 (proj2 (proj2
      (X3_DllGetClassObject_leaves_one_reference_or_nothing 8192
         ShellExtension.CLSID_DiskBenchExplorerCommand IID_IExplorerCommand
         (Some 12345)))) eq_refl).
Defined.

(** ** What the methods do to the outside world *)

Lemma closed_handles_app (a b : list Event) :
  closed_handles (a ++ b) = closed_handles a ++ closed_handles b.
Proof. unfold closed_handles. apply flat_map_app. Qed.

Lemma GetSelectedDrivePath_closes_no_handle env psiItemArray pszPath cchPath :
  closed_handles
    (snd (run (ShellExtension.GetSelectedDrivePath env psiItemArray pszPath cchPath))) = [].
Proof.
  unfold run, ShellExtension.GetSelectedDrivePath.
  repeat match goal with
         | |- context [match ?x with _ => _ end] => destruct x
         end; reflexivity.
Qed.

Lemma GetExePath_closes_no_handle env :
  closed_handles (snd (run (ShellExtension.GetExePath env (Some []) MAX_PATH))) = [].
Proof.
  rewrite GetExePath_run by discriminate. cbv zeta. cbn [fst snd].
  unfold run. rewrite ReadExePathFromRegistry_cases. cbv zeta.
  destruct (fst (RegOpenKeyEx env HKEY_LOCAL_MACHINE CONFIG_REG_PATH) =? ERROR_SUCCESS);
    [reflexivity|].
  destruct (fst (RegOpenKeyEx env HKEY_CURRENT_USER CONFIG_REG_PATH) =? ERROR_SUCCESS);
    reflexivity.
Qed.

(** X4.  Of the methods of the command only Invoke can start a process.
    Logging aside, GetTitle, GetToolTip, GetCanonicalName, GetFlags and
    EnumSubCommands make no call to the registry, to the shell items or to
    the process interface, whatever their arguments; GetIcon and GetState
    start no process and close no process or thread handle. *)
Theorem X4_queries_start_no_process env g_hInstance psiItemArray fOkToBeSlow
    ppsz pguidCommandName pFlags ppEnum pCmdState :
  snd (run (ShellExtension.GetTitle env psiItemArray ppsz)) = [] /\
  snd (run (ShellExtension.GetToolTip env psiItemArray ppsz)) = [] /\
  snd (run (ShellExtension.GetCanonicalName pguidCommandName)) = [] /\
  snd (run (ShellExtension.GetFlags pFlags)) = [] /\
  snd (run (ShellExtension.EnumSubCommands ppEnum)) = [] /\
  (launches (snd (run (ShellExtension.GetIcon env g_hInstance psiItemArray ppsz))) = [] /\
   closed_handles
     (snd (run (ShellExtension.GetIcon env g_hInstance psiItemArray ppsz))) = []) /\
  (launches
     (snd (run (ShellExtension.GetState env psiItemArray fOkToBeSlow pCmdState))) = [] /\
   closed_handles
     (snd (run (ShellExtension.GetState env psiItemArray fOkToBeSlow pCmdState))) = []).
Proof.
  split; [|split; [|split; [|split; [|split; [|split]]]]].
  - unfold run, ShellExtension.GetTitle. destruct ppsz; [|reflexivity].
    destruct (CoTaskMemAlloc env _); [|reflexivity].
    destruct (StringCchCopy _ _ _). reflexivity.
  - unfold run, ShellExtension.GetToolTip. destruct ppsz; [|reflexivity].
    destruct (CoTaskMemAlloc env _); [|reflexivity].
    destruct (StringCchCopy _ _ _). reflexivity.
  - destruct pguidCommandName; reflexivity.
  - destruct pFlags; reflexivity.
  - destruct ppEnum; reflexivity.
  - destruct ppsz as [cell|]; [|split; reflexivity].
    rewrite GetIcon_run. cbv zeta. cbn [snd].
    split; [apply GetExePath_no_launch | apply GetExePath_closes_no_handle].
  - destruct pCmdState as [st|]; [|split; reflexivity].
    destruct psiItemArray as [sia|]; [|split; reflexivity].
    rewrite GetState_run. cbv zeta. cbn [snd].
    split; [apply GetSelectedDrivePath_no_launch
           | apply GetSelectedDrivePath_closes_no_handle].
Qed.

(** X5.  Invoke returns E_POINTER, S_FALSE, E_FAIL or S_OK, E_POINTER exactly
    for a null selection.  It calls CreateProcess at most once.  It returns
    S_OK exactly when it made that call and CreateProcess answered nonzero,
    and then it closes the process handle and the thread handle CreateProcess
    gave, each once; when it does not return S_OK it closes no such handle
    (the logger closes its own file handle, see X13). *)
Theorem X5_Invoke_outcomes_and_handles env psiItemArray pbc :
  let r := run (ShellExtension.Invoke env psiItemArray pbc) in
  (fst r = E_POINTER \/ fst r = S_FALSE \/ fst r = E_FAIL \/ fst r = S_OK) /\
  (fst r = E_POINTER <-> psiItemArray = None) /\
  (List.length (launches (snd r)) <= 1)%nat /\
  (fst r = S_OK <->
   exists app cmdLine,
     launches (snd r) = [EvCreateProcess app cmdLine] /\
     fst (CreateProcess env app cmdLine) <> 0) /\
  (forall app cmdLine,
      fst r = S_OK -> launches (snd r) = [EvCreateProcess app cmdLine] ->
      closed_handles (snd r)
      = [hProcess (snd (CreateProcess env app cmdLine));
         hThread (snd (CreateProcess env app cmdLine))]) /\
  (fst r <> S_OK -> closed_handles (snd r) = []).
Proof.
  intros r. subst r.
  destruct psiItemArray as [sia|].
  2:{ cbn. split; [left; reflexivity|]. split; [split; reflexivity|].
      split; [lia|]. split.
      - split; [discriminate | intros (a & c & H & _); discriminate H].
      - split; [discriminate | reflexivity]. }
  rewrite Invoke_run. cbv zeta.
  pose proof (GetSelectedDrivePath_no_launch env (Some sia) (Some []) MAX_PATH) as Lv.
  pose proof (GetExePath_no_launch env) as Lx.
  pose proof (GetSelectedDrivePath_closes_no_handle env (Some sia) (Some []) MAX_PATH) as Cv.
  pose proof (GetExePath_closes_no_handle env) as Cx.
  set (v := run (ShellExtension.GetSelectedDrivePath env (Some sia) (Some []) MAX_PATH)) in *.
  set (x := run (ShellExtension.GetExePath env (Some []) MAX_PATH)) in *.
  set (P := buf_str (snd (fst x))).
  set (cmd := command_line P (buf_str (snd (fst v)))).
  destruct (FAILED (fst (fst v)) || (wcslen (buf_str (snd (fst v))) =? 0)).
  { cbn [fst snd]. rewrite Lv, Cv.
    split; [right; left; reflexivity|]. split; [split; discriminate|].
    split; [cbn; lia|]. split.
    - split; [discriminate | intros (a & c & H & _); discriminate H].
    - split; [discriminate | reflexivity]. }
  destruct (FAILED (fst (fst x))).
  { cbn [fst snd]. rewrite launches_app, closed_handles_app, Lv, Lx, Cv, Cx.
    split; [right; right; left; reflexivity|]. split; [split; discriminate|].
    split; [cbn; lia|]. split.
    - split; [discriminate | intros (a & c & H & _); discriminate H].
    - split; [discriminate | reflexivity]. }
  destruct (Z.eqb_spec (fst (CreateProcess env P cmd)) 0) as [Hz | Hnz]; cbn [negb fst snd].
  - rewrite launches_app, closed_handles_app, launches_app, closed_handles_app, Lv, Lx, Cv, Cx.
    cbn [app launches closed_handles filter flat_map is_launch List.length].
    split; [right; right; left; reflexivity|]. split; [split; discriminate|].
    split; [lia|]. split.
    + split; [discriminate|]. intros (a & c & H & Hne).
      injection H as <- <-. contradiction.
    + split; [discriminate | reflexivity].
  - rewrite !launches_app, !closed_handles_app, Lv, Lx, Cv, Cx.
    cbn [app launches closed_handles filter flat_map is_launch List.length].
    split; [right; right; right; reflexivity|]. split; [split; discriminate|].
    split; [lia|]. split.
    + split; [intros _; exists P, cmd; split; [reflexivity | exact Hnz] | reflexivity].
    + split.
      * intros a c _ H. injection H as <- <-. reflexivity.
      * intros H. exfalso. apply H. reflexivity.
Qed.

Lemma X5_witness_launch_and_failure :
  let tool := L "C:\Tools\DiskBench.exe" in
  let sia := selection_of [L "D:\"] in
  (fst (run (ShellExtension.Invoke (sample_env (Some tool) None true true)
               (Some sia) nullptr)) = S_OK /\
   closed_handles (snd (run (ShellExtension.Invoke (sample_env (Some tool) None true true)
                               (Some sia) nullptr))) = [7; 8]) /\
  (fst (run (ShellExtension.Invoke (sample_env (Some tool) None true false)
               (Some sia) nullptr)) = E_FAIL /\
   closed_handles (snd (run (ShellExtension.Invoke (sample_env (Some tool) None true false)
                               (Some sia) nullptr))) = []).
Proof.
  intros tool sia. split.
  - split; [reflexivity|].
    refine (proj1 (proj2 (proj2 (proj2 (proj2
      (X5_Invoke_outcomes_and_handles (sample_env (Some tool) None true true)
         (Some sia) nullptr))))) tool (command_line tool (L "D:\")) eq_refl eq_refl).
  - split; [reflexivity|].
    refine (proj2 (proj2 (proj2 (proj2 (proj2
      (X5_Invoke_outcomes_and_handles (sample_env (Some tool) None true false)
         (Some sia) nullptr))))) _).
    discriminate.
Defined.

(** X6.  Visibility and action agree: for a selection that is not null,
    GetState writes ECS_HIDDEN exactly when Invoke on the same selection
    returns S_FALSE, and ECS_ENABLED exactly when Invoke goes on to the
    resolver (and so returns E_FAIL or S_OK). *)
Theorem X6_GetState_agrees_with_Invoke env sia fOkToBeSlow st pbc :
  let state := snd (fst (run (ShellExtension.GetState env (Some sia) fOkToBeSlow (Some st)))) in
  let hr := fst (run (ShellExtension.Invoke env (Some sia) pbc)) in
  (state = Some ECS_HIDDEN <-> hr = S_FALSE) /\
  (state = Some ECS_ENABLED <-> hr = E_FAIL \/ hr = S_OK).
Proof.
  intros state hr. subst state hr.
  rewrite GetState_run, Invoke_run. cbv zeta. cbn [fst snd].
  set (v := run (ShellExtension.GetSelectedDrivePath env (Some sia) (Some []) MAX_PATH)).
  rewrite FAILED_SUCCEEDED.
  assert (Hlen : (wcslen (buf_str (snd (fst v))) =? 0)
                 = negb (0 <? wcslen (buf_str (snd (fst v))))).
  { unfold wcslen. destruct (buf_str (snd (fst v))); reflexivity. }
  rewrite Hlen, <- negb_andb. clear Hlen.
  destruct (SUCCEEDED (fst (fst v)) && (0 <? wcslen (buf_str (snd (fst v)))));
    cbn [negb fst].
  - destruct (FAILED _); [|destruct (negb _)]; cbn [fst];
      (split; [split; intros H; vm_compute in H; discriminate H
              | split; [intros _; auto | reflexivity]]).
  - split; [split; reflexivity|].
    split; [intros H; vm_compute in H; discriminate H
           | intros [H | H]; vm_compute in H; discriminate H].
Qed.

(** ** The resolver and the registry *)

Lemma read_value_failure_keeps_buffer env hKey buf cch :
  fst (read_value env hKey buf cch) <> S_OK -> snd (read_value env hKey buf cch) = buf.
Proof.
  unfold read_value.
  destruct (fst (RegQueryValueEx env hKey (L "ExePath") (MAX_PATH * sizeof_wchar_t))
            =? ERROR_SUCCESS); cbn [fst snd]; [intros H; exfalso; apply H|]; reflexivity.
Qed.

(** X7.  The resolver closes the one key it opened, once, whether or not the
    read of ExePath succeeds, and closes and reads no key when both opens
    fail; it reads no key it did not open.  When it does not answer S_OK the
    caller's buffer is as it was; in every case the string it leaves fits a
    buffer that it fitted before.  GetExePath with a null buffer or a size
    of zero answers E_INVALIDARG without touching the registry. *)
Theorem X7_resolver_closes_what_it_opens env buf cch :
  let m := RegOpenKeyEx env HKEY_LOCAL_MACHINE CONFIG_REG_PATH in
  let u := RegOpenKeyEx env HKEY_CURRENT_USER CONFIG_REG_PATH in
  let r := run (ShellExtension.ReadExePathFromRegistry env buf cch) in
  closed_keys (snd r)
  = (if fst m =? ERROR_SUCCESS then [snd m]
     else if fst u =? ERROR_SUCCESS then [snd u] else []) /\
  queried_keys (snd r) = closed_keys (snd r) /\
  (fst (fst r) <> S_OK -> snd (fst r) = buf) /\
  (wcslen buf < cch -> wcslen (snd (fst r)) < cch) /\
  run (ShellExtension.GetExePath env None cch) = ((E_INVALIDARG, None), []) /\
  run (ShellExtension.GetExePath env (Some buf) 0) = ((E_INVALIDARG, Some buf), []).
Proof.
  intros m u r.
  split; [|split; [|split; [|split; [|split; reflexivity]]]].
  4: apply ReadExePathFromRegistry_bound.
  all: subst r; unfold run; rewrite ReadExePathFromRegistry_cases; cbv zeta;
    fold m; fold u;
    destruct (fst m =? ERROR_SUCCESS);
    [|destruct (fst u =? ERROR_SUCCESS)]; cbn [fst snd app];
    try reflexivity; try apply read_value_failure_keeps_buffer.
Qed.

Lemma X7_witness_unreadable_entry :
  let env := sample_env None None true true in
  run (ShellExtension.ReadExePathFromRegistry env (L "old") MAX_PATH)
  = ((E_FAIL, L "old"),
     [EvRegOpenKeyEx HKEY_LOCAL_MACHINE CONFIG_REG_PATH;
      EvRegOpenKeyEx HKEY_CURRENT_USER CONFIG_REG_PATH]) /\
  snd (fst (run (ShellExtension.ReadExePathFromRegistry env (L "old") MAX_PATH)))
  = L "old".
Proof.
  intros env. split; [reflexivity|].
  refine (proj1 (proj2 (proj2
    (X7_resolver_closes_what_it_opens env (L "old") MAX_PATH))) _).
  discriminate.
Defined.

(** ** The validator and the host's objects *)

(** X8.  The validator releases the shell item it obtained exactly once on
    every path, and frees the display name exactly once when GetDisplayName
    succeeded with a name, whatever the shape of the name; it never releases
    or frees anything else.  When it answers E_FAIL or E_INVALIDARG it has
    obtained nothing and released nothing. *)
Theorem X8_validator_releases_what_it_obtains env psiItemArray pszPath cchPath :
  let r := run (ShellExtension.GetSelectedDrivePath env psiItemArray pszPath cchPath) in
  (item_releases (snd r) <= 1)%nat /\
  (name_frees (snd r) <= item_releases (snd r))%nat /\
  (forall sia buf psi,
      psiItemArray = Some sia -> pszPath = Some buf -> cchPath <> 0 ->
      FAILED (fst (GetCount sia)) = false -> snd (GetCount sia) <> 0 ->
      GetItemAt sia 0 = Some psi ->
      item_releases (snd r) = 1%nat /\
      name_frees (snd r)
      = (if SUCCEEDED (fst (GetDisplayName psi SIGDN_FILESYSPATH))
         then match snd (GetDisplayName psi SIGDN_FILESYSPATH) with
              | Some _ => 1%nat
              | None => 0%nat
              end
         else 0%nat)) /\
  (fst (fst r) = E_FAIL \/ fst (fst r) = E_INVALIDARG -> snd r = []).
Proof.
  intros r. subst r.
  split; [|split; [|split]].
  - unfold run, ShellExtension.GetSelectedDrivePath.
    repeat match goal with
           | |- context [match ?x with _ => _ end] => destruct x
           end; cbn; lia.
  - unfold run, ShellExtension.GetSelectedDrivePath.
    repeat match goal with
           | |- context [match ?x with _ => _ end] => destruct x
           end; cbn; lia.
  - intros sia buf psi -> -> Hcch Hcount Hnz Hitem.
    unfold run, ShellExtension.GetSelectedDrivePath.
    apply Z.eqb_neq in Hcch, Hnz. rewrite Hcch.
    destruct (GetCount sia) as [hrCount count]. cbn [fst snd] in Hcount, Hnz.
    rewrite Hcount, Hnz. cbn [orb]. rewrite Hitem.
    destruct (GetDisplayName psi SIGDN_FILESYSPATH) as [hr pszName]. cbn [fst snd].
    destruct (SUCCEEDED hr); [destruct pszName as [name|]|]; try (split; reflexivity).
    match goal with
    | |- context [if ?b then _ else _] => destruct b
    end; [destruct (StringCchCopy _ _ _)|]; split; reflexivity.
  - unfold run, ShellExtension.GetSelectedDrivePath.
    repeat match goal with
           | |- context [match ?x with _ => _ end] => destruct x
           end; cbn [fst snd bind ret emit];
      intros [H | H]; try reflexivity; vm_compute in H; discriminate H.
Qed.

Lemma X8_witness_folder_item :
  let env := sample_env None None true true in
  let sia := selection_of [L "D:\Projects"] in
  snd (run (ShellExtension.GetSelectedDrivePath env (Some sia) (Some []) MAX_PATH))
  = [EvCoTaskMemFree; EvShellItemRelease] /\
  item_releases
    (snd (run (ShellExtension.GetSelectedDrivePath env (Some sia) (Some []) MAX_PATH)))
  = 1%nat /\
  name_frees
    (snd (run (ShellExtension.GetSelectedDrivePath env (Some sia) (Some []) MAX_PATH)))
  = 1%nat.
Proof.
  intros env sia. split; [reflexivity|].
  exact (proj1 (proj2 (proj2
    (X8_validator_releases_what_it_obtains env (Some sia) (Some []) MAX_PATH)))
    sia [] {| GetDisplayName := fun _ => (S_OK, Some (L "D:\Projects")) |}
    eq_refl eq_refl ltac:(discriminate) eq_refl ltac:(discriminate) eq_refl).
Defined.

(** X9.  The validator answers S_OK for a drive root whatever the size of
    the caller's buffer, since it does not look at what StringCchCopy
    answers: a buffer of [cchPath] characters receives the first
    [cchPath - 1] characters of the token, so a buffer of fewer than four
    characters receives a cut token together with S_OK (an empty one for
    one character), and a size above STRSAFE_MAX_CCH, which StringCchCopy
    refuses, leaves the buffer empty, again together with S_OK. *)
Theorem X9_validator_success_with_cut_token env sia path buf cchPath tr :
  first_item_path sia path ->
  drive_root_shape path ->
  0 < cchPath ->
  fst (ShellExtension.GetSelectedDrivePath env (Some sia) (Some buf) cchPath tr)
  = (S_OK,
     Some (if STRSAFE_MAX_CCH <? cchPath then []
           else firstn (Z.to_nat (cchPath - 1)) (drive_token env path))).
Proof.
  intros Hitem Hshape Hcch.
  rewrite (GetSelectedDrivePath_first_item env sia path buf cchPath tr Hitem) by lia.
  apply drive_root_shapeb_spec in Hshape. rewrite Hshape. cbn [fst].
  unfold StringCchCopy.
  replace (cchPath =? 0) with false by (symmetry; apply Z.eqb_neq; lia).
  destruct (STRSAFE_MAX_CCH <? cchPath); cbn [snd]; [reflexivity|].
  destruct (Z.ltb_spec (wcslen (drive_token env path)) cchPath) as [Hfit | Hcut];
    cbn [snd]; [|reflexivity].
  rewrite firstn_all2; [reflexivity|].
  unfold wcslen in Hfit. lia.
Qed.

Lemma X9_witness_cut_and_refused_size :
  let sia := selection_of [L "c:\"] in
  let env := sample_env None None true true in
  first_item_path sia (L "c:\") /\ drive_root_shape (L "c:\") /\
  0 < 2 /\ 0 < 4294967295 /\
  fst (ShellExtension.GetSelectedDrivePath env (Some sia) (Some []) 2 [])
  = (S_OK, Some (L "C")) /\
  fst (ShellExtension.GetSelectedDrivePath env (Some sia) (Some (L "D:\")) 4294967295 [])
  = (S_OK, Some []).
Proof.
  intros sia env.
  assert (Hitem : first_item_path sia (L "c:\")) by apply first_item_path_selection_of.
  assert (Hshape : drive_root_shape (L "c:\")).
  { split; [reflexivity | right; split; [reflexivity | left; reflexivity]]. }
  assert (Hcch : 0 < 2) by reflexivity.
  assert (Hmax : 0 < 4294967295) by reflexivity.
  split; [exact Hitem | split; [exact Hshape | split; [exact Hcch | split; [exact Hmax|]]]].
  split.
  - exact (X9_validator_success_with_cut_token env sia (L "c:\") [] 2 [] Hitem Hshape Hcch).
  - exact (X9_validator_success_with_cut_token env sia (L "c:\") (L "D:\") 4294967295 []
             Hitem Hshape Hmax).
Defined.

(** X10.  Only the first item of a selection counts: two selections whose
    first items have the same filesystem path get the same answer from the
    validator, from GetState and from Invoke, with the same calls to the
    registry, the shell items and the process interface, however many items
    follow and whatever they are. *)
Theorem X10_only_the_first_item_counts env sia sia' path fOkToBeSlow st pbc :
  first_item_path sia path ->
  first_item_path sia' path ->
  run (ShellExtension.GetSelectedDrivePath env (Some sia) (Some []) MAX_PATH)
  = run (ShellExtension.GetSelectedDrivePath env (Some sia') (Some []) MAX_PATH) /\
  run (ShellExtension.GetState env (Some sia) fOkToBeSlow (Some st))
  = run (ShellExtension.GetState env (Some sia') fOkToBeSlow (Some st)) /\
  run (ShellExtension.Invoke env (Some sia) pbc)
  = run (ShellExtension.Invoke env (Some sia') pbc).
Proof.
  intros Hitem Hitem'.
  assert (Hv : run (ShellExtension.GetSelectedDrivePath env (Some sia) (Some []) MAX_PATH)
             = run (ShellExtension.GetSelectedDrivePath env (Some sia') (Some []) MAX_PATH)).
  { unfold run.
    rewrite (GetSelectedDrivePath_first_item env sia path [] MAX_PATH [] Hitem)
      by discriminate.
    rewrite (GetSelectedDrivePath_first_item env sia' path [] MAX_PATH [] Hitem')
      by discriminate.
    reflexivity. }
  split; [exact Hv|]. split.
  - rewrite !GetState_run. cbv zeta. rewrite Hv. reflexivity.
  - rewrite !Invoke_run. cbv zeta. rewrite Hv. reflexivity.
Qed.

Lemma X10_witness_drive_then_folder :
  let env := sample_env (Some (L "C:\Tools\DiskBench.exe")) None true true in
  first_item_path (selection_of [L "D:\"; L "C:\Windows"]) (L "D:\") /\
  first_item_path (selection_of [L "D:\"]) (L "D:\") /\
  run (ShellExtension.Invoke env (Some (selection_of [L "D:\"; L "C:\Windows"])) nullptr)
  = run (ShellExtension.Invoke env (Some (selection_of [L "D:\"])) nullptr).
Proof.
  intros env.
  assert (H1 : first_item_path (selection_of [L "D:\"; L "C:\Windows"]) (L "D:\"))
    by apply first_item_path_selection_of.
  assert (H2 : first_item_path (selection_of [L "D:\"]) (L "D:\"))
    by apply first_item_path_selection_of.
  split; [exact H1 | split; [exact H2|]].
  exact (proj2 (proj2 (X10_only_the_first_item_counts env _ _ (L "D:\") 0 0 nullptr H1 H2))).
Defined.

(** ** The older copy: visibility and invocation *)

Lemma Legacy_GetExePath_cases env tr :
  let m := RegOpenKeyEx env HKEY_LOCAL_MACHINE CONFIG_REG_PATH in
  let rv := read_value env (snd m) [] MAX_PATH in
  LegacyShellExtension.GetExePath env (Some []) MAX_PATH tr =
  if fst m =? ERROR_SUCCESS then
    ((fst rv, Some (snd rv)),
     tr ++ [EvRegOpenKeyEx HKEY_LOCAL_MACHINE CONFIG_REG_PATH;
            EvRegQueryValueEx (snd m) (L "ExePath"); EvRegCloseKey (snd m)])
  else
    ((E_FAIL, Some []), tr ++ [EvRegOpenKeyEx HKEY_LOCAL_MACHINE CONFIG_REG_PATH]).
Proof.
  intros m rv. subst m rv.
  unfold LegacyShellExtension.GetExePath, LegacyShellExtension.ReadExePathFromRegistry,
    read_value.
  change (MAX_PATH =? 0) with false. cbv iota.
  unfold bind, emit, ret.
  destruct (RegOpenKeyEx env HKEY_LOCAL_MACHINE CONFIG_REG_PATH) as [rm km].
  cbn [fst snd].
  destruct (rm =? ERROR_SUCCESS); cbn [negb]; [|reflexivity].
  destruct (RegQueryValueEx env km (L "ExePath") (MAX_PATH * sizeof_wchar_t)) as [rq v].
  cbn [fst snd].
  destruct (rq =? ERROR_SUCCESS); cbn [negb].
  - destruct (StringCchCopy [] MAX_PATH v) as [h out]. cbn [fst snd].
    rewrite <- !app_assoc. reflexivity.
  - rewrite <- !app_assoc. reflexivity.
Qed.

Lemma Legacy_GetExePath_no_launch env :
  launches (snd (run (LegacyShellExtension.GetExePath env (Some []) MAX_PATH))) = [].
Proof.
  unfold run. rewrite Legacy_GetExePath_cases. cbv zeta.
  destruct (fst (RegOpenKeyEx env HKEY_LOCAL_MACHINE CONFIG_REG_PATH) =? ERROR_SUCCESS);
    reflexivity.
Qed.

Lemma Legacy_GetExePath_bound env :
  wcslen (buf_str (snd (fst (run (LegacyShellExtension.GetExePath env (Some []) MAX_PATH)))))
  < MAX_PATH.
Proof.
  unfold run. rewrite Legacy_GetExePath_cases. cbv zeta.
  destruct (fst (RegOpenKeyEx env HKEY_LOCAL_MACHINE CONFIG_REG_PATH) =? ERROR_SUCCESS);
    cbn [fst snd buf_str]; [apply read_value_bound|]; reflexivity.
Qed.

Lemma Legacy_GetExePath_appends env tr :
  LegacyShellExtension.GetExePath env (Some []) MAX_PATH tr =
  (fst (run (LegacyShellExtension.GetExePath env (Some []) MAX_PATH)),
   tr ++ snd (run (LegacyShellExtension.GetExePath env (Some []) MAX_PATH))).
Proof.
  unfold run. rewrite !Legacy_GetExePath_cases. cbv zeta.
  destruct (fst (RegOpenKeyEx env HKEY_LOCAL_MACHINE CONFIG_REG_PATH) =? ERROR_SUCCESS);
    reflexivity.
Qed.

(** X11.  In the older copy the command is shown and can be invoked only for
    a first item whose path is two characters with a colon second.  For any
    other path, so for every three-character drive root, GetState writes
    ECS_HIDDEN and Invoke returns S_FALSE without a launch.  For such a
    two-character path GetState writes ECS_ENABLED and, when the
    machine-wide key gives the tool path [P], Invoke passes the path to the
    tool as it is, neither upper-cased nor followed by a backslash; when the
    key gives none it returns E_FAIL without a launch. *)
Theorem X11_older_copy_handles_bare_drives_only env sia path fOkToBeSlow st pbc :
  first_item_path sia path ->
  let g := fst (run (LegacyShellExtension.GetState env (Some sia) fOkToBeSlow (Some st))) in
  let i := run (LegacyShellExtension.Invoke env (Some sia) pbc) in
  let x := fst (run (LegacyShellExtension.GetExePath env (Some []) MAX_PATH)) in
  (~ (wcslen path = 2 /\ wch_at path 1 = WCH ":") ->
   g = (S_OK, Some ECS_HIDDEN) /\ fst i = S_FALSE /\ launches (snd i) = []) /\
  (wcslen path = 2 -> wch_at path 1 = WCH ":" ->
   g = (S_OK, Some ECS_ENABLED) /\
   (SUCCEEDED (fst x) = true ->
    launches (snd i)
    = [EvCreateProcess (buf_str (snd x)) (command_line (buf_str (snd x)) path)]) /\
   (SUCCEEDED (fst x) = false -> fst i = E_FAIL /\ launches (snd i) = [])).
Proof.
  intros Hitem g i x.
  pose proof (Legacy_GetSelectedDrivePath_first_item env sia path [] MAX_PATH []
                Hitem ltac:(discriminate)) as Hv.
  pose proof (Legacy_GetExePath_no_launch env) as Lx.
  pose proof (Legacy_GetExePath_bound env) as Bx.
  assert (Hg : g = (S_OK, Some (if legacy_shapeb path then ECS_ENABLED else ECS_HIDDEN))).
  { subst g. unfold run, LegacyShellExtension.GetState, bind. rewrite Hv.
    destruct (legacy_shapeb path) eqn:Hs; [|reflexivity].
    apply legacy_shapeb_spec in Hs. destruct Hs as [Hlen _].
    rewrite StringCchCopy_fits
      by (split; [rewrite Hlen; reflexivity | discriminate]).
    cbn [fst snd buf_str]. rewrite Hlen. reflexivity. }
  split.
  - intros Hno.
    assert (Hs : legacy_shapeb path = false).
    { destruct (legacy_shapeb path) eqn:E; [|reflexivity].
      exfalso. apply Hno. apply legacy_shapeb_spec. exact E. }
    rewrite Hs in Hv, Hg. split; [exact Hg|].
    subst i. unfold run, LegacyShellExtension.Invoke, bind. rewrite Hv.
    split; reflexivity.
  - intros Hlen Hcolon.
    assert (Hs : legacy_shapeb path = true)
      by (apply legacy_shapeb_spec; split; assumption).
    rewrite Hs in Hv, Hg. split; [exact Hg|].
    rewrite StringCchCopy_fits in Hv
      by (split; [rewrite Hlen; reflexivity | discriminate]).
    cbn [snd] in Hv.
    assert (Hi : i =
      if FAILED (fst x) then
        (E_FAIL, [EvCoTaskMemFree; EvShellItemRelease]
                 ++ snd (run (LegacyShellExtension.GetExePath env (Some []) MAX_PATH)))
      else if negb (fst (CreateProcess env (buf_str (snd x))
                           (command_line (buf_str (snd x)) path)) =? 0)
      then (S_OK,
            ((([EvCoTaskMemFree; EvShellItemRelease]
               ++ snd (run (LegacyShellExtension.GetExePath env (Some []) MAX_PATH)))
              ++ [EvCreateProcess (buf_str (snd x)) (command_line (buf_str (snd x)) path)])
             ++ [EvCloseHandle (hProcess (snd (CreateProcess env (buf_str (snd x))
                                  (command_line (buf_str (snd x)) path))))])
            ++ [EvCloseHandle (hThread (snd (CreateProcess env (buf_str (snd x))
                                 (command_line (buf_str (snd x)) path))))])
      else (E_FAIL,
            ([EvCoTaskMemFree; EvShellItemRelease]
             ++ snd (run (LegacyShellExtension.GetExePath env (Some []) MAX_PATH)))
            ++ [EvCreateProcess (buf_str (snd x)) (command_line (buf_str (snd x)) path)])).
    { subst i. unfold run, LegacyShellExtension.Invoke. unfold bind at 1. rewrite Hv.
      cbn [fst snd buf_str app].
      replace (FAILED S_OK || (wcslen path =? 0)) with false
        by (rewrite Hlen; reflexivity).
      unfold bind at 1. rewrite Legacy_GetExePath_appends.
      fold x. fold x in Bx. clearbody x.
      destruct x as [hrExe exePath]. cbn [fst snd] in *.
      destruct (FAILED hrExe); [reflexivity|].
      unfold StringCchPrintf. rewrite wformat_cmdLine.
      rewrite StringCchCopy_fits.
      2:{ rewrite wcslen_command_line, Hlen.
          unfold MAX_PATH, STRSAFE_MAX_CCH in *. lia. }
      unfold bind, emit, ret.
      destruct (CreateProcess env (buf_str exePath) (command_line (buf_str exePath) path))
        as [ok pi]. cbn [fst snd].
      destruct (negb (ok =? 0)); reflexivity. }
    rewrite Hi. rewrite FAILED_SUCCEEDED. split.
    + intros Hok. rewrite Hok. cbn [negb].
      destruct (negb _); cbn [snd]; rewrite !launches_app, Lx; reflexivity.
    + intros Hfail. rewrite Hfail. cbn [negb fst snd].
      split; [reflexivity|]. rewrite launches_app, Lx. reflexivity.
Qed.

Lemma X11_witness_bare_and_rooted_drive :
  let env := sample_env (Some (L "C:\Tools\DiskBench.exe")) None true true in
  (first_item_path (selection_of [L "c:"]) (L "c:") /\
   launches (snd (run (LegacyShellExtension.Invoke env (Some (selection_of [L "c:"]))
                         nullptr)))
   = [EvCreateProcess (L "C:\Tools\DiskBench.exe")
        (command_line (L "C:\Tools\DiskBench.exe") (L "c:"))]) /\
  (first_item_path (selection_of [L "C:\"]) (L "C:\") /\
   fst (run (LegacyShellExtension.GetState env (Some (selection_of [L "C:\"])) 0
               (Some ECS_ENABLED)))
   = (S_OK, Some ECS_HIDDEN)).
Proof.
  intros env.
  assert (H1 : first_item_path (selection_of [L "c:"]) (L "c:"))
    by apply first_item_path_selection_of.
  assert (H2 : first_item_path (selection_of [L "C:\"]) (L "C:\"))
    by apply first_item_path_selection_of.
  split; (split; [assumption|]).
  - exact (proj1 (proj2 (proj2
      (X11_older_copy_handles_bare_drives_only env _ (L "c:") 0 0 nullptr H1)
      eq_refl eq_refl)) eq_refl).
  - refine (proj1 (proj1
      (X11_older_copy_handles_bare_drives_only env _ (L "C:\") 0 ECS_ENABLED nullptr H2) _)).
    intros [H _]. discriminate H.
Defined.

(** ** The logger *)

Lemma array_store_Some (a : list Z) (i : nat) (v : Z) :
  (i < List.length a)%nat ->
  Logger.array_store a (Z.of_nat i) v = Some (firstn i a ++ v :: skipn (S i) a).
Proof.
  intros Hi. unfold Logger.array_store.
  replace (0 <=? Z.of_nat i) with true by (symmetry; apply Z.leb_le; lia).
  replace (Z.of_nat i <? Z.of_nat (List.length a)) with true
    by (symmetry; apply Z.ltb_lt; lia).
  rewrite Nat2Z.id. reflexivity.
Qed.

Lemma length_store (a : list Z) (i : nat) (v : Z) :
  (i < List.length a)%nat ->
  List.length (firstn i a ++ v :: skipn (S i) a) = List.length a.
Proof.
  intros Hi. rewrite length_app, length_firstn. cbn [List.length].
  rewrite length_skipn. lia.
Qed.

Lemma firstn_store_below (a : list Z) (i : nat) (v : Z) :
  (i <= List.length a)%nat ->
  firstn i (firstn i a ++ v :: skipn (S i) a) = firstn i a.
Proof.
  intros Hi. rewrite firstn_app, length_firstn.
  replace (i - Nat.min i (List.length a))%nat with 0%nat by lia.
  rewrite firstn_O, app_nil_r, firstn_firstn.
  replace (Nat.min i i) with i by lia. reflexivity.
Qed.

Lemma firstn_store_at (a : list Z) (i : nat) (v : Z) :
  (i <= List.length a)%nat ->
  firstn (S i) (firstn i a ++ v :: skipn (S i) a) = firstn i a ++ [v].
Proof.
  intros Hi. rewrite firstn_app, length_firstn.
  replace (S i - Nat.min i (List.length a))%nat with 1%nat by lia.
  replace (firstn 1 (v :: skipn (S i) a)) with [v] by reflexivity.
  rewrite firstn_firstn.
  replace (Nat.min (S i) i) with i by lia. reflexivity.
Qed.

(** The three stores that end a record, on an array with room for them. *)
Lemma record_stores (arr : list Z) (k : nat) :
  (S (S k) < List.length arr)%nat ->
  exists a1 a2 a3,
    Logger.array_store arr (Z.of_nat (S k) - 1) 13 = Some a1 /\
    Logger.array_store a1 (Z.of_nat (S k)) 10 = Some a2 /\
    Logger.array_store a2 (Z.of_nat (S k) + 1) 0 = Some a3 /\
    firstn (Z.to_nat (Z.of_nat (S k) + 1)) a3 = firstn k arr ++ [13; 10].
Proof.
  intros Hk.
  set (a1 := firstn k arr ++ 13 :: skipn (S k) arr).
  set (a2 := firstn (S k) a1 ++ 10 :: skipn (S (S k)) a1).
  set (a3 := firstn (S (S k)) a2 ++ 0 :: skipn (S (S (S k))) a2).
  assert (L1 : List.length a1 = List.length arr) by (apply length_store; lia).
  assert (L2 : List.length a2 = List.length arr)
    by (unfold a2; rewrite length_store; lia).
  exists a1, a2, a3.
  replace (Z.of_nat (S k) - 1) with (Z.of_nat k) by lia.
  replace (Z.of_nat (S k) + 1) with (Z.of_nat (S (S k))) by lia.
  rewrite Nat2Z.id.
  split; [apply array_store_Some; lia|].
  split; [apply array_store_Some; lia|].
  split; [apply array_store_Some; lia|].
  unfold a3. rewrite firstn_store_below by lia.
  unfold a2. rewrite firstn_store_at by lia.
  unfold a1. rewrite firstn_store_at by lia.
  rewrite <- app_assoc. reflexivity.
Qed.

Lemma firstn_utf8_array (bytes : list Z) (k : nat) :
  (k <= List.length bytes)%nat ->
  firstn k (Logger.utf8_array bytes) = firstn k bytes.
Proof.
  intros Hk. unfold Logger.utf8_array. rewrite firstn_app.
  replace (k - List.length bytes)%nat with 0%nat by lia.
  rewrite firstn_O. apply app_nil_r.
Qed.

Lemma length_utf8_array (bytes : list Z) :
  (List.length bytes <= 2048)%nat ->
  List.length (Logger.utf8_array bytes) = 2048%nat.
Proof.
  intros Hb. unfold Logger.utf8_array. rewrite length_app, repeat_length. lia.
Qed.

(** X12.  Given what WideCharToMultiByte promises (a count of at most the
    size it was passed, equal to the number of bytes it stored),
    AppendLineUtf8 never stores outside its 2048-byte array: the three bytes
    it reserves when it passes the size are the room for the line end.  It
    writes at most one record, and a record is the converted line without
    its terminator followed by CR LF, one byte longer than the count
    returned and 2046 bytes at most. *)
Theorem X12_log_record_is_framed_within_bounds os line :
  conversion_contract os ->
  let c := Logger.WideCharToMultiByte os line (2048 - 3) in
  exists tr,
    Logger.AppendLineUtf8 os (Some line) = Some tr /\
    (List.length (log_written tr) <= 1)%nat /\
    (forall h record,
        In (h, record) (log_written tr) ->
        0 < fst c /\
        record = firstn (Z.to_nat (fst c - 1)) (snd c) ++ [13; 10] /\
        Z.of_nat (List.length record) = fst c + 1 /\
        fst c + 1 <= 2046).
Proof.
  intros Hcontract c.
  destruct (Hcontract line (2048 - 3) ltac:(lia)) as [Hmax Hlen]. fold c in Hmax, Hlen.
  unfold Logger.AppendLineUtf8.
  destruct (Logger.GetEnvironmentVariableW os (L "LOCALAPPDATA") MAX_PATH) as [len envPath].
  destruct (Logger.GetTempPathW os MAX_PATH) as [tmpLen tmpPath].
  match goal with
  | |- context [match ?p with Some _ => _ | None => _ end] =>
      destruct p as [path|]
  end.
  2:{ exists []. split; [reflexivity|]. split; [cbn; lia | intros h r []]. }
  destruct (Logger.StringCchPrintfW [] MAX_PATH _ [Logger.ArgStr path]) as [hr1 filePath].
  destruct (FAILED hr1).
  { exists []. split; [reflexivity|]. split; [cbn; lia | intros h r []]. }
  destruct (Logger.StringCchPrintfW [] MAX_PATH _ [Logger.ArgStr path]) as [hr2 dirPath].
  destruct (FAILED hr2).
  { exists []. split; [reflexivity|]. split; [cbn; lia | intros h r []]. }
  destruct (Logger.CreateFileW os filePath =? Logger.INVALID_HANDLE_VALUE).
  { eexists. split; [reflexivity|]. split; [cbn; lia | intros h r []]. }
  fold c. destruct c as [utf8Len bytes] eqn:Ec. cbn [fst snd] in *.
  destruct (Z.leb_spec utf8Len 0) as [Hle | Hpos].
  { eexists. split; [reflexivity|]. split; [cbn; lia | intros h r []]. }
  specialize (Hlen Hpos).
  assert (Hk : exists k, List.length bytes = S k).
  { exists (Z.to_nat (utf8Len - 1)). lia. }
  destruct Hk as [k Hk]. rewrite Hk in Hlen. subst utf8Len.
  destruct (record_stores (Logger.utf8_array bytes) k) as (a1 & a2 & a3 & S1 & S2 & S3 & Hrec).
  { rewrite length_utf8_array by lia. lia. }
  rewrite S1, S2, S3, Hrec. rewrite firstn_utf8_array by lia.
  replace (Z.to_nat (Z.of_nat (S k) - 1)) with k by lia.
  eexists. split; [reflexivity|].
  split; [cbn; lia|].
  intros h record [Hin | []]. injection Hin as <- <-.
  split; [lia|]. split; [reflexivity|].
  rewrite length_app, length_firstn. cbn [List.length]. lia.
Qed.

Lemma sample_conversion_contract localappdata file_ok :
  conversion_contract (sample_log_env localappdata file_ok).
Proof.
  intros line cb Hcb. cbn [sample_log_env Logger.WideCharToMultiByte].
  destruct (Z.leb_spec (wcslen line + 1) cb) as [Hfit | Hno]; cbn [fst snd].
  - split; [exact Hfit|]. intros _. unfold wcslen. rewrite length_app. cbn. lia.
  - unfold wcslen in *. split; lia.
Qed.

Lemma X12_witness_ascii_line :
  conversion_contract (sample_log_env None true) /\
  exists tr,
    Logger.AppendLineUtf8 (sample_log_env None true) (Some (L "hi")) = Some tr /\
    (List.length (log_written tr) <= 1)%nat /\
    (forall h record,
        In (h, record) (log_written tr) ->
        0 < 3 /\ record = [104; 105; 13; 10] /\
        Z.of_nat (List.length record) = 3 + 1 /\ 3 + 1 <= 2046).
Proof.
  split; [apply sample_conversion_contract|].
  exact (X12_log_record_is_framed_within_bounds (sample_log_env None true) (L "hi")
           (sample_conversion_contract None true)).
Defined.

(** X13.  Whenever AppendLineUtf8 runs to its end it has created at most one
    file, and the handle CreateFileW gave for it, if valid, is closed exactly
    once, also when the conversion fails and nothing is written; no other
    handle is closed.  A record is written only to that handle and the close
    follows the write at once.  For a null line, nothing at all is done. *)
Theorem X13_log_handle_closed_once os line tr :
  Logger.AppendLineUtf8 os line = Some tr ->
  (line = None -> tr = []) /\
  (List.length (log_files tr) <= 1)%nat /\
  (log_files tr = [] -> tr = []) /\
  (forall f,
      In f (log_files tr) ->
      log_closed tr
      = (if Logger.CreateFileW os f =? Logger.INVALID_HANDLE_VALUE then []
         else [Logger.CreateFileW os f]) /\
      (forall h record,
          In (h, record) (log_written tr) ->
          h = Logger.CreateFileW os f /\
          (h =? Logger.INVALID_HANDLE_VALUE) = false /\
          exists before,
            tr = before ++ [Logger.LogWriteFile h record; Logger.LogCloseHandle h])).
Proof.
  unfold Logger.AppendLineUtf8.
  destruct line as [line|].
  2:{ intros H. injection H as <-. cbn.
      split; [reflexivity|]. split; [lia|]. split; [reflexivity | intros f []]. }
  destruct (Logger.GetEnvironmentVariableW os (L "LOCALAPPDATA") MAX_PATH) as [len envPath].
  destruct (Logger.GetTempPathW os MAX_PATH) as [tmpLen tmpPath].
  match goal with
  | |- context [match ?p with Some _ => _ | None => _ end] =>
      destruct p as [path|]
  end.
  2:{ intros H. injection H as <-. cbn.
      split; [discriminate|]. split; [lia|]. split; [reflexivity | intros f []]. }
  destruct (Logger.StringCchPrintfW [] MAX_PATH _ [Logger.ArgStr path]) as [hr1 filePath].
  destruct (FAILED hr1).
  { intros H. injection H as <-. cbn.
    split; [discriminate|]. split; [lia|]. split; [reflexivity | intros f []]. }
  destruct (Logger.StringCchPrintfW [] MAX_PATH _ [Logger.ArgStr path]) as [hr2 dirPath].
  destruct (FAILED hr2).
  { intros H. injection H as <-. cbn.
    split; [discriminate|]. split; [lia|]. split; [reflexivity | intros f []]. }
  destruct (Logger.CreateFileW os filePath =? Logger.INVALID_HANDLE_VALUE) eqn:Eh.
  { intros H. injection H as <-. cbn.
    split; [discriminate|]. split; [lia|]. split; [discriminate|].
    intros f [<- | []]. rewrite Eh. split; [reflexivity | intros h r []]. }
  destruct (Logger.WideCharToMultiByte os line (2048 - 3)) as [utf8Len bytes].
  destruct (utf8Len <=? 0).
  { intros H. injection H as <-. cbn.
    split; [discriminate|]. split; [lia|]. split; [discriminate|].
    intros f [<- | []]. rewrite Eh. split; [reflexivity | intros h r []]. }
  destruct (Logger.array_store _ _ 13) as [a1|]; [|discriminate].
  destruct (Logger.array_store a1 _ 10) as [a2|]; [|discriminate].
  destruct (Logger.array_store a2 _ 0) as [a3|]; [|discriminate].
  intros H. injection H as <-.
  cbn [log_files log_closed log_written flat_map app List.length].
  split; [discriminate|]. split; [lia|]. split; [discriminate|].
  intros f [<- | []]. rewrite Eh. split; [reflexivity|].
  intros h r [Hin | []]. injection Hin as <- <-.
  split; [reflexivity|]. split; [exact Eh|].
  exists [Logger.LogCreateDirectory dirPath; Logger.LogCreateFile filePath].
  reflexivity.
Qed.

Lemma X13_witness_conversion_fails :
  let os :=
    {| Logger.GetEnvironmentVariableW := fun _ _ => (0, []);
       Logger.GetTempPathW := fun _ => (8, L "C:\Temp\");
       Logger.CreateFileW := fun _ => 9;
       Logger.WideCharToMultiByte := fun _ _ => (0, []);
       Logger.GetLocalTime := Logger.GetLocalTime (sample_log_env None true) |} in
  Logger.AppendLineUtf8 os (Some (L "hi"))
  = Some [Logger.LogCreateDirectory (L "C:\Temp\\DiskBench");
          Logger.LogCreateFile (L "C:\Temp\\DiskBench\ShellExtension.log");
          Logger.LogCloseHandle 9] /\
  log_closed [Logger.LogCreateDirectory (L "C:\Temp\\DiskBench");
              Logger.LogCreateFile (L "C:\Temp\\DiskBench\ShellExtension.log");
              Logger.LogCloseHandle 9] = [9].
Proof.
  intros os.
  assert (Hrun : Logger.AppendLineUtf8 os (Some (L "hi"))
                 = Some [Logger.LogCreateDirectory (L "C:\Temp\\DiskBench");
                         Logger.LogCreateFile (L "C:\Temp\\DiskBench\ShellExtension.log");
                         Logger.LogCloseHandle 9]) by reflexivity.
  split; [exact Hrun|].
  exact (proj1 (proj2 (proj2 (proj2 (X13_log_handle_closed_once os _ _ Hrun)))
           (L "C:\Temp\\DiskBench\ShellExtension.log") (or_introl eq_refl))).
Defined.

Lemma StringCchCopy_MAX_PATH (s : list wchar_t) :
  StringCchCopy [] MAX_PATH s =
  if wcslen s <? MAX_PATH then (S_OK, s)
  else (STRSAFE_E_INSUFFICIENT_BUFFER, firstn (Z.to_nat (MAX_PATH - 1)) s).
Proof. reflexivity. Qed.

(** X14.  The log file is always [<base>\DiskBench\ShellExtension.log] and
    its directory [<base>\DiskBench], created first, where [<base>] is the
    value of LOCALAPPDATA when that fits a MAX_PATH buffer and else the
    temporary path.  When neither is available, or when [<base>] is so long
    that the file path would not fit MAX_PATH characters (more than 230
    characters), the line is dropped without any call to the file system.
    The directory path never fails to fit when the file path fits. *)
Theorem X14_log_file_location os line tr :
  Logger.AppendLineUtf8 os (Some line) = Some tr ->
  match log_base os with
  | None => tr = []
  | Some base =>
      if wcslen base + 29 <? MAX_PATH
      then exists rest,
          tr = Logger.LogCreateDirectory (base ++ L "\DiskBench")
               :: Logger.LogCreateFile (base ++ L "\DiskBench\ShellExtension.log")
               :: rest /\
          log_directories rest = [] /\ log_files rest = []
      else tr = []
  end.
Proof.
  unfold Logger.AppendLineUtf8, log_base.
  destruct (Logger.GetEnvironmentVariableW os (L "LOCALAPPDATA") MAX_PATH) as [len envPath].
  destruct (Logger.GetTempPathW os MAX_PATH) as [tmpLen tmpPath].
  cbn [fst snd].
  assert (Hgen : forall base tr',
      (let '(hr, filePath) :=
         Logger.StringCchPrintfW [] MAX_PATH (L "%s\DiskBench\ShellExtension.log")
           [Logger.ArgStr base] in
       if FAILED hr then Some [] else
       let '(hr0, dirPath) :=
         Logger.StringCchPrintfW [] MAX_PATH (L "%s\DiskBench") [Logger.ArgStr base] in
       if FAILED hr0 then Some [] else
       let hFile := Logger.CreateFileW os filePath in
       if hFile =? Logger.INVALID_HANDLE_VALUE
       then Some [Logger.LogCreateDirectory dirPath; Logger.LogCreateFile filePath] else
       let '(utf8Len, bytes) := Logger.WideCharToMultiByte os line (2048 - 3) in
       if utf8Len <=? 0
       then Some [Logger.LogCreateDirectory dirPath; Logger.LogCreateFile filePath;
                  Logger.LogCloseHandle hFile] else
       match Logger.array_store (Logger.utf8_array bytes) (utf8Len - 1) 13 with
       | None => None
       | Some a1 =>
           match Logger.array_store a1 utf8Len 10 with
           | None => None
           | Some a2 =>
               match Logger.array_store a2 (utf8Len + 1) 0 with
               | None => None
               | Some a3 =>
                   Some [Logger.LogCreateDirectory dirPath; Logger.LogCreateFile filePath;
                         Logger.LogWriteFile hFile (firstn (Z.to_nat (utf8Len + 1)) a3);
                         Logger.LogCloseHandle hFile]
               end
           end
       end) = Some tr' ->
      if wcslen base + 29 <? MAX_PATH
      then exists rest,
          tr' = Logger.LogCreateDirectory (base ++ L "\DiskBench")
                :: Logger.LogCreateFile (base ++ L "\DiskBench\ShellExtension.log")
                :: rest /\
          log_directories rest = [] /\ log_files rest = []
      else tr' = []).
  { intros base tr'. unfold Logger.StringCchPrintfW.
    change (Logger.wprintf (L "%s\DiskBench\ShellExtension.log") [Logger.ArgStr base])
      with (base ++ L "\DiskBench\ShellExtension.log").
    change (Logger.wprintf (L "%s\DiskBench") [Logger.ArgStr base])
      with (base ++ L "\DiskBench").
    rewrite !StringCchCopy_MAX_PATH, !wcslen_app.
    change (wcslen (L "\DiskBench\ShellExtension.log")) with 29.
    change (wcslen (L "\DiskBench")) with 10.
    destruct (Z.ltb_spec (wcslen base + 29) MAX_PATH) as [Hfit | Hlong];
      cbv iota; [|intros H; injection H as <-; reflexivity].
    replace (wcslen base + 10 <? MAX_PATH) with true
      by (symmetry; apply Z.ltb_lt; lia).
    cbv iota. change (FAILED S_OK) with false. cbv iota.
    destruct (_ =? Logger.INVALID_HANDLE_VALUE).
    { intros H; injection H as <-. eexists. split; [reflexivity | split; reflexivity]. }
    destruct (Logger.WideCharToMultiByte os line (2048 - 3)) as [utf8Len bytes].
    destruct (utf8Len <=? 0).
    { intros H; injection H as <-. eexists. split; [reflexivity | split; reflexivity]. }
    destruct (Logger.array_store _ _ 13) as [a1|]; [|discriminate].
    destruct (Logger.array_store a1 _ 10) as [a2|]; [|discriminate].
    destruct (Logger.array_store a2 _ 0) as [a3|]; [|discriminate].
    intros H; injection H as <-. eexists. split; [reflexivity | split; reflexivity]. }
  destruct ((len =? 0) || (MAX_PATH <=? len)); cbn [negb].
  - destruct ((tmpLen =? 0) || (MAX_PATH <=? tmpLen)); cbn [negb].
    + intros H. injection H as <-. reflexivity.
    + intros H. exact (Hgen tmpPath tr H).
  - intros H. exact (Hgen envPath tr H).
Qed.

Lemma X14_witness_temporary_path :
  let os := sample_log_env None false in
  Logger.AppendLineUtf8 os (Some (L "hi"))
  = Some [Logger.LogCreateDirectory (L "C:\Temp\\DiskBench");
          Logger.LogCreateFile (L "C:\Temp\\DiskBench\ShellExtension.log")] /\
  log_base os = Some (L "C:\Temp\") /\
  exists rest,
    [Logger.LogCreateDirectory (L "C:\Temp\\DiskBench");
     Logger.LogCreateFile (L "C:\Temp\\DiskBench\ShellExtension.log")]
    = Logger.LogCreateDirectory (L "C:\Temp\" ++ L "\DiskBench")
      :: Logger.LogCreateFile (L "C:\Temp\" ++ L "\DiskBench\ShellExtension.log")
      :: rest /\
    log_directories rest = [] /\ log_files rest = [].
Proof.
  intros os.
  assert (Hrun : Logger.AppendLineUtf8 os (Some (L "hi"))
                 = Some [Logger.LogCreateDirectory (L "C:\Temp\\DiskBench");
                         Logger.LogCreateFile (L "C:\Temp\\DiskBench\ShellExtension.log")])
    by reflexivity.
  split; [exact Hrun | split; [reflexivity|]].
  exact (X14_log_file_location os (L "hi") _ Hrun).
Defined.

Lemma udigits_length (fuel : nat) : forall (n : Z) (k : nat),
  (1 <= k <= fuel)%nat -> 0 <= n < 10 ^ Z.of_nat k ->
  (1 <= List.length (Logger.udigits fuel n) <= k)%nat.
Proof.
  induction fuel as [|fuel IH]; intros n k Hk Hn; [lia|].
  cbn [Logger.udigits].
  destruct (Z.ltb_spec n 10) as [Hsmall | Hbig]; [cbn; lia|].
  rewrite length_app. cbn [List.length].
  destruct k as [|k]; [lia|].
  destruct k as [|k].
  { change (10 ^ Z.of_nat 1) with 10 in Hn. lia. }
  assert (Hdiv : 0 <= n / 10 < 10 ^ Z.of_nat (S k)).
  { split; [apply Z.div_pos; lia|].
    apply Z.div_lt_upper_bound; [lia|].
    replace (Z.of_nat (S (S k))) with (Z.succ (Z.of_nat (S k))) in Hn by lia.
    rewrite Z.pow_succ_r in Hn by lia. lia. }
  specialize (IH (n / 10) (S k) ltac:(lia) Hdiv). lia.
Qed.

Lemma length_pad0 (width : nat) (s : list wchar_t) :
  List.length (Logger.pad0 width s) = Nat.max width (List.length s).
Proof. unfold Logger.pad0. rewrite length_app, repeat_length. lia. Qed.

Lemma length_padded_number (width k : nat) (n : Z) :
  (1 <= k <= 10)%nat -> (width <= k)%nat -> 0 <= n < 10 ^ Z.of_nat k ->
  (width <= List.length (Logger.pad0 width (Logger.utoa n)) <= k)%nat.
Proof.
  intros Hk Hw Hn. rewrite length_pad0.
  pose proof (udigits_length 10 n k Hk Hn) as Hd. unfold Logger.utoa. lia.
Qed.

Lemma wprintf_line_format (st : Logger.SYSTEMTIME) (buffer : list wchar_t) :
  Logger.wprintf Logger.line_format
    [Logger.ArgUInt (Logger.wYear st); Logger.ArgUInt (Logger.wMonth st);
     Logger.ArgUInt (Logger.wDay st); Logger.ArgUInt (Logger.wHour st);
     Logger.ArgUInt (Logger.wMinute st); Logger.ArgUInt (Logger.wSecond st);
     Logger.ArgUInt (Logger.wMilliseconds st); Logger.ArgStr buffer]
  = log_stamp st ++ log_tag ++ buffer.
Proof.
  transitivity (log_stamp st ++ log_tag ++ buffer ++ []).
  - unfold log_stamp. rewrite <- !app_assoc. reflexivity.
  - rewrite app_nil_r. reflexivity.
Qed.

Lemma wcslen_log_stamp (st : Logger.SYSTEMTIME) :
  wcslen (log_stamp st)
  = Z.of_nat (List.length (Logger.pad0 4 (Logger.utoa (Logger.wYear st)))
              + List.length (Logger.pad0 2 (Logger.utoa (Logger.wMonth st)))
              + List.length (Logger.pad0 2 (Logger.utoa (Logger.wDay st)))
              + List.length (Logger.pad0 2 (Logger.utoa (Logger.wHour st)))
              + List.length (Logger.pad0 2 (Logger.utoa (Logger.wMinute st)))
              + List.length (Logger.pad0 2 (Logger.utoa (Logger.wSecond st)))
              + List.length (Logger.pad0 3 (Logger.utoa (Logger.wMilliseconds st))))
    + 6.
Proof.
  unfold log_stamp, wcslen. rewrite !length_app.
  change (List.length (L "-")) with 1%nat. change (List.length (L " ")) with 1%nat.
  change (List.length (L ":")) with 1%nat. change (List.length (L ".")) with 1%nat.
  lia.
Qed.

(** X15.  LogMessage never drops a message for want of room: whatever the
    time (its fields are WORDs) and however long the expansion of the
    format, the line has 1096 characters at most, within the 1200 of its
    buffer, so AppendLineUtf8 is always called.  The line is the time stamp
    (23 to 41 characters), the tag, and the first 1023 characters of the
    expansion; for a time within the calendar (year below 10000) the stamp
    has exactly 23 characters, so the message starts at a fixed column.  For
    a null format nothing is done. *)
Theorem X15_LogMessage_line_always_fits os format expansion :
  SYSTEMTIME_wf (Logger.GetLocalTime os) ->
  let st := Logger.GetLocalTime os in
  let line := log_stamp st ++ log_tag ++ firstn 1023 expansion in
  Logger.LogMessage os (Some format) expansion = Logger.AppendLineUtf8 os (Some line) /\
  23 <= wcslen (log_stamp st) <= 41 /\
  wcslen line <= 1096 /\
  (Logger.wYear st < 10000 -> Logger.wMonth st < 100 -> Logger.wDay st < 100 ->
   Logger.wHour st < 100 -> Logger.wMinute st < 100 -> Logger.wSecond st < 100 ->
   Logger.wMilliseconds st < 1000 ->
   wcslen (log_stamp st) = 23) /\
  Logger.LogMessage os None expansion = Some [].
Proof.
  intros (Hy & Hmo & Hd & Hh & Hmi & Hs & Hms) st line.
  fold st in Hy, Hmo, Hd, Hh, Hmi, Hs, Hms. unfold is_WORD in *.
  assert (P5 : forall w n, (w <= 5)%nat -> 0 <= n < 65536 ->
                 (w <= List.length (Logger.pad0 w (Logger.utoa n)) <= 5)%nat).
  { intros w n Hw Hn. apply length_padded_number; [lia | exact Hw|].
    change (10 ^ Z.of_nat 5) with 100000. lia. }
  assert (Hstamp : 23 <= wcslen (log_stamp st) <= 41).
  { rewrite wcslen_log_stamp.
    pose proof (P5 4%nat _ ltac:(lia) Hy). pose proof (P5 2%nat _ ltac:(lia) Hmo).
    pose proof (P5 2%nat _ ltac:(lia) Hd). pose proof (P5 2%nat _ ltac:(lia) Hh).
    pose proof (P5 2%nat _ ltac:(lia) Hmi). pose proof (P5 2%nat _ ltac:(lia) Hs).
    pose proof (P5 3%nat _ ltac:(lia) Hms). lia. }
  assert (Hline : wcslen line <= 1096).
  { unfold line. rewrite !wcslen_app.
    change (wcslen log_tag) with 32.
    assert (wcslen (firstn 1023 expansion) <= 1023)
      by (unfold wcslen; rewrite length_firstn; lia).
    lia. }
  split; [|split; [exact Hstamp | split; [exact Hline | split; [|reflexivity]]]].
  - unfold Logger.LogMessage. fold st. unfold Logger.StringCchPrintfW.
    rewrite wprintf_line_format. fold line.
    rewrite StringCchCopy_fits
      by (split; [lia | unfold STRSAFE_MAX_CCH; lia]).
    reflexivity.
  - intros Cy Cmo Cd Ch Cmi Cs Cms. rewrite wcslen_log_stamp.
    assert (E : forall w n, (1 <= w <= 10)%nat -> 0 <= n < 10 ^ Z.of_nat w ->
                  List.length (Logger.pad0 w (Logger.utoa n)) = w).
    { intros w n Hw Hn.
      pose proof (length_padded_number w w n Hw ltac:(lia) Hn). lia. }
    rewrite (E 4%nat) by (change (10 ^ Z.of_nat 4) with 10000; lia).
    rewrite !(E 2%nat) by (change (10 ^ Z.of_nat 2) with 100; lia).
    rewrite (E 3%nat) by (change (10 ^ Z.of_nat 3) with 1000; lia).
    reflexivity.
Qed.

Lemma X15_witness_sample_time :
  let os := sample_log_env None true in
  SYSTEMTIME_wf (Logger.GetLocalTime os) /\
  Logger.LogMessage os (Some (L "GetIcon: %s")) (L "GetIcon: C:\Tools\DiskBench.exe,0")
  = Logger.AppendLineUtf8 os
      (Some (L "2025-03-04 09:05:07.042 [DiskBench.ShellExtension.Cpp] GetIcon: C:\Tools\DiskBench.exe,0")).
Proof.
  intros os.
  assert (Hwf : SYSTEMTIME_wf (Logger.GetLocalTime os)).
  { unfold SYSTEMTIME_wf, is_WORD. cbn. lia. }
  split; [exact Hwf|].
  exact (proj1 (X15_LogMessage_line_always_fits os (L "GetIcon: %s")
                  (L "GetIcon: C:\Tools\DiskBench.exe,0") Hwf)).
Defined.

(** ** The token *)

(** What the validator can answer into an empty MAX_PATH buffer. *)
Lemma GetSelectedDrivePath_outcomes env psiItemArray :
  let v := fst (run (ShellExtension.GetSelectedDrivePath env psiItemArray (Some []) MAX_PATH)) in
  (fst v = S_OK /\ exists c, snd v = Some [towupper env c; WCH ":"; WCH "\"]) \/
  ((fst v = S_FALSE \/ fst v = E_FAIL \/ fst v = E_INVALIDARG) /\ buf_str (snd v) = []).
Proof.
  cbv zeta. unfold run, ShellExtension.GetSelectedDrivePath.
  destruct psiItemArray as [sia|]; [|right; split; [right; right|]; reflexivity].
  change (MAX_PATH =? 0) with false. cbv iota.
  destruct (GetCount sia) as [hrCount count].
  destruct (FAILED hrCount || (count =? 0)); [right; split; [left|]; reflexivity|].
  destruct (GetItemAt sia 0) as [psi|]; [|right; split; [right; left|]; reflexivity].
  destruct (GetDisplayName psi SIGDN_FILESYSPATH) as [hr pszName].
  destruct (if SUCCEEDED hr then pszName else None) as [name|];
    [|right; split; [left|]; reflexivity].
  match goal with
  | |- context [if ?b then _ else _] => destruct b
  end; [|right; split; [left|]; reflexivity].
  rewrite StringCchCopy_fits by (split; [reflexivity | discriminate]).
  left. split; [reflexivity|]. exists (wch_at name 0). reflexivity.
Qed.

(** X16.  Whatever the selection, the validator called as the command calls
    it either answers S_OK and leaves a token of exactly three characters,
    an upper-cased character, a colon and a backslash, or answers S_FALSE,
    E_FAIL or E_INVALIDARG and leaves no token; and every process Invoke
    starts is started for an application path shorter than MAX_PATH with a
    command line that is that path between double quotes, --quick, and such
    a token between double quotes, never cut by the 520-character buffer. *)
Theorem X16_only_drive_tokens_are_passed env psiItemArray pbc :
  let v := fst (run (ShellExtension.GetSelectedDrivePath env psiItemArray (Some []) MAX_PATH)) in
  ((fst v = S_OK /\ exists c, snd v = Some [towupper env c; WCH ":"; WCH "\"]) \/
   ((fst v = S_FALSE \/ fst v = E_FAIL \/ fst v = E_INVALIDARG) /\ buf_str (snd v) = [])) /\
  (forall app cmdLine,
      In (EvCreateProcess app cmdLine)
         (snd (run (ShellExtension.Invoke env psiItemArray pbc))) ->
      wcslen app < MAX_PATH /\
      wcslen cmdLine < MAX_PATH * 2 /\
      exists c,
        cmdLine = [DQUOTE] ++ app ++ [DQUOTE] ++ L " --quick " ++ [DQUOTE]
                  ++ [towupper env c; WCH ":"; WCH "\"] ++ [DQUOTE]).
Proof.
  intros v. split; [apply GetSelectedDrivePath_outcomes|].
  intros app cmdLine Hin.
  destruct psiItemArray as [sia|]; [|destruct Hin].
  assert (Hlaunch : In (EvCreateProcess app cmdLine)
                       (launches (snd (run (ShellExtension.Invoke env (Some sia) pbc))))).
  { unfold launches. apply filter_In. split; [exact Hin | reflexivity]. }
  clear Hin. rewrite Invoke_run in Hlaunch. cbv zeta in Hlaunch.
  pose proof (GetSelectedDrivePath_no_launch env (Some sia) (Some []) MAX_PATH) as Lv.
  pose proof (GetExePath_no_launch env) as Lx.
  pose proof (GetExePath_bound env) as Bx.
  pose proof (GetSelectedDrivePath_outcomes env (Some sia)) as Hv.
  cbv zeta in Hv. fold v in Hv.
  change (run (ShellExtension.GetSelectedDrivePath env (Some sia) (Some []) MAX_PATH))
    with (run (ShellExtension.GetSelectedDrivePath env (Some sia) (Some []) MAX_PATH))
    in Hlaunch.
  fold v in Hlaunch.
  set (x := run (ShellExtension.GetExePath env (Some []) MAX_PATH)) in *.
  set (P := buf_str (snd (fst x))) in *.
  destruct Hv as [[Hok [c Htok]] | [_ Hempty]].
  2:{ rewrite Hempty in Hlaunch. cbn [wcslen List.length Z.of_nat Z.eqb] in Hlaunch.
      rewrite orb_true_r in Hlaunch. cbn [snd] in Hlaunch.
      rewrite Lv in Hlaunch. destruct Hlaunch. }
  rewrite Htok in Hlaunch. cbn [buf_str] in Hlaunch.
  assert (Hone : forall tr,
            In (EvCreateProcess app cmdLine)
               (launches ((snd (run (ShellExtension.GetSelectedDrivePath
                                       env (Some sia) (Some []) MAX_PATH)) ++ snd x) ++ tr)) ->
            In (EvCreateProcess app cmdLine) (launches tr)).
  { intros tr H. rewrite !launches_app, Lv, Lx in H. exact H. }
  destruct (FAILED (fst v) || _) in Hlaunch.
  { cbn [snd] in Hlaunch. rewrite Lv in Hlaunch. destruct Hlaunch. }
  destruct (FAILED (fst (fst x))) in Hlaunch.
  { cbn [snd] in Hlaunch. rewrite launches_app, Lv, Lx in Hlaunch. destruct Hlaunch. }
  assert (Hev : EvCreateProcess P (command_line P [towupper env c; WCH ":"; WCH "\"])
                = EvCreateProcess app cmdLine).
  { destruct (negb _) in Hlaunch; cbn [snd] in Hlaunch.
    - rewrite <- !app_assoc in Hlaunch. rewrite app_assoc in Hlaunch.
      apply Hone in Hlaunch. destruct Hlaunch as [H | []]. exact H.
    - apply Hone in Hlaunch. destruct Hlaunch as [H | []]. exact H. }
  injection Hev as <- <-.
  split; [exact Bx|]. split.
  - rewrite wcslen_command_line. unfold wcslen at 2. cbn [List.length].
    unfold MAX_PATH in *. lia.
  - exists c. reflexivity.
Qed.

Lemma X16_witness_launch_for_drive :
  let tool := L "C:\Tools\DiskBench.exe" in
  let env := sample_env (Some tool) None true true in
  In (EvCreateProcess tool (command_line tool (L "D:\")))
     (snd (run (ShellExtension.Invoke env (Some (selection_of [L "d:"])) nullptr))) /\
  wcslen tool < MAX_PATH /\
  wcslen (command_line tool (L "D:\")) < MAX_PATH * 2.
Proof.
  intros tool env.
  assert (Hin : In (EvCreateProcess tool (command_line tool (L "D:\")))
                   (snd (run (ShellExtension.Invoke env
                                (Some (selection_of [L "d:"])) nullptr)))).
  { cbn. do 5 right. left. reflexivity. }
  split; [exact Hin|].
  destruct (proj2 (X16_only_drive_tokens_are_passed env
                     (Some (selection_of [L "d:"])) nullptr) _ _ Hin) as (Ha & Hc & _).
  split; [exact Ha | exact Hc].
Defined.

(** ** The older copy and a per-user installation *)

Lemma Legacy_GetSelectedDrivePath_no_launch env psiItemArray pszPath cchPath :
  launches
    (snd (run (LegacyShellExtension.GetSelectedDrivePath env psiItemArray pszPath cchPath)))
  = [].
Proof.
  unfold run, LegacyShellExtension.GetSelectedDrivePath.
  repeat match goal with
         | |- context [match ?x with _ => _ end] => destruct x
         end; reflexivity.
Qed.

Lemma Legacy_GetSelectedDrivePath_registry_free env psiItemArray pszPath cchPath :
  opens
    (snd (run (LegacyShellExtension.GetSelectedDrivePath env psiItemArray pszPath cchPath)))
  = [].
Proof.
  unfold run, LegacyShellExtension.GetSelectedDrivePath.
  repeat match goal with
         | |- context [match ?x with _ => _ end] => destruct x
         end; reflexivity.
Qed.

(** X17.  The older copy reads the tool path from the machine-wide scope
    alone.  When the key does not open there, then whatever the per-user
    scope holds: the resolver answers E_FAIL after that single open and
    leaves the buffer as it was, GetIcon returns S_FALSE with a null pointer,
    and Invoke never returns S_OK, starts no process and opens no key other
    than the machine-wide one. *)
Theorem X17_older_copy_ignores_the_user_scope env :
  fst (RegOpenKeyEx env HKEY_LOCAL_MACHINE CONFIG_REG_PATH) <> ERROR_SUCCESS ->
  (forall buf cch,
      run (LegacyShellExtension.ReadExePathFromRegistry env buf cch)
      = ((E_FAIL, buf), [EvRegOpenKeyEx HKEY_LOCAL_MACHINE CONFIG_REG_PATH])) /\
  (forall psiItemArray cell,
      fst (run (LegacyShellExtension.GetIcon env psiItemArray (Some cell)))
      = (S_FALSE, Some None)) /\
  (forall psiItemArray pbc,
      let i := run (LegacyShellExtension.Invoke env psiItemArray pbc) in
      fst i <> S_OK /\ launches (snd i) = [] /\
      (opens (snd i) = [] \/
       opens (snd i) = [EvRegOpenKeyEx HKEY_LOCAL_MACHINE CONFIG_REG_PATH])).
Proof.
  intros Hm.
  split; [intros buf cch; apply Legacy_ReadExePathFromRegistry_machine_only; exact Hm|].
  split; [intros psi cell; apply Legacy_GetIcon_no_fallback; exact Hm|].
  intros psi pbc i. subst i.
  destruct psi as [sia|].
  2:{ cbn. split; [discriminate | split; [reflexivity | left; reflexivity]]. }
  pose proof (Legacy_GetSelectedDrivePath_no_launch env (Some sia) (Some []) MAX_PATH) as Lv.
  pose proof (Legacy_GetSelectedDrivePath_registry_free env (Some sia) (Some []) MAX_PATH)
    as Ov.
  set (v := run (LegacyShellExtension.GetSelectedDrivePath env (Some sia) (Some [])
                   MAX_PATH)) in *.
  assert (Hi : run (LegacyShellExtension.Invoke env (Some sia) pbc)
               = if FAILED (fst (fst v)) || (wcslen (buf_str (snd (fst v))) =? 0)
                 then (S_FALSE, snd v)
                 else (E_FAIL,
                       snd v ++ [EvRegOpenKeyEx HKEY_LOCAL_MACHINE CONFIG_REG_PATH])).
  { unfold run, LegacyShellExtension.Invoke. unfold bind at 1.
    change (LegacyShellExtension.GetSelectedDrivePath env (Some sia) (Some []) MAX_PATH [])
      with v.
    destruct v as [[hrDrive drivePath] t1]. cbn [fst snd].
    destruct (FAILED hrDrive || (wcslen (buf_str drivePath) =? 0)); [reflexivity|].
    unfold bind at 1. rewrite Legacy_GetExePath_cases. cbv zeta.
    apply Z.eqb_neq in Hm. rewrite Hm. reflexivity. }
  rewrite Hi.
  destruct (FAILED (fst (fst v)) || (wcslen (buf_str (snd (fst v))) =? 0)); cbn [fst snd].
  - split; [discriminate | split; [exact Lv | left; exact Ov]].
  - split; [discriminate|].
    rewrite launches_app, opens_app, Lv, Ov.
    split; [reflexivity | right; reflexivity].
Qed.

Lemma X17_witness_per_user_installation :
  let env := sample_env None (Some (L "C:\Tools\DiskBench.exe")) true true in
  fst (RegOpenKeyEx env HKEY_LOCAL_MACHINE CONFIG_REG_PATH) <> ERROR_SUCCESS /\
  fst (run (LegacyShellExtension.Invoke env (Some (selection_of [L "D:"])) nullptr))
  <> S_OK /\
  launches (snd (run (LegacyShellExtension.Invoke env (Some (selection_of [L "D:"]))
                        nullptr))) = [] /\
  fst (run (ShellExtension.Invoke env (Some (selection_of [L "D:"])) nullptr)) = S_OK.
Proof.
  intros env.
  assert (Hm : fst (RegOpenKeyEx env HKEY_LOCAL_MACHINE CONFIG_REG_PATH) <> ERROR_SUCCESS)
    by discriminate.
  destruct (proj2 (proj2 (X17_older_copy_ignores_the_user_scope env Hm))
              (Some (selection_of [L "D:"])) nullptr) as (Hno & Hlaunch & _).
  split; [exact Hm | split; [exact Hno | split; [exact Hlaunch | reflexivity]]].
Defined.

Lemma X6_witness_folder_hidden_and_not_handled :
  let env := sample_env (Some (L "C:\Tools\DiskBench.exe")) None true true in
  let sia := selection_of [L "D:\Projects"] in
  snd (fst (run (ShellExtension.GetState env (Some sia) 0 (Some ECS_ENABLED))))
  = Some ECS_HIDDEN /\
  fst (run (ShellExtension.Invoke env (Some sia) nullptr)) = S_FALSE.
Proof.
  intros env sia.
  assert (Hstate : snd (fst (run (ShellExtension.GetState env (Some sia) 0
                                    (Some ECS_ENABLED)))) = Some ECS_HIDDEN)
    by reflexivity.
  split; [exact Hstate|].
  exact (proj1 (proj1 (X6_GetState_agrees_with_Invoke env sia 0 ECS_ENABLED nullptr))
           Hstate).
Defined.
